(** * Micro-Entrepreneur Growth App: contact dispatch, customer filtering
      and the REST client, embedded from the TypeScript sources.

    Sources embedded here:
    - [src/services/api.ts]                        (module [ApiService])
    - [src/components/CustomersPage.tsx]           (module [CustomersPage])
    - [src/components/CustomerDetailPage.tsx]      (module [CustomerDetailPage])
    - [src/components/DigitalPresenceBuilder.tsx]  (module [DigitalPresenceBuilder])
    - [src/components/ProfilePage.tsx]             (module [ProfilePage])

    Conventions.
    - A JavaScript string is the list of its UTF-16 code units.
    - The numbers that the code handles (identifiers, HTTP status codes)
      are integers and are modelled by [Z].
    - A handler is a program ([prog]) over the effects of its component:
      the calls of its state setters and of the browser.  What a handler
      reads from its surroundings (props, the state of the render it closes
      over, the local storage, the answer to a dialog) is a parameter.
    - [trim], [includes], [startsWith], [match], [replace],
      [encodeURIComponent] and [parseInt] are defined here after ECMA-262;
      [JSON.parse], [JSON.stringify], [toLowerCase] and [toISOString] are
      taken from the platform ([Platform]).
    - A value has the TypeScript type that the sources declare for it; an
      [any]-typed value enters typed state through [from_any].
    - Console output and rendering are not modelled. *)

From Stdlib Require Import List NArith ZArith Bool Lia String Ascii.
Import ListNotations.

Set Implicit Arguments.
Set Warnings "-register-all".
Set Warnings "-notation-overridden".
Set Warnings "-ambiguous-paths".

(** ** JavaScript strings *)

Module JS.

Local Open Scope N_scope.

Definition char := N.
Definition jsstr := list char.

(** A string literal of the source (ASCII only). *)
Definition lit (s : string) : jsstr :=
  map N_of_ascii (list_ascii_of_string s).

Definition between (lo hi c : char) : bool := (lo <=? c) && (c <=? hi).

(** [\d] *)
Definition is_digit (c : char) : bool := between 48 57 c.

(** [\s], which is also the set that [String.prototype.trim] strips:
    WhiteSpace and LineTerminator of ECMA-262. *)
Definition is_space (c : char) : bool :=
  (between 9 13 c || (c =? 32) || (c =? 160) || (c =? 5760)
   || between 8192 8202 c || (c =? 8232) || (c =? 8233) || (c =? 8239)
   || (c =? 8287) || (c =? 12288) || (c =? 65279))%N.

Definition ch_plus : char := 43.
Definition ch_hyphen : char := 45.
Definition ch_at : char := 64.
Definition ch_dot : char := 46.

Definition is_char (x c : char) : bool := (c =? x)%N.

Fixpoint dropWhile (p : char -> bool) (s : jsstr) : jsstr :=
  match s with
  | [] => []
  | c :: s' => if p c then dropWhile p s' else s
  end.

Fixpoint takeWhile (p : char -> bool) (s : jsstr) : jsstr :=
  match s with
  | [] => []
  | c :: s' => if p c then c :: takeWhile p s' else []
  end.

(** [s.trim()] *)
Definition trimStart (s : jsstr) : jsstr := dropWhile is_space s.
Definition trimEnd (s : jsstr) : jsstr := rev (dropWhile is_space (rev s)).
Definition trim (s : jsstr) : jsstr := trimEnd (trimStart s).

Fixpoint str_eqb (s t : jsstr) : bool :=
  match s, t with
  | [], [] => true
  | c :: s', d :: t' => (c =? d)%N && str_eqb s' t'
  | _, _ => false
  end.

(** [s.startsWith(t)] *)
Fixpoint startsWith (s t : jsstr) {struct t} : bool :=
  match t with
  | [] => true
  | d :: t' =>
      match s with
      | [] => false
      | c :: s' => (c =? d)%N && startsWith s' t'
      end
  end.

(** [s.includes(t)] *)
Fixpoint includes (s t : jsstr) : bool :=
  startsWith s t ||
  match s with
  | [] => false
  | _ :: s' => includes s' t
  end.

(** [s.replace(/[cls]/g, '')]: every code unit of the class is deleted. *)
Definition remove_all (cls : char -> bool) (s : jsstr) : jsstr :=
  filter (fun c => negb (cls c)) s.

(** [s || ''] on a string. *)
Definition or_empty (s : jsstr) : jsstr :=
  match s with [] => lit "" | _ => s end.

(** Truthiness of a string. *)
Definition nonempty (s : jsstr) : bool :=
  match s with [] => false | _ => true end.

(** *** Numbers to strings *)

Fixpoint digits_of_pos (fuel : nat) (n : N) (acc : jsstr) : jsstr :=
  match fuel with
  | O => acc
  | S fuel' =>
      let acc' := (48 + n mod 10) :: acc in
      if (n / 10 =? 0)%N then acc' else digits_of_pos fuel' (n / 10)%N acc'
  end.

(** [String(n)] for a non-negative integer. *)
Definition N_toString (n : N) : jsstr := digits_of_pos (S (N.to_nat (N.log2 n))) n [].

(** [String(z)], which is also what a template literal prints, for an
    integer that the code holds exactly: a safe integer, below 2^53 in
    absolute value.  (Numbers are doubles in the code; from 10^21 on they
    print with an exponent.  What is proved about the digits of a number
    is stated for safe integers.) *)
Definition Z_toString (z : Z) : jsstr :=
  match z with
  | Zneg p => ch_hyphen :: N_toString (Npos p)
  | _ => N_toString (Z.to_N z)
  end.

(** *** [encodeURIComponent] *)

Definition is_alnum (c : char) : bool :=
  between 48 57 c || between 65 90 c || between 97 122 c.

(** uriUnreserved: alphanumerics and [-_.!~*'()] *)
Definition is_unreserved (c : char) : bool :=
  (is_alnum c || (c =? 45) || (c =? 95) || (c =? 46) || (c =? 33)
   || (c =? 126) || (c =? 42) || (c =? 39) || (c =? 40) || (c =? 41))%N.

Definition hex_digit (d : N) : char :=
  (if d <? 10 then 48 + d else 55 + d)%N.

Definition percent (byte : N) : jsstr :=
  [37%N; hex_digit (byte / 16); hex_digit (byte mod 16)].

Definition utf8 (cp : N) : list N :=
  (if cp <? 128 then [cp]
   else if cp <? 2048 then [192 + cp / 64; 128 + cp mod 64]
   else if cp <? 65536 then
     [224 + cp / 4096; 128 + (cp / 64) mod 64; 128 + cp mod 64]
   else
     [240 + cp / 262144; 128 + (cp / 4096) mod 64;
      128 + (cp / 64) mod 64; 128 + cp mod 64])%N.

Definition is_high_surrogate (c : char) : bool := between 55296 56319 c.
Definition is_low_surrogate (c : char) : bool := between 56320 57343 c.

(** [None] stands for the [URIError] thrown on a lone surrogate. *)
Fixpoint encodeURIComponent (s : jsstr) : option jsstr :=
  match s with
  | [] => Some []
  | c :: s' =>
      if is_unreserved c then option_map (cons c) (encodeURIComponent s')
      else if is_low_surrogate c then None
      else if is_high_surrogate c then
        match s' with
        | d :: s'' =>
            if is_low_surrogate d then
              let cp := ((c - 55296) * 1024 + (d - 56320) + 65536)%N in
              option_map (app (flat_map percent (utf8 cp)))
                         (encodeURIComponent s'')
            else None
        | [] => None
        end
      else option_map (app (flat_map percent (utf8 c))) (encodeURIComponent s')
  end.

End JS.
Import JS.


(** ** Regular expressions

    The fragment of ECMAScript regular expressions that the sources use,
    with the backtracking semantics of ECMA-262: a matcher enumerates, in
    priority order, the ways of matching at the current position; each way
    is given by the input left over after it. *)

Module RegExp.

Inductive regex : Type :=
| Class (p : char -> bool)        (* one code unit of a class, e.g. [[\d\s-]] *)
| Seq (r1 r2 : regex)             (* r1 r2 *)
| Opt (r : regex)                 (* r?     greedy *)
| AtLeast (n : nat) (r : regex)   (* r{n,}  greedy; r+ is r{1,} *)
| Group (r : regex).              (* ( r ) *)

(** The optional iterations of a greedy quantifier: take one more
    iteration when it consumes input, otherwise stop here. *)
Fixpoint greedy (step : jsstr -> list jsstr) (fuel : nat) (s : jsstr)
  : list jsstr :=
  match fuel with
  | O => [s]
  | S fuel' =>
      flat_map (fun s' => if (List.length s' <? List.length s)%nat
                          then greedy step fuel' s' else [])
               (step s)
      ++ [s]
  end.

(** [r{n,}]: [n] mandatory iterations, then the optional ones. *)
Fixpoint at_least (step : jsstr -> list jsstr) (n : nat) (s : jsstr)
  : list jsstr :=
  match n with
  | O => greedy step (List.length s) s
  | S n' => flat_map (at_least step n') (step s)
  end.

(** All ways of matching [r] at the start of [s], best first. *)
Fixpoint alts (r : regex) (s : jsstr) : list jsstr :=
  match r with
  | Class p =>
      match s with
      | c :: s' => if p c then [s'] else []
      | [] => []
      end
  | Seq r1 r2 => flat_map (alts r2) (alts r1 s)
  | Opt r1 => alts r1 s ++ [s]
  | AtLeast n r1 => at_least (alts r1) n s
  | Group r1 => alts r1 s
  end.

(** What [String.prototype.match] returns for a regular expression without
    the [g] flag: the index of the match and [m[0]], the matched text. *)
Record match_result : Type := { index : nat; m0 : jsstr }.

(** The search tries the start positions from left to right and keeps the
    first position where the pattern matches, with the best way there. *)
Fixpoint search (r : regex) (s : jsstr) (i : nat) : option match_result :=
  match alts r s with
  | rest :: _ => Some {| index := i; m0 := firstn (List.length s - List.length rest) s |}
  | [] =>
      match s with
      | [] => None
      | _ :: s' => search r s' (S i)
      end
  end.

(** [s.match(r)] *)
Definition str_match (s : jsstr) (r : regex) : option match_result :=
  search r s 0.

(** [m && m[0]] *)
Definition and_m0 (m : option match_result) : option jsstr :=
  match m with
  | Some res => if nonempty (m0 res) then Some (m0 res) else None
  | None => None
  end.

(** The language of a pattern: the texts it can match. *)
Inductive lang : regex -> jsstr -> Prop :=
| L_class p c : p c = true -> lang (Class p) [c]
| L_seq r1 r2 u v : lang r1 u -> lang r2 v -> lang (Seq r1 r2) (u ++ v)
| L_opt_some r u : lang r u -> lang (Opt r) u
| L_opt_none r : lang (Opt r) []
| L_more n r u v : lang r u -> lang (AtLeast (pred n) r) v ->
                   lang (AtLeast n r) (u ++ v)
| L_enough r : lang (AtLeast 0 r) []
| L_group r u : lang r u -> lang (Group r) u.

(** [[\d\s-]] *)
Definition phone_class (c : char) : bool :=
  is_digit c || is_space c || is_char ch_hyphen c.

(** [/(\+?[\d\s-]{10,})/] *)
Definition phone_re : regex :=
  Group (Seq (Opt (Class (is_char ch_plus))) (AtLeast 10 (Class phone_class))).

Definition is_upper (c : char) : bool := between 65%N 90%N c.
Definition is_lower (c : char) : bool := between 97%N 122%N c.
Definition is_alpha (c : char) : bool := is_upper c || is_lower c.

(** [[a-zA-Z0-9._%+-]] *)
Definition email_local_class (c : char) : bool :=
  (is_alpha c || is_digit c || (c =? 46) || (c =? 95) || (c =? 37)
   || (c =? 43) || (c =? 45))%N.

(** [[a-zA-Z0-9.-]] *)
Definition email_domain_class (c : char) : bool :=
  (is_alpha c || is_digit c || (c =? 46) || (c =? 45))%N.

(** [/([a-zA-Z0-9._%+-]+@[a-zA-Z0-9.-]+\.[a-zA-Z]{2,})/i].  The classes
    hold both cases of every letter, and without the [u] flag no code unit
    above 127 is folded onto an ASCII one, so the [i] flag changes nothing. *)
Definition email_re : regex :=
  Group (Seq (AtLeast 1 (Class email_local_class))
        (Seq (Class (is_char ch_at))
        (Seq (AtLeast 1 (Class email_domain_class))
        (Seq (Class (is_char ch_dot))
             (AtLeast 2 (Class is_alpha)))))).

(** [\S] *)
Definition not_space (c : char) : bool := negb (is_space c).

(** [/\S+@\S+\.\S+/i]; no code unit is folded onto a white space, so the
    [i] flag changes nothing here either. *)
Definition simple_email_re : regex :=
  Seq (AtLeast 1 (Class not_space))
 (Seq (Class (is_char ch_at))
 (Seq (AtLeast 1 (Class not_space))
 (Seq (Class (is_char ch_dot))
      (AtLeast 1 (Class not_space))))).

End RegExp.
Import RegExp.

(** ** JavaScript values, exceptions and the platform *)

Module Values.

(** The values that flow through [any]-typed code: JSON data. *)
Inductive value : Type :=
| Undefined
| Null
| Bool (b : bool)
| Num (z : Z)
| Str (s : jsstr)
| Arr (items : list value)
| Obj (fields : list (jsstr * value))
| Host (tag : jsstr).           (* a host object such as a [File] *)

Inductive exn : Type :=
| Error (msg : jsstr)
| TypeError (msg : jsstr)
| SyntaxError (msg : jsstr)
| URIError (msg : jsstr).

(** [err.message]; every exception above is an instance of [Error]. *)
Definition message (e : exn) : jsstr :=
  match e with
  | Error m | TypeError m | SyntaxError m | URIError m => m
  end.

(** Truthiness of a value. *)
Definition truthy (v : value) : bool :=
  match v with
  | Undefined | Null => false
  | Bool b => b
  | Num z => negb (z =? 0)%Z
  | Str s => nonempty s
  | Arr _ | Obj _ | Host _ => true
  end.

Fixpoint lookup (k : jsstr) (fields : list (jsstr * value)) : value :=
  match fields with
  | [] => Undefined
  | (k', v) :: rest => if str_eqb k' k then v else lookup k rest
  end.

(** [v.k] for a data property [k]: a [TypeError] on [null] and
    [undefined] (with the message of V8), [undefined] where the property
    is absent. *)
Definition get (k : jsstr) (v : value) : exn + value :=
  match v with
  | Undefined =>
      inl (TypeError (lit "Cannot read properties of undefined (reading '"
                      ++ k ++ lit "')"))
  | Null =>
      inl (TypeError (lit "Cannot read properties of null (reading '"
                      ++ k ++ lit "')"))
  | Obj fields => inr (lookup k fields)
  | _ => inr Undefined
  end.

(** The built-ins that are taken from the platform as they are. *)
Class Platform : Type := {
  (** [JSON.parse]; the left summand is the [SyntaxError] it throws *)
  JSON_parse : jsstr -> exn + value;
  (** [JSON.stringify] on JSON data; [None] is [undefined] *)
  JSON_stringify : value -> option jsstr;
  (** [String.prototype.toLowerCase] *)
  toLowerCase : jsstr -> jsstr;
  (** [new Date(s).toISOString()]; the left summand is the [RangeError] *)
  toISOString : jsstr -> exn + jsstr
}.

(** The unchecked view of an [any]-typed value at a declared type. *)
Class FromAny (T : Type) : Type := from_any : value -> T.

(** [parseInt(s)]: leading white space, a sign, then decimal digits (or
    hexadecimal ones after [0x]); [None] is [NaN].  The result is the
    integer that the digits spell; the code holds it as a double, which
    is that integer whenever it is a safe integer (below 2^53 in absolute
    value) and its rounding otherwise.  What is proved about the number
    that was read is stated for safe integers. *)
Definition digit_value (radix : N) (c : char) : option N :=
  let d := (if between 48 57 c then Some (c - 48)
            else if between 97 122 c then Some (c - 87)
            else if between 65 90 c then Some (c - 55)
            else None)%N in
  match d with
  | Some n => if (n <? radix)%N then Some n else None
  | None => None
  end.

Fixpoint parse_digits (radix : N) (s : jsstr) (acc : option N) : option N :=
  match s with
  | [] => acc
  | c :: s' =>
      match digit_value radix c with
      | Some d =>
          parse_digits radix s'
            (Some (match acc with Some a => a * radix + d | None => d end)%N)
      | None => acc
      end
  end.

Definition parseInt (s : jsstr) : option Z :=
  let s1 := trimStart s in
  let '(neg, s2) :=
    match s1 with
    | c :: rest => if (c =? 45)%N then (true, rest)
                   else if (c =? 43)%N then (false, rest)
                   else (false, s1)
    | [] => (false, s1)
    end in
  let '(radix, s3) :=
    match s2 with
    | c :: d :: rest =>
        if ((c =? 48) && ((d =? 120) || (d =? 88)))%N then (16%N, rest)
        else (10%N, s2)
    | _ => (10%N, s2)
    end in
  match parse_digits radix s3 None with
  | Some n => Some (if neg then (- Z.of_N n)%Z else Z.of_N n)
  | None => None
  end.

(** [parseInt(s) || 1] *)
Definition parseInt_or_1 (s : jsstr) : Z :=
  match parseInt s with
  | Some z => if (z =? 0)%Z then 1%Z else z
  | None => 1%Z
  end.

End Values.
Import Values.

(** ** Effects: a handler is a program that performs user-interface
    effects and network requests *)

Module Async.

Inductive http_method : Type := GET | POST | PUT | DELETE.

Inductive payload : Type :=
| Text (s : jsstr)
| FormData (entries : list (jsstr * value)).

(** The arguments of a call to [fetch]. *)
Record request : Type := {
  url : jsstr;
  method : http_method;
  headers : list (jsstr * jsstr);
  body : option payload
}.

(** The [Response] that [fetch] resolves to, with the text of its body. *)
Record response : Type := {
  status : Z;
  statusText : jsstr;
  text : jsstr
}.

(** [response.ok]: the status is in the range 200-299. *)
Definition ok (r : response) : bool :=
  ((200 <=? status r) && (status r <=? 299))%Z.

(** How a [fetch] and the reading of its response end.  The promise of
    [fetch] is rejected, or it resolves to a response.  The body of the
    response is read afterwards, by [response.text()] or
    [response.json()], and that reading is a promise of its own: it
    yields the text of the body ([Resolved], the record holds the text),
    or it is rejected ([Unreadable], with the status line of the response
    and the exception of the reading). *)
Inductive fetch_result : Type :=
| Rejected (e : exn)
| Resolved (r : response)
| Unreadable (code : Z) (reason : jsstr) (e : exn).

Section Prog.
Variable E : Type.   (* the user-interface effects of a component *)

(** A program over effects [E] that returns an [A]. *)
Inductive prog (A : Type) : Type :=
| Ret (a : A)
| Throw (e : exn)
| Do (e : E) (k : prog A)                        (* an effect, then [k] *)
| Await (r : request) (k : fetch_result -> prog A)  (* [await fetch(r)] *)
| Fire (r : request) (k : prog A).               (* [fetch(r)], not awaited *)

Arguments Ret {A} a.
Arguments Throw {A} e.
Arguments Do {A} e k.
Arguments Await {A} r k.
Arguments Fire {A} r k.

Fixpoint bind {A B : Type} (p : prog A) (f : A -> prog B) : prog B :=
  match p with
  | Ret a => f a
  | Throw e => Throw e
  | Do e k => Do e (bind k f)
  | Await r k => Await r (fun res => bind (k res) f)
  | Fire r k => Fire r (bind k f)
  end.

(** [try { p } catch (err) { h err }] *)
Fixpoint try_catch {A : Type} (p : prog A) (h : exn -> prog A) : prog A :=
  match p with
  | Ret a => Ret a
  | Throw e => h e
  | Do e k => Do e (try_catch k h)
  | Await r k => Await r (fun res => try_catch (k res) h)
  | Fire r k => Fire r (try_catch k h)
  end.

(** [try { p } finally { f }], where [f] completes normally. *)
Fixpoint finally {A : Type} (p : prog A) (f : prog unit) : prog A :=
  match p with
  | Ret a => bind f (fun _ => Ret a)
  | Throw e => bind f (fun _ => Throw e)
  | Do e k => Do e (finally k f)
  | Await r k => Await r (fun res => finally (k res) f)
  | Fire r k => Fire r (finally k f)
  end.

(** Lifting a computation that may throw. *)
Definition lift {A : Type} (r : exn + A) : prog A :=
  match r with
  | inl e => Throw e
  | inr a => Ret a
  end.

(** What an observer of a run sees. *)
Inductive event : Type :=
| Sent (r : request)
| Settled (r : request) (res : fetch_result)
| Effect (e : E).

Inductive outcome (A : Type) : Type :=
| Returned (a : A)
| Raised (e : exn).

Arguments Returned {A} a.
Arguments Raised {A} e.

(** A backend answers the [n]-th request of a run. *)
Definition backend : Type := nat -> request -> fetch_result.

(** The run of a program against a backend, [n] requests having been sent
    before. *)
Fixpoint run {A : Type} (b : backend) (n : nat) (p : prog A)
  : list event * outcome A :=
  match p with
  | Ret a => ([], Returned a)
  | Throw e => ([], Raised e)
  | Do e k => let '(t, o) := run b n k in (Effect e :: t, o)
  | Await r k =>
      let res := b n r in
      let '(t, o) := run b (S n) (k res) in
      (Sent r :: Settled r res :: t, o)
  | Fire r k => let '(t, o) := run b (S n) k in (Sent r :: t, o)
  end.

Definition trace {A : Type} (b : backend) (p : prog A) : list event :=
  fst (run b 0 p).

Definition result {A : Type} (b : backend) (p : prog A) : outcome A :=
  snd (run b 0 p).

(** The requests of a trace, in the order they were sent. *)
Fixpoint requests (t : list event) : list request :=
  match t with
  | [] => []
  | Sent r :: t' => r :: requests t'
  | _ :: t' => requests t'
  end.

(** The effects of a trace, in order. *)
Fixpoint effects (t : list event) : list E :=
  match t with
  | [] => []
  | Effect e :: t' => e :: effects t'
  | _ :: t' => effects t'
  end.

(** The largest number of requests in flight at any moment of a trace that
    starts with [cur] requests in flight. *)
Fixpoint peak (cur : nat) (t : list event) : nat :=
  match t with
  | [] => cur
  | Sent _ :: t' => Nat.max cur (peak (S cur) t')
  | Settled _ _ :: t' => Nat.max cur (peak (pred cur) t')
  | Effect _ :: t' => peak cur t'
  end.

(** A program in which every [fetch] is awaited. *)
Inductive awaited {A : Type} : prog A -> Prop :=
| aw_ret a : awaited (Ret a)
| aw_throw e : awaited (Throw e)
| aw_do e k : awaited k -> awaited (Do e k)
| aw_await r k : (forall res, awaited (k res)) -> awaited (Await r k).

End Prog.

Arguments Ret {E A} a.
Arguments Throw {E A} e.
Arguments Do {E A} e k.
Arguments Await {E A} r k.
Arguments Fire {E A} r k.
Arguments Returned {A} a.
Arguments Raised {A} e.
Arguments Sent {E} r.
Arguments Settled {E} r res.
Arguments Effect {E} e.
Arguments lift {E A} r.

Notation "x <- p ;; q" := (bind p (fun x => q))
  (at level 61, p at next level, right associativity).
Notation "p ;;; q" := (bind p (fun _ => q))
  (at level 61, right associativity).

(** A single effect. *)
Definition perform {E : Type} (e : E) : prog E unit := Do e (Ret tt).

End Async.
Import Async.

(** ** [src/services/api.ts] *)

Module ApiService.

Definition API_BASE_URL : jsstr := lit "http://localhost:8000".

Definition json_headers : list (jsstr * jsstr) :=
  [(lit "Content-Type", lit "application/json")].

(** [fetch(url)] *)
Definition fetch_url (u : jsstr) : request :=
  {| url := u; method := GET; headers := []; body := None |}.

(** [fetch(url, { method, headers: {'Content-Type': 'application/json'},
    body: JSON.stringify(data) })] *)
Definition send_json `{Platform} (m : http_method) (u : jsstr) (data : value)
  : request :=
  {| url := u; method := m; headers := json_headers;
     body := option_map Text (JSON_stringify data) |}.

(** The message of the error thrown on a response that is not ok:
    [`<label>: ${response.status} ${response.statusText} - ${errorText}`] *)
Definition failure_message (label : jsstr) (r : response) : jsstr :=
  label ++ lit ": " ++ Z_toString (status r) ++ lit " " ++ statusText r
        ++ lit " - " ++ text r.

(** The calls of the class, with the type of what each returns. *)
Inductive call : Type -> Type :=
| login (data : value) : call value
| getCustomerInteractions (customer_id : Z) : call value
| getCustomerDetailedInteractions (customer_id user_id : Z) : call value
| createCustomerInteraction (data : value) : call value
| updateCustomerInteraction (interaction_id : Z) (data : value) : call value
| deleteCustomerInteraction (interaction_id : Z) : call value
| getUpcomingFollowups (user_id : Z) (days : option Z) : call value
| getCustomer (customer_id : Z) : call value
| contactCustomer (customer_id : Z) (data : value) : call value
| getReferralLink (user_id : Z) : call value
| signup (data : value) : call value
| getProfile (user_id : jsstr) : call value
| updateProfile (user_id : jsstr) (profileData : value) : call value
| uploadProfileImage (user_id : jsstr) (formData : list (jsstr * value))
  : call value
| getBusinessTypes : call value
| createCustomer (data : value) : call value
| getCustomers (user_id : Z) : call value
| searchCustomers (user_id : Z) (query : jsstr) : call value
| getReferrals (user_id : Z) : call value
| getReferralStats (user_id : Z) : call value
| getRewards (user_id : Z) : call value
| getDashboardMetrics (user_id : Z) : call value
| getReports (user_id : Z) : call value
| sendMessage (messageData : value) : call value
| getMessageTemplates : call value
| getConversation (customer_id user_id : Z) : call value
| getAIAssist (prompt : jsstr) (context : value) : call value
| generatePersonalizedMessage (customer_id user_id : Z) (message_type : jsstr)
  : call value
| getCustomerInsights (customer_id user_id : Z) : call value
| setupAutoResponses (user_id : Z) (responses : option value) : call value
| generateMarketingContent (data : value) : call value
| generateAIImage (prompt : jsstr) : call value
| getWebsiteInfo (user_id : Z) : call value
| getWebsiteTemplates : call value
| applyWebsiteTemplate (user_id : Z) (template_id : jsstr) : call value
| generateWebsiteHtml (user_id : Z) (template_id : jsstr) : call value
| previewWebsite (user_id : Z) (template_id : jsstr) : call jsstr
| getSocialProfiles (user_id : Z) : call value
| getDigitalPresenceAnalytics (user_id : Z) : call value.

Section Methods.
Context `{Platform}.
Variable E : Type.

(** The part that all methods share: one [fetch], awaited; a rejection of
    the promise propagates; a response that is not ok is turned into an
    [Error] that carries the status, the status text and the body, once
    the body has been read; when the body cannot be read, the rejection
    of the reading propagates instead. *)
Definition checked (label : jsstr) (req : request) : prog E response :=
  Await req (fun res =>
    match res with
    | Rejected e => Throw e
    | Resolved r =>
        if negb (ok r) then Throw (Error (failure_message label r))
        else Ret r
    | Unreadable _ _ e =>
        (* [await response.text()] of the error branch, or
           [await response.json()] (or [.text()]) of the other, rejects *)
        Throw e
    end).

(** [const result = await response.json(); return result;] *)
Definition returning_json (label : jsstr) (req : request) : prog E value :=
  r <- checked label req ;; lift (JSON_parse (text r)).

(** [const htmlContent = await response.text(); return htmlContent;] *)
Definition returning_text (label : jsstr) (req : request) : prog E jsstr :=
  r <- checked label req ;; Ret (text r).

Definition at_ (path : jsstr) : jsstr := API_BASE_URL ++ path.

Definition num (z : Z) : jsstr := Z_toString z.

(** The request of each call and the label of its error message. *)
Definition request_of {A : Type} (c : call A) : request :=
  match c with
  | login data => send_json POST (at_ (lit "/auth/login")) data
  | getCustomerInteractions customer_id =>
      fetch_url (at_ (lit "/customers/" ++ num customer_id ++ lit "/interactions"))
  | getCustomerDetailedInteractions customer_id user_id =>
      fetch_url (at_ (lit "/interactions/?customer_id=" ++ num customer_id
                 ++ lit "&user_id=" ++ num user_id))
  | createCustomerInteraction data =>
      send_json POST (at_ (lit "/interactions/")) data
  | updateCustomerInteraction interaction_id data =>
      send_json PUT (at_ (lit "/interactions/" ++ num interaction_id)) data
  | deleteCustomerInteraction interaction_id =>
      {| url := at_ (lit "/interactions/" ++ num interaction_id);
         method := DELETE; headers := []; body := None |}
  | getUpcomingFollowups user_id days =>
      let days := match days with Some d => d | None => 7%Z end in
      fetch_url (at_ (lit "/interactions/upcoming-followups?user_id=" ++ num user_id
                 ++ lit "&days=" ++ num days))
  | getCustomer customer_id =>
      fetch_url (at_ (lit "/customers/" ++ num customer_id))
  | contactCustomer customer_id data =>
      send_json POST (at_ (lit "/customers/" ++ num customer_id ++ lit "/contact"))
                data
  | getReferralLink user_id =>
      fetch_url (at_ (lit "/referrals/link/" ++ num user_id))
  | signup data => send_json POST (at_ (lit "/auth/signup")) data
  | getProfile user_id =>
      fetch_url (at_ (lit "/auth/profile?current_user_id=" ++ user_id))
  | updateProfile user_id profileData =>
      send_json PUT (at_ (lit "/auth/profile?current_user_id=" ++ user_id))
                profileData
  | uploadProfileImage user_id formData =>
      {| url := at_ (lit "/auth/profile/upload-image?current_user_id=" ++ user_id);
         method := POST; headers := []; body := Some (FormData formData) |}
  | getBusinessTypes => fetch_url (at_ (lit "/auth/business-types"))
  | createCustomer data => send_json POST (at_ (lit "/customers/")) data
  | getCustomers user_id =>
      fetch_url (at_ (lit "/customers/?user_id=" ++ num user_id))
  | searchCustomers user_id query =>
      fetch_url (at_ (lit "/customers/search?user_id=" ++ num user_id
                 ++ lit "&query=" ++ query))
  | getReferrals user_id =>
      fetch_url (at_ (lit "/referrals/?user_id=" ++ num user_id))
  | getReferralStats user_id =>
      fetch_url (at_ (lit "/referrals/stats?user_id=" ++ num user_id))
  | getRewards user_id =>
      fetch_url (at_ (lit "/referrals/rewards?user_id=" ++ num user_id))
  | getDashboardMetrics user_id =>
      fetch_url (at_ (lit "/dashboard?user_id=" ++ num user_id))
  | getReports user_id =>
      fetch_url (at_ (lit "/dashboard/reports?user_id=" ++ num user_id))
  | sendMessage messageData =>
      send_json POST (at_ (lit "/messaging/send")) messageData
  | getMessageTemplates => fetch_url (at_ (lit "/messaging/message-templates"))
  | getConversation customer_id user_id =>
      fetch_url (at_ (lit "/messaging/conversations/" ++ num customer_id
                 ++ lit "?user_id=" ++ num user_id))
  | getAIAssist prompt context =>
      send_json POST (at_ (lit "/ai/assist"))
        (Obj [(lit "prompt", Str prompt); (lit "context", context)])
  | generatePersonalizedMessage customer_id user_id message_type =>
      send_json POST (at_ (lit "/ai/generate-message"))
        (Obj [(lit "customer_id", Num customer_id); (lit "user_id", Num user_id);
              (lit "message_type", Str message_type)])
  | getCustomerInsights customer_id user_id =>
      send_json POST (at_ (lit "/ai/customer-insights"))
        (Obj [(lit "customer_id", Num customer_id); (lit "user_id", Num user_id)])
  | setupAutoResponses user_id responses =>
      let responses := match responses with Some r => r | None => Obj [] end in
      send_json POST (at_ (lit "/ai/auto-responses"))
        (Obj [(lit "user_id", Num user_id); (lit "responses", responses)])
  | generateMarketingContent data =>
      send_json POST (at_ (lit "/ai/marketing-content")) data
  | generateAIImage prompt =>
      send_json POST (at_ (lit "/ai/generate-image"))
        (Obj [(lit "prompt", Str prompt);
              (lit "model", Str (lit "gemini-2.5-flash-image-preview"))])
  | getWebsiteInfo user_id =>
      fetch_url (at_ (lit "/digital-presence/website/" ++ num user_id))
  | getWebsiteTemplates => fetch_url (at_ (lit "/digital-presence/templates"))
  | applyWebsiteTemplate user_id template_id =>
      send_json POST
        (at_ (lit "/digital-presence/website/" ++ num user_id ++ lit "/template"))
        (Obj [(lit "template_id", Str template_id)])
  | generateWebsiteHtml user_id template_id =>
      fetch_url (at_ (lit "/digital-presence/website/" ++ num user_id
                 ++ lit "/generate/" ++ template_id))
  | previewWebsite user_id template_id =>
      fetch_url (at_ (lit "/digital-presence/website/" ++ num user_id
                 ++ lit "/preview/" ++ template_id))
  | getSocialProfiles user_id =>
      fetch_url (at_ (lit "/digital-presence/social-profiles/" ++ num user_id))
  | getDigitalPresenceAnalytics user_id =>
      fetch_url (at_ (lit "/digital-presence/analytics/" ++ num user_id))
  end.

Definition label_of {A : Type} (c : call A) : jsstr :=
  match c with
  | login _ => lit "Login failed"
  | getCustomerInteractions _ => lit "Failed to fetch interactions"
  | getCustomerDetailedInteractions _ _ =>
      lit "Failed to fetch detailed interactions"
  | createCustomerInteraction _ => lit "Failed to create interaction"
  | updateCustomerInteraction _ _ => lit "Failed to update interaction"
  | deleteCustomerInteraction _ => lit "Failed to delete interaction"
  | getUpcomingFollowups _ _ => lit "Failed to fetch followups"
  | getCustomer _ => lit "Failed to fetch customer"
  | contactCustomer _ _ => lit "Failed to contact customer"
  | getReferralLink _ => lit "Failed to fetch referral link"
  | signup _ => lit "Signup failed"
  | getProfile _ => lit "Failed to fetch profile"
  | updateProfile _ _ => lit "Failed to update profile"
  | uploadProfileImage _ _ => lit "Failed to upload image"
  | getBusinessTypes => lit "Failed to fetch business types"
  | createCustomer _ => lit "Failed to create customer"
  | getCustomers _ => lit "Failed to fetch customers"
  | searchCustomers _ _ => lit "Failed to search customers"
  | getReferrals _ => lit "Failed to fetch referrals"
  | getReferralStats _ => lit "Failed to fetch referral stats"
  | getRewards _ => lit "Failed to fetch rewards"
  | getDashboardMetrics _ => lit "Failed to fetch dashboard metrics"
  | getReports _ => lit "Failed to fetch reports"
  | sendMessage _ => lit "Failed to send message"
  | getMessageTemplates => lit "Failed to fetch message templates"
  | getConversation _ _ => lit "Failed to fetch conversation"
  | getAIAssist _ _ => lit "Failed to get AI assistance"
  | generatePersonalizedMessage _ _ _ => lit "Failed to generate message"
  | getCustomerInsights _ _ => lit "Failed to get customer insights"
  | setupAutoResponses _ _ => lit "Failed to setup auto-responses"
  | generateMarketingContent _ => lit "Failed to generate marketing content"
  | generateAIImage _ => lit "Failed to generate image"
  | getWebsiteInfo _ => lit "Failed to fetch website info"
  | getWebsiteTemplates => lit "Failed to fetch website templates"
  | applyWebsiteTemplate _ _ => lit "Failed to apply template"
  | generateWebsiteHtml _ _ => lit "Failed to generate website HTML"
  | previewWebsite _ _ => lit "Failed to fetch website preview"
  | getSocialProfiles _ => lit "Failed to fetch social profiles"
  | getDigitalPresenceAnalytics _ => lit "Failed to fetch digital presence analytics"
  end.

(** [apiService.<method>(<arguments>)] *)
Definition apiService {A : Type} (c : call A) : prog E A :=
  match c in call T return request -> jsstr -> prog E T with
  | previewWebsite _ _ => fun req label => returning_text label req
  | _ => fun req label => returning_json label req
  end (request_of c) (label_of c).

End Methods.

End ApiService.
Import ApiService.

(** ** Helpers shared by the contact handlers of both customer pages *)

Module Contact.

(** [encodeURIComponent(s)], with the [URIError] it throws (with the
    message of V8). *)
Definition encode (s : jsstr) : exn + jsstr :=
  match encodeURIComponent s with
  | Some e => inr e
  | None => inl (URIError (lit "URI malformed"))
  end.

(** [[\s-]] *)
Definition space_or_hyphen (c : char) : bool :=
  is_space c || is_char ch_hyphen c.

(** [[^\d+]] *)
Definition not_digit_or_plus (c : char) : bool :=
  negb (is_digit c || is_char ch_plus c).

(** [[^\d]] *)
Definition not_digit (c : char) : bool := negb (is_digit c).

(** The line feed written as a backslash followed by n in the sources. *)
Definition nl : jsstr := [10%N].

(** What [window.open] does in [handleEmail], the one handler that guards
    the call: it throws, or it returns a window ([true]) or [null]. *)
Definition opening : Type := exn + bool.

(** [let emailMatch = info.match(standard); if (!emailMatch) emailMatch =
    info.match(simple); ... emailMatch && emailMatch[0]] *)
Definition email_of (info : jsstr) : option jsstr :=
  and_m0 (match str_match info email_re with
          | Some m => Some m
          | None => str_match info simple_email_re
          end).

End Contact.
Import Contact.

(** The [Customer] interface, declared alike by both customer pages. *)
Module Customer.
Record t : Type := {
  id : Z;
  name : jsstr;
  contact_info : jsstr;
  notes : option jsstr;
  last_contacted : option jsstr;
  user_id : Z
}.
End Customer.

(** ** [src/components/CustomersPage.tsx] *)

Module CustomersPage.

(** The fields of the new-customer form. *)
Module Form.
Record t : Type := { name : jsstr; contact_info : jsstr; notes : jsstr }.
Definition empty : t := {| name := lit ""; contact_info := lit ""; notes := lit "" |}.
End Form.

(** The effects of the component: its state setters and the browser
    calls of its handlers. *)
Inductive ui : Type :=
| setSearchTerm (s : jsstr)
| setCustomers (l : list Customer.t)
| setLoading (b : bool)
| setError (s : jsstr)
| setShowAddForm (b : bool)
| setNewCustomer (f : Form.t)
| setDetailsOpen (b : bool)
| setActiveCustomer (c : option Customer.t)
| setInteractions (v : value)
| setAiLoading (b : bool)
| setAiError (s : jsstr)
| setAiActive (b : bool)
| location_href (u : jsstr)              (* [window.location.href = u] *)
| window_open (u target : jsstr)         (* [window.open(u, target)] *)
| alert (msg : jsstr)
| clipboard_writeText (s : jsstr).       (* [navigator.clipboard.writeText(s)] *)

(** The state of the component, with the initial values of [useState]. *)
Record State : Type := {
  searchTerm : jsstr;
  customers : list Customer.t;
  loading : bool;
  error : jsstr;
  showAddForm : bool;
  newCustomer : Form.t;
  detailsOpen : bool;
  activeCustomer : option Customer.t;
  interactions : value;
  aiLoading : bool;
  aiError : jsstr;
  aiActive : bool
}.

Definition initial : State :=
  {| searchTerm := lit ""; customers := []; loading := false; error := lit "";
     showAddForm := false; newCustomer := Form.empty; detailsOpen := false;
     activeCustomer := None; interactions := Arr []; aiLoading := false;
     aiError := lit ""; aiActive := false |}.

(** The state after an effect: a setter replaces its field, a browser call
    leaves the state alone. *)
Definition apply (st : State) (e : ui) : State :=
  let '{| searchTerm := a; customers := b; loading := c; error := d;
          showAddForm := f; newCustomer := g; detailsOpen := h;
          activeCustomer := i; interactions := j; aiLoading := k;
          aiError := l; aiActive := m |} := st in
  match e with
  | setSearchTerm x => Build_State x b c d f g h i j k l m
  | setCustomers x => Build_State a x c d f g h i j k l m
  | setLoading x => Build_State a b x d f g h i j k l m
  | setError x => Build_State a b c x f g h i j k l m
  | setShowAddForm x => Build_State a b c d x g h i j k l m
  | setNewCustomer x => Build_State a b c d f x h i j k l m
  | setDetailsOpen x => Build_State a b c d f g x i j k l m
  | setActiveCustomer x => Build_State a b c d f g h x j k l m
  | setInteractions x => Build_State a b c d f g h i x k l m
  | setAiLoading x => Build_State a b c d f g h i j x l m
  | setAiError x => Build_State a b c d f g h i j k x m
  | setAiActive x => Build_State a b c d f g h i j k l x
  | location_href _ | window_open _ _ | alert _ | clipboard_writeText _ => st
  end.

Definition apply_all (st : State) (es : list ui) : State := fold_left apply es st.

(** [const phoneMatch = info.match(/(\+?[\d\s-]{10,})/)] of the three
    phone handlers, with [info = (customer.contact_info || '').trim()]. *)
Definition info_of (customer : Customer.t) : jsstr :=
  trim (or_empty (Customer.contact_info customer)).

Definition handleCall (customer : Customer.t) : prog ui unit :=
  let info := info_of customer in
  let phoneMatch := str_match info phone_re in
  match and_m0 phoneMatch with
  | Some m =>
      let phoneNumber := trim m in
      perform (location_href (lit "tel:" ++ remove_all space_or_hyphen phoneNumber))
  | None =>
      if includes info (lit "@") then
        let subject := lit "Following up - " ++ Customer.name customer in
        let body :=
          lit "Dear " ++ Customer.name customer ++ lit "," ++ nl ++ nl
          ++ lit "I hope this email finds you well." ++ nl ++ nl
          ++ lit "I'm reaching out to follow up on our previous conversation."
          ++ nl ++ nl ++ lit "Best regards," ++ nl ++ lit "[Your Name]" in
        encodedSubject <- lift (encode subject) ;;
        encodedBody <- lift (encode body) ;;
        perform (location_href (lit "mailto:" ++ info ++ lit "?subject="
                                ++ encodedSubject ++ lit "&body=" ++ encodedBody))
      else
        (* the promise of writeText is not awaited and its rejection is
           swallowed by [.catch(() => {})] *)
        perform (clipboard_writeText info) ;;;
        perform (alert (lit "Contact copied to clipboard"))
  end.

Definition handleWhatsApp (customer : Customer.t) : prog ui unit :=
  let info := info_of customer in
  let phoneMatch := str_match info phone_re in
  match and_m0 phoneMatch with
  | Some m =>
      let phoneNumber := trim m in
      let formattedNumber :=
        if startsWith phoneNumber (lit "+")
        then remove_all not_digit_or_plus phoneNumber
        else lit "+91" ++ remove_all not_digit phoneNumber in
      let message :=
        lit "Hello " ++ Customer.name customer
        ++ lit "! I'm reaching out to discuss how we can help with your needs. Would you have some time to chat?" in
      encodedMessage <- lift (encode message) ;;
      perform (window_open (lit "https://wa.me/" ++ formattedNumber
                            ++ lit "?text=" ++ encodedMessage) (lit "_blank"))
  | None => perform (alert (lit "Invalid phone number for WhatsApp"))
  end.

Definition handleSMS (customer : Customer.t) : prog ui unit :=
  let info := info_of customer in
  let phoneMatch := str_match info phone_re in
  match and_m0 phoneMatch with
  | Some m =>
      let phoneNumber := trim m in
      let formattedNumber := remove_all space_or_hyphen phoneNumber in
      message <- lift (encode
        (lit "Hi " ++ Customer.name customer
         ++ lit ", this is a follow-up regarding our previous conversation. Please let me know a good time to connect. Thanks!")) ;;
      perform (window_open (lit "sms:" ++ formattedNumber ++ lit "?body=" ++ message)
                           (lit "_blank"))
  | None => perform (alert (lit "Invalid phone number for SMS"))
  end.

Section Handlers.
Context `{Platform} `{FromAny Customer.t} `{FromAny (list Customer.t)}.
Variable userId : jsstr.       (* the [userId] prop *)
Variable st : State.           (* the state that the handlers close over *)

(** The body of the effect that loads the customers. *)
Definition fetchCustomers : prog ui unit :=
  if negb (nonempty userId) then Ret tt
  else
    finally
      (try_catch
         (perform (setLoading true) ;;;
          let uidNum := parseInt_or_1 userId in
          data <- apiService ui (getCustomers uidNum) ;;
          perform (setCustomers (from_any data)))
         (fun err => perform (setError (lit "Failed to load customers"))))
      (perform (setLoading false)).

Definition openDetails (customer : Customer.t) : prog ui unit :=
  perform (setActiveCustomer (Some customer)) ;;;
  perform (setDetailsOpen true) ;;;
  try_catch
    (data <- apiService ui (getCustomerInteractions (Customer.id customer)) ;;
     perform (setInteractions data))
    (fun e => perform (setInteractions (Arr []))).

Definition handleActivateAI : prog ui unit :=
  finally
    (try_catch
       (perform (setAiError (lit "")) ;;;
        perform (setAiLoading true) ;;;
        let uid := parseInt_or_1 userId in
        _ <- apiService ui (setupAutoResponses uid (Some (Obj []))) ;;
        perform (setAiActive true))
       (fun e => perform (setAiError (lit "Failed to activate AI"))))
    (perform (setAiLoading false)).

(** [customers.filter(customer => ...)] *)
Definition filteredCustomers : list Customer.t :=
  filter (fun customer =>
            includes (toLowerCase (Customer.name customer)) (toLowerCase (searchTerm st))
            || includes (toLowerCase (Customer.contact_info customer))
                        (toLowerCase (searchTerm st)))
         (customers st).

Definition handleAddCustomer : prog ui unit :=
  if negb (nonempty (Form.name (newCustomer st)))
     || negb (nonempty (Form.contact_info (newCustomer st)))
  then perform (setError (lit "Name and contact info are required"))
  else
    finally
      (try_catch
         (perform (setLoading true) ;;;
          let userIdNum := parseInt_or_1 userId in
          let customerData :=
            Obj [(lit "name", Str (Form.name (newCustomer st)));
                 (lit "contact_info", Str (Form.contact_info (newCustomer st)));
                 (lit "notes", Str (Form.notes (newCustomer st)));
                 (lit "user_id", Num userIdNum)] in
          result <- apiService ui (createCustomer customerData) ;;
          perform (setCustomers (customers st ++ [from_any result])) ;;;
          perform (setNewCustomer Form.empty) ;;;
          perform (setShowAddForm false) ;;;
          perform (setError (lit "")))
         (fun err => perform (setError (lit "Failed to create customer"))))
      (perform (setLoading false)).

End Handlers.

Definition handleEmail (opened : opening) (customer : Customer.t)
  : prog ui unit :=
  let info := info_of customer in
  match email_of info with
  | Some m =>
      let email := trim m in
      let subject := lit "Hello from [Your Company] - " ++ Customer.name customer in
      let body :=
        lit "Dear " ++ Customer.name customer ++ lit "," ++ nl ++ nl
        ++ lit "I hope this email finds you well." ++ nl ++ nl
        ++ lit "I wanted to reach out and introduce myself as your dedicated service provider. I'm here to help with any questions or needs you might have."
        ++ nl ++ nl
        ++ lit "Would you be available for a brief call this week to discuss how I can best assist you?"
        ++ nl ++ nl ++ lit "Best regards," ++ nl ++ lit "[Your Name]" ++ nl
        ++ lit "[Your Company]" in
      encodedSubject <- lift (encode subject) ;;
      encodedBody <- lift (encode body) ;;
      try_catch
        (let mailtoUrl := lit "mailto:" ++ email ++ lit "?subject="
                          ++ encodedSubject ++ lit "&body=" ++ encodedBody in
         emailWindow <- lift opened ;;
         perform (window_open mailtoUrl (lit "_blank")) ;;;
         if negb emailWindow then perform (location_href mailtoUrl) else Ret tt)
        (fun error =>
           perform (alert (lit "Please email " ++ email
              ++ lit " manually. Your email client could not be opened automatically.")))
  | None =>
      perform (alert (lit "No email address available in the customer contact information. Please update the customer record with an email address."))
  end.

(** What the component renders: the spinner while [loading], else the
    text of [error] when there is one, else the page with the form, the
    search box and the customer cards. *)
Inductive rendered : Type :=
| Spinner
| ErrorText (s : jsstr)
| Page (shown : list Customer.t).

Definition render `{Platform} (st : State) : rendered :=
  if loading st then Spinner
  else if nonempty (error st) then ErrorText (error st)
  else Page (filteredCustomers st).

(** The status and engagement badges. *)
Definition getStatusColor (status : jsstr) : jsstr :=
  if str_eqb status (lit "Active") then lit "bg-green-100 text-green-800"
  else if str_eqb status (lit "Prospect") then lit "bg-blue-100 text-blue-800"
  else if str_eqb status (lit "Inactive") then lit "bg-gray-100 text-gray-800"
  else lit "bg-gray-100 text-gray-800".

End CustomersPage.

(** ** [src/components/CustomerDetailPage.tsx] *)

Module CustomerInteraction.
Record t : Type := {
  id : Z;
  customer_id : Z;
  user_id : Z;
  interaction_type : jsstr;
  interaction_date : jsstr;
  title : jsstr;
  notes : jsstr;
  follow_up_needed : bool;
  follow_up_date : option jsstr;
  status : jsstr;
  created_at : jsstr;
  updated_at : option jsstr
}.
End CustomerInteraction.

Module CustomerDetailPage.

(** The fields of the interaction dialog. *)
Module InteractionForm.
Record t : Type := {
  interaction_type : jsstr;
  interaction_date : jsstr;
  title : jsstr;
  notes : jsstr;
  follow_up_needed : bool;
  follow_up_date : jsstr;
  status : jsstr
}.
End InteractionForm.

Inductive ui : Type :=
| setCustomer (c : option Customer.t)
| setInteractions (v : value)
| setCustomerInteractions (l : list CustomerInteraction.t)
| setInsights (v : value)
| setLoading (b : bool)
| setError (s : jsstr)
| setAiLoading (b : bool)
| setAiError (s : jsstr)
| setInteractionDialogOpen (b : bool)
| setIsEditMode (b : bool)
| setCurrentInteraction (i : option CustomerInteraction.t)
| setInteractionForm (f : InteractionForm.t)
| setInteractionLoading (b : bool)
| location_href (u : jsstr)
| window_open (u target : jsstr)
| alert (msg : jsstr)
| clipboard_writeText (s : jsstr).

Record State : Type := {
  customer : option Customer.t;
  customerInteractions : list CustomerInteraction.t;
  isEditMode : bool;
  currentInteraction : option CustomerInteraction.t;
  interactionForm : InteractionForm.t
}.

Definition info_of (c : Customer.t) : jsstr :=
  trim (or_empty (Customer.contact_info c)).

Section Handlers.
Context `{Platform} `{FromAny Customer.t} `{FromAny CustomerInteraction.t}
        `{FromAny (list CustomerInteraction.t)}.
Variable customerId : Z.       (* the [customerId] prop *)
Variable userId : jsstr.       (* the [userId] prop *)
Variable st : State.
(** What the environment answers during the action: the form date that
    [new Date()] yields, and the button chosen in [confirm]. *)
Variable now : jsstr.
Variable confirmed : bool.

(** The body of the effect that loads the page. *)
Definition fetchData : prog ui unit :=
  if (customerId =? 0)%Z || negb (nonempty userId) then Ret tt
  else
    finally
      (try_catch
         (perform (setLoading true) ;;;
          perform (setError (lit "")) ;;;
          let uidNum := parseInt_or_1 userId in
          customerData <- apiService ui (getCustomer customerId) ;;
          perform (setCustomer (Some (from_any customerData))) ;;;
          interactionData <- apiService ui (getCustomerInteractions customerId) ;;
          perform (setInteractions interactionData) ;;;
          try_catch
            (customerInteractionData <-
               apiService ui (getCustomerDetailedInteractions customerId uidNum) ;;
             perform (setCustomerInteractions (from_any customerInteractionData)))
            (fun err => perform (setCustomerInteractions [])))
         (fun err => perform (setError (lit "Failed to load customer data"))))
      (perform (setLoading false)).

Definition handleCall : prog ui unit :=
  match customer st with
  | None => Ret tt
  | Some customer =>
      let info := info_of customer in
      let phoneMatch := str_match info phone_re in
      match and_m0 phoneMatch with
      | Some m =>
          let phoneNumber := trim m in
          perform (location_href
                     (lit "tel:" ++ remove_all space_or_hyphen phoneNumber))
      | None =>
          if includes info (lit "@") then
            let emailMatch := str_match info email_re in
            match and_m0 emailMatch with
            | Some e => perform (location_href (lit "mailto:" ++ trim e))
            | None => Ret tt
            end
          else
            perform (clipboard_writeText info) ;;;
            perform (alert (lit "Contact copied to clipboard"))
      end
  end.

Definition handleWhatsApp : prog ui unit :=
  match customer st with
  | None => Ret tt
  | Some customer =>
      let info := info_of customer in
      let phoneMatch := str_match info phone_re in
      match and_m0 phoneMatch with
      | Some m =>
          let phoneNumber := trim m in
          let formattedNumber :=
            if startsWith phoneNumber (lit "+")
            then remove_all not_digit_or_plus phoneNumber
            else lit "+91" ++ remove_all not_digit phoneNumber in
          let message :=
            lit "Hello " ++ Customer.name customer
            ++ lit ", I'm reaching out regarding your insurance needs. How may I assist you today?" in
          encodedMessage <- lift (encode message) ;;
          perform (window_open (lit "https://wa.me/" ++ formattedNumber
                                ++ lit "?text=" ++ encodedMessage) (lit "_blank"))
      | None => perform (alert (lit "Invalid phone number for WhatsApp"))
      end
  end.

Definition handleSMS : prog ui unit :=
  match customer st with
  | None => Ret tt
  | Some customer =>
      let info := info_of customer in
      let phoneMatch := str_match info phone_re in
      match and_m0 phoneMatch with
      | Some m =>
          let phoneNumber := trim m in
          let formattedNumber := remove_all space_or_hyphen phoneNumber in
          message <- lift (encode
            (lit "Hi " ++ Customer.name customer
             ++ lit ", this is a follow-up on our conversation. Could we schedule a quick call to discuss your needs in more detail? Thanks!")) ;;
          perform (window_open (lit "sms:" ++ formattedNumber ++ lit "?body="
                                ++ message) (lit "_blank"))
      | None => perform (alert (lit "Invalid phone number for SMS"))
      end
  end.

Definition fetchAIInsights : prog ui unit :=
  match customer st with
  | None => Ret tt
  | Some _ =>
      if negb (nonempty userId) then Ret tt
      else
        finally
          (try_catch
             (perform (setAiLoading true) ;;;
              perform (setAiError (lit "")) ;;;
              let uidNum := parseInt_or_1 userId in
              insightData <- apiService ui (getCustomerInsights customerId uidNum) ;;
              insights <- lift (get (lit "insights") insightData) ;;
              perform (setInsights insights))
             (fun err => perform (setAiError (lit "Failed to load AI insights"))))
          (perform (setAiLoading false))
  end.

Definition resetInteractionForm : prog ui unit :=
  perform (setInteractionForm
    {| InteractionForm.interaction_type := lit "call";
       InteractionForm.interaction_date := now;
       InteractionForm.title := lit "";
       InteractionForm.notes := lit "";
       InteractionForm.follow_up_needed := false;
       InteractionForm.follow_up_date := lit "";
       InteractionForm.status := lit "completed" |}).

Definition handleDeleteInteraction (id : Z) : prog ui unit :=
  if negb confirmed then Ret tt
  else
    try_catch
      (_ <- apiService ui (deleteCustomerInteraction id) ;;
       perform (setCustomerInteractions
                  (filter (fun i => negb (CustomerInteraction.id i =? id)%Z)
                          (customerInteractions st))))
      (fun err =>
         perform (alert (lit "Failed to delete interaction. Please try again."))).

Definition handleInteractionSubmit : prog ui unit :=
  match customer st with
  | Some customer =>
    if negb (nonempty userId) then
      perform (alert (lit "Customer or user information is missing. Please reload the page."))
    else
    let form := interactionForm st in
    finally
      (try_catch
         (perform (setInteractionLoading true) ;;;
          let uidNum := parseInt_or_1 userId in
          if negb (nonempty (trim (InteractionForm.title form))) then
            perform (alert (lit "Please enter a title for the interaction"))
          else if negb (nonempty (trim (InteractionForm.notes form))) then
            perform (alert (lit "Please enter notes for the interaction"))
          else
            interaction_date <-
              lift (toISOString (InteractionForm.interaction_date form)) ;;
            follow_up_date <-
              (if InteractionForm.follow_up_needed form
                  && nonempty (InteractionForm.follow_up_date form)
               then d <- lift (toISOString (InteractionForm.follow_up_date form)) ;;
                    Ret (Str d)
               else Ret Null) ;;
            let interactionData :=
              Obj [(lit "interaction_type", Str (InteractionForm.interaction_type form));
                   (lit "interaction_date", Str interaction_date);
                   (lit "title", Str (InteractionForm.title form));
                   (lit "notes", Str (InteractionForm.notes form));
                   (lit "follow_up_needed", Bool (InteractionForm.follow_up_needed form));
                   (lit "follow_up_date", follow_up_date);
                   (lit "status", Str (InteractionForm.status form));
                   (lit "customer_id", Num (Customer.id customer));
                   (lit "user_id", Num uidNum)] in
            (match isEditMode st, currentInteraction st with
             | true, Some current =>
                 result <- apiService ui
                   (updateCustomerInteraction (CustomerInteraction.id current)
                                              interactionData) ;;
                 perform (setCustomerInteractions
                   (map (fun i => if (CustomerInteraction.id i
                                      =? CustomerInteraction.id current)%Z
                                  then from_any result else i)
                        (customerInteractions st)))
             | _, _ =>
                 result <- apiService ui (createCustomerInteraction interactionData) ;;
                 perform (setCustomerInteractions
                            (from_any result :: customerInteractions st))
             end) ;;;
            perform (setInteractionDialogOpen false) ;;;
            resetInteractionForm)
         (fun err =>
            let errorMessage :=
              lit "Failed to save interaction. "
              ++ (if nonempty (message err) then message err
                  else lit "Please check your connection and try again.") in
            perform (alert errorMessage)))
      (perform (setInteractionLoading false))
  | None =>
      perform (alert (lit "Customer or user information is missing. Please reload the page."))
  end.

(** What [window.open] does in [handleEmail]. *)
Variable opened : opening.

Definition handleEmail : prog ui unit :=
  match customer st with
  | None => Ret tt
  | Some customer =>
      let info := info_of customer in
      match email_of info with
      | Some m =>
          let email := trim m in
          let subject := lit "Follow-up regarding your insurance - "
                         ++ Customer.name customer in
          let body :=
            lit "Dear " ++ Customer.name customer ++ lit "," ++ nl ++ nl
            ++ lit "I hope this email finds you well." ++ nl ++ nl
            ++ lit "I'm reaching out to follow up on our previous conversation about your insurance needs."
            ++ nl ++ nl
            ++ lit "Please let me know if you have any questions or if you'd like to schedule a call to discuss further."
            ++ nl ++ nl ++ lit "Best regards," ++ nl ++ lit "[Your Name]" in
          encodedSubject <- lift (encode subject) ;;
          encodedBody <- lift (encode body) ;;
          try_catch
            (let mailtoUrl := lit "mailto:" ++ email ++ lit "?subject="
                              ++ encodedSubject ++ lit "&body=" ++ encodedBody in
             emailWindow <- lift opened ;;
             perform (window_open mailtoUrl (lit "_blank")) ;;;
             if negb emailWindow then perform (location_href mailtoUrl) else Ret tt)
            (fun error =>
               perform (alert (lit "Please email " ++ email
                  ++ lit " manually. Your email client could not be opened automatically.")))
      | None =>
          perform (alert (lit "No email address available in the customer contact information. Please update the customer record with an email address."))
      end
  end.

End Handlers.

End CustomerDetailPage.

(** ** [src/components/DigitalPresenceBuilder.tsx] *)

Module DigitalPresenceBuilder.

Inductive ui : Type :=
| setSelectedTemplate (s : jsstr)
| setWebsiteInfo (v : value)
| setIsGenerating (b : bool)
| setIsLoading (b : bool)
| setPreviewHtml (v : value)
| setError (s : jsstr)
| window_open (u target : jsstr)     (* [window.open(u, target)] *)
| document_write (html : jsstr)      (* [newWindow.document.write(html)] *)
| document_close.                    (* [newWindow.document.close()] *)

Section Handlers.
Context `{Platform} `{FromAny Z}.
Variable selectedTemplate : jsstr.   (* the state that the handlers close over *)
(** What the environment answers during the action: the item [user] of
    the local storage, and whether [window.open] yields a window. *)
Variable localStorage_user : option jsstr.
Variable popup : bool.

(** [!userStr] *)
Definition no_user : bool :=
  match localStorage_user with
  | None => true
  | Some s => negb (nonempty s)
  end.

Definition userStr : jsstr :=
  match localStorage_user with Some s => s | None => lit "" end.

(** [err instanceof Error ? err.message : 'Unknown error']; every
    exception of the model is an [Error]. *)
Definition describe (err : exn) : jsstr := message err.

Definition loadWebsiteInfo : prog ui unit :=
  finally
    (try_catch
       (perform (setIsLoading true) ;;;
        perform (setError (lit "")) ;;;
        if no_user then
          perform (setError (lit "No user data found. Please log in again.")) ;;;
          perform (setIsLoading false)
        else
          user <- lift (JSON_parse userStr) ;;
          user_id <- lift (get (lit "id") user) ;;
          if negb (truthy user_id) then
            perform (setError (lit "Invalid user data. Please log in again.")) ;;;
            perform (setIsLoading false)
          else
            info <- apiService ui (getWebsiteInfo (from_any user_id)) ;;
            perform (setWebsiteInfo info))
       (fun err =>
          perform (setError (lit "Failed to load website information: "
                             ++ describe err))))
    (perform (setIsLoading false)).

Definition handleGenerateWebsite : prog ui unit :=
  finally
    (try_catch
       (perform (setIsGenerating true) ;;;
        perform (setError (lit "")) ;;;
        if no_user then
          perform (setError (lit "No user data found. Please log in again."))
        else
          user <- lift (JSON_parse userStr) ;;
          user_id <- lift (get (lit "id") user) ;;
          if negb (truthy user_id) then
            perform (setError (lit "Invalid user data. Please log in again."))
          else
            result <- apiService ui
              (generateWebsiteHtml (from_any user_id) selectedTemplate) ;;
            html_content <- lift (get (lit "html_content") result) ;;
            if truthy html_content then
              perform (setPreviewHtml html_content) ;;;
              loadWebsiteInfo
            else Ret tt)
       (fun err =>
          perform (setError (lit "Failed to generate website: " ++ describe err))))
    (perform (setIsGenerating false)).

Definition handlePreviewWebsite : prog ui unit :=
  try_catch
    (if no_user then
       perform (setError (lit "No user data found. Please log in again."))
     else
       user <- lift (JSON_parse userStr) ;;
       user_id <- lift (get (lit "id") user) ;;
       if negb (truthy user_id) then
         perform (setError (lit "Invalid user data. Please log in again."))
       else
         html <- apiService ui (previewWebsite (from_any user_id) selectedTemplate) ;;
         if nonempty html then
           perform (window_open (lit "") (lit "_blank")) ;;;
           if popup then
             perform (document_write html) ;;;
             perform document_close
           else Ret tt
         else Ret tt)
    (fun err =>
       perform (setError (lit "Failed to preview website: " ++ describe err))).

Definition handleApplyTemplate : prog ui unit :=
  finally
    (try_catch
       (perform (setIsGenerating true) ;;;
        perform (setError (lit "")) ;;;
        if no_user then
          perform (setError (lit "No user data found. Please log in again."))
        else
          user <- lift (JSON_parse userStr) ;;
          user_id <- lift (get (lit "id") user) ;;
          if negb (truthy user_id) then
            perform (setError (lit "Invalid user data. Please log in again."))
          else
            _ <- apiService ui
              (applyWebsiteTemplate (from_any user_id) selectedTemplate) ;;
            loadWebsiteInfo)
       (fun err =>
          perform (setError (lit "Failed to apply template: " ++ describe err))))
    (perform (setIsGenerating false)).

End Handlers.

End DigitalPresenceBuilder.

(** ** [src/components/ProfilePage.tsx] *)

Module ProfilePage.

Inductive ui : Type :=
| setProfile (v : value)
| setProfileImage (response : value)
    (* [setProfile(prev => prev ? {...prev, profile_image: response.profile_image} : null)] *)
| setBusinessTypes (v : value)
| setLoading (b : bool)
| setSaving (b : bool)
| setUploadingImage (b : bool)
| setSelectedFile (f : option value)
| setFormData (v : value)
| toast_error (msg : jsstr)
| toast_success (msg : jsstr)
| reset_file_input.             (* [fileInput.value = ''] *)

Section Handlers.
Context `{Platform}.
Variable userId : jsstr.             (* the [userId] prop *)
Variable selectedFile : option value.
Variable formData : value.
(** Whether [document.getElementById('profile-image')] finds the input. *)
Variable has_file_input : bool.

(** The body of the effect that loads the profile, run when [userId] is
    not empty. *)
Definition fetchProfileData : prog ui unit :=
  finally
    (try_catch
       (perform (setLoading true) ;;;
        profileData <- apiService ui (getProfile userId) ;;
        perform (setProfile profileData) ;;;
        name <- lift (get (lit "name") profileData) ;;
        email <- lift (get (lit "email") profileData) ;;
        phone <- lift (get (lit "phone") profileData) ;;
        business_name <- lift (get (lit "business_name") profileData) ;;
        business_type <- lift (get (lit "business_type") profileData) ;;
        location <- lift (get (lit "location") profileData) ;;
        bio <- lift (get (lit "bio") profileData) ;;
        website <- lift (get (lit "website") profileData) ;;
        perform (setFormData
          (Obj [(lit "name", name); (lit "email", email); (lit "phone", phone);
                (lit "business_name", business_name);
                (lit "business_type", business_type);
                (lit "location", location); (lit "bio", bio);
                (lit "website", website)])) ;;;
        types <- apiService ui getBusinessTypes ;;
        business_types <- lift (get (lit "business_types") types) ;;
        perform (setBusinessTypes business_types))
       (fun error => perform (toast_error (lit "Failed to load profile data"))))
    (perform (setLoading false)).

Definition handleProfileImageUpload : prog ui unit :=
  match selectedFile with
  | None => perform (toast_error (lit "Please select an image file"))
  | Some file =>
      finally
        (try_catch
           (perform (setUploadingImage true) ;;;
            let formData := [(lit "file", file)] in
            response <- apiService ui (uploadProfileImage userId formData) ;;
            perform (setProfileImage response) ;;;
            perform (toast_success (lit "Profile image updated successfully")) ;;;
            perform (setSelectedFile None) ;;;
            if has_file_input then perform reset_file_input else Ret tt)
           (fun error => perform (toast_error (lit "Failed to upload profile image"))))
        (perform (setUploadingImage false))
  end.

Definition handleSaveProfile : prog ui unit :=
  finally
    (try_catch
       (perform (setSaving true) ;;;
        updatedProfile <- apiService ui (updateProfile userId formData) ;;
        perform (setProfile updatedProfile) ;;;
        perform (toast_success (lit "Profile updated successfully")))
       (fun error => perform (toast_error (lit "Failed to update profile"))))
    (perform (setSaving false)).

End Handlers.

End ProfilePage.

(** ** [src/App.tsx] *)

Module App.

(** ['login' | 'profile-setup' | 'app'] *)
Inductive AppState : Type := login | profile_setup | app.

(** The state of the component.  [currentScreen] holds whatever text
    [handleNavigate] was given: its argument is a string that is cast to
    the screen type. *)
Record State : Type := {
  appState : AppState;
  currentScreen : jsstr;
  currentUserId : jsstr;
  selectedCustomerId : option Z
}.

Definition initial : State :=
  {| appState := login; currentScreen := lit "dashboard";
     currentUserId := lit ""; selectedCustomerId := None |}.

Inductive ui : Type :=
| setAppState (a : AppState)
| setCurrentScreen (s : jsstr)
| setCurrentUserId (s : jsstr)
| setSelectedCustomerId (id : option Z).

Definition apply (st : State) (e : ui) : State :=
  let '{| appState := a; currentScreen := c; currentUserId := u;
          selectedCustomerId := i |} := st in
  match e with
  | setAppState x => Build_State x c u i
  | setCurrentScreen x => Build_State a x u i
  | setCurrentUserId x => Build_State a c x i
  | setSelectedCustomerId x => Build_State a c u x
  end.

Definition handleLogin (userId : jsstr) : prog ui unit :=
  perform (setCurrentUserId userId) ;;;
  perform (setAppState app) ;;;
  perform (setCurrentScreen (lit "dashboard")).

Definition handleSignup : prog ui unit := perform (setAppState profile_setup).

Definition handleProfileComplete : prog ui unit :=
  perform (setAppState app) ;;;
  perform (setCurrentScreen (lit "dashboard")).

Definition handleNavigate (screen : jsstr) : prog ui unit :=
  perform (setCurrentScreen screen).

Definition handleViewCustomer (customerId : Z) : prog ui unit :=
  perform (setSelectedCustomerId (Some customerId)) ;;;
  perform (setCurrentScreen (lit "customer-detail")).

(** [onBack={() => setCurrentScreen('customers')}] *)
Definition onBack : prog ui unit := perform (setCurrentScreen (lit "customers")).

(** The component that is rendered, with its props. *)
Inductive rendered : Type :=
| LoginScreen
| ProfileSetupScreen
| DashboardScreen (userId : jsstr)
| CustomersPage_ (userId : jsstr)
| CustomerDetailPage_ (customerId : Z) (userId : jsstr)
| ReferralDashboard (userId : jsstr)
| DigitalPresenceBuilder_
| MarketingAssistant (userId : jsstr)
| ProfilePage_ (userId : jsstr).

Definition renderCurrentScreen (st : State) : rendered :=
  let screen := currentScreen st in
  let userId := currentUserId st in
  if str_eqb screen (lit "dashboard") then DashboardScreen userId
  else if str_eqb screen (lit "customers") then CustomersPage_ userId
  else if str_eqb screen (lit "customer-detail") then
    match selectedCustomerId st with
    | Some id => if (id =? 0)%Z then CustomersPage_ userId
                 else CustomerDetailPage_ id userId
    | None => CustomersPage_ userId
    end
  else if str_eqb screen (lit "referrals") then ReferralDashboard userId
  else if str_eqb screen (lit "builder") then DigitalPresenceBuilder_
  else if str_eqb screen (lit "analytics") then DashboardScreen userId
  else if str_eqb screen (lit "marketing") then MarketingAssistant userId
  else if str_eqb screen (lit "profile") then ProfilePage_ userId
  else DashboardScreen userId.

Definition render (st : State) : rendered :=
  match appState st with
  | login => LoginScreen
  | profile_setup => ProfileSetupScreen
  | app => renderCurrentScreen st
  end.

(** The state after a handler has run. *)
Definition after (st : State) (p : prog ui unit) : State :=
  fold_left apply (effects (trace (fun _ _ => Rejected (Error (lit ""))) p)) st.

(** What the user can do in a state: each callback is reachable from the
    component that is rendered and receives it as a prop.  The navigation
    bar is rendered with every screen of the app. *)
Inductive action : Type :=
| Login (userId : jsstr)
| Signup
| ProfileComplete
| Navigate (screen : jsstr)
| ViewCustomer (customerId : Z)
| Back.

Definition enabled (st : State) (a : action) : bool :=
  match render st, a with
  | LoginScreen, (Login _ | Signup) => true
  | ProfileSetupScreen, ProfileComplete => true
  | (LoginScreen | ProfileSetupScreen), _ => false
  | _, Navigate _ => true
  | CustomersPage_ _, ViewCustomer _ => true
  | CustomerDetailPage_ _ _, Back => true
  | _, _ => false
  end.

Definition handler (a : action) : prog ui unit :=
  match a with
  | Login userId => handleLogin userId
  | Signup => handleSignup
  | ProfileComplete => handleProfileComplete
  | Navigate screen => handleNavigate screen
  | ViewCustomer customerId => handleViewCustomer customerId
  | Back => onBack
  end.

(** A session: the state after each of the actions, taken in turn, each
    one enabled when it is taken. *)
Inductive session : State -> list action -> State -> Prop :=
| session_nil st : session st [] st
| session_cons st a l st' :
    enabled st a = true -> session (after st (handler a)) l st' ->
    session st (a :: l) st'.

End App.

(** ** Vocabulary of the statements *)

Module Spec.

(** [t] occurs in [s] as a substring. *)
Definition occurs (t s : jsstr) : Prop :=
  exists pre post, s = pre ++ t ++ post.

(** [m] is a match of [r] in [s] that starts at offset [i]. *)
Definition match_at (r : regex) (s : jsstr) (i : nat) (m : jsstr) : Prop :=
  lang r m /\ exists pre post, s = pre ++ m ++ post /\ List.length pre = i.

(** [s] contains a substring that matches [r]. *)
Definition has_match (r : regex) (s : jsstr) : Prop :=
  exists i m, match_at r s i m.

(** [m], at offset [i], is the first match of [r] in [s]: no match starts
    before it, and no match that starts with it is longer. *)
Definition first_match (r : regex) (s : jsstr) (i : nat) (m : jsstr) : Prop :=
  match_at r s i m
  /\ (forall j m', match_at r s j m' -> i <= j)
  /\ (forall m', match_at r s i m' -> List.length m' <= List.length m).

(** The match of the phone pattern at the very start of [s], if any: an
    optional plus sign, then the longest run of digits, white space and
    hyphens, which must have ten code units or more. *)
Definition phone_at (s : jsstr) : option jsstr :=
  match s with
  | c :: s' =>
      if is_char ch_plus c then
        if (10 <=? List.length (takeWhile phone_class s'))%nat
        then Some (c :: takeWhile phone_class s') else None
      else
        if (10 <=? List.length (takeWhile phone_class s))%nat
        then Some (takeWhile phone_class s) else None
  | [] => None
  end.

(** [kept P l l']: [l'] is [l] with exactly the elements that satisfy [P],
    in the order of [l]. *)
Inductive kept {A : Type} (P : A -> Prop) : list A -> list A -> Prop :=
| kept_nil : kept P [] []
| kept_keep x l l' : P x -> kept P l l' -> kept P (x :: l) (x :: l')
| kept_drop x l l' : ~ P x -> kept P l l' -> kept P (x :: l) l'.

(** A trace in which every request is settled before anything else
    happens: no two requests are ever in flight together. *)
Inductive sequential {E : Type} : list (event E) -> Prop :=
| seq_nil : sequential []
| seq_effect e t : sequential t -> sequential (Effect e :: t)
| seq_round r res t : sequential t -> sequential (Sent r :: Settled r res :: t).

(** Against every backend, and whatever was sent before, the requests of
    [p] are made one at a time. *)
Definition one_at_a_time {E A : Type} (p : prog E A) : Prop :=
  forall (b : backend) (n : nat),
    sequential (fst (run b n p)) /\ peak 0 (fst (run b n p)) <= 1.

(** The digits of a text, in order. *)
Definition digits_of (s : jsstr) : jsstr := filter is_digit s.

(** The number of a WhatsApp link for the phone match [m]: its digits,
    after its own plus sign or else after [+91]. *)
Definition whatsapp_number (m : jsstr) : jsstr :=
  if startsWith m (lit "+") then ch_plus :: digits_of m
  else lit "+91" ++ digits_of m.

(** The customer [c] is shown for the search term [term]: its lowercased
    name or its lowercased contact_info contains the lowercased term. *)
Definition shown `{Platform} (term : jsstr) (c : Customer.t) : Prop :=
  occurs (toLowerCase term) (toLowerCase (Customer.name c))
  \/ occurs (toLowerCase term) (toLowerCase (Customer.contact_info c)).

(** The three phone handlers of the customers page take the contact_info
    of [customer], which has no digit, for a phone number: the pattern
    accepts it and each handler emits its URI. *)
Definition taken_for_a_phone (customer : Customer.t) : Prop :=
  Forall (fun c => is_digit c = false) (Customer.contact_info customer)
  /\ has_match phone_re (Customer.contact_info customer)
  /\ (exists u,
        CustomersPage.handleCall customer
        = perform (CustomersPage.location_href u)
        /\ startsWith u (lit "tel:") = true)
  /\ (exists u,
        CustomersPage.handleSMS customer
        = perform (CustomersPage.window_open u (lit "_blank"))
        /\ startsWith u (lit "sms:") = true)
  /\ (exists u,
        CustomersPage.handleWhatsApp customer
        = perform (CustomersPage.window_open u (lit "_blank"))
        /\ startsWith u (lit "https://wa.me/") = true).

(** The text [s] without its white space and hyphens is kept by [kept]
    with this property of a code unit. *)
Definition neither_space_nor_hyphen (c : char) : Prop :=
  is_space c = false /\ c <> ch_hyphen.

(** The value of a text of decimal digits. *)
Definition value_of (s : jsstr) : N :=
  fold_left (fun acc c => (acc * 10 + (c - 48))%N) s 0%N.

(** [s] is the decimal numeral of [n]: one digit or more, the first of
    which is 0 only when it is the last, that spell [n]. *)
Definition numeral (n : N) (s : jsstr) : Prop :=
  s <> []
  /\ Forall (fun c => is_digit c = true) s
  /\ (forall rest, s = 48%N :: rest -> rest = [])
  /\ value_of s = n.

(** [s] is the decimal numeral of the integer [z], with a minus sign when
    [z] is negative. *)
Definition decimal (z : Z) (s : jsstr) : Prop :=
  match z with
  | Zneg p => exists d, s = ch_hyphen :: d /\ numeral (Npos p) d
  | _ => numeral (Z.to_N z) s
  end.

(** The integers that a number of the code holds exactly
    ([Number.isSafeInteger]): those between -2^53 and 2^53. *)
Definition safe (z : Z) : Prop := (- 2 ^ 53 < z < 2 ^ 53)%Z.

(** [s] is what a template literal prints for the number [z], a safe
    integer: its decimal numeral. *)
Definition printed (z : Z) (s : jsstr) : Prop := safe z /\ decimal z s.

(** The endpoint of each call of the REST client: the method and the URL
    of its [fetch], as [src/services/api.ts] writes them, numbers printed
    in decimal and texts put in as they are. *)
Definition endpoint {A : Type} (c : call A) (m : http_method) (u : jsstr) : Prop :=
  match c with
  | login _ =>
      m = POST /\ u = lit "http://localhost:8000/auth/login"
  | getCustomerInteractions customer_id =>
      m = GET
      /\ exists s_customer_id : jsstr,
           printed customer_id s_customer_id
           /\ u = lit "http://localhost:8000/customers/" ++ s_customer_id
               ++ lit "/interactions"
  | getCustomerDetailedInteractions customer_id user_id =>
      m = GET
      /\ exists s_customer_id s_user_id : jsstr,
           printed customer_id s_customer_id
           /\ printed user_id s_user_id
           /\ u = lit "http://localhost:8000/interactions/?customer_id="
               ++ s_customer_id ++ lit "&user_id=" ++ s_user_id
  | createCustomerInteraction _ =>
      m = POST /\ u = lit "http://localhost:8000/interactions/"
  | updateCustomerInteraction interaction_id _ =>
      m = PUT
      /\ exists s_interaction_id : jsstr,
           printed interaction_id s_interaction_id
           /\ u = lit "http://localhost:8000/interactions/" ++ s_interaction_id
  | deleteCustomerInteraction interaction_id =>
      m = DELETE
      /\ exists s_interaction_id : jsstr,
           printed interaction_id s_interaction_id
           /\ u = lit "http://localhost:8000/interactions/" ++ s_interaction_id
  | getUpcomingFollowups user_id days =>
      m = GET
      /\ exists s_user_id s_days : jsstr,
           printed user_id s_user_id
           /\ printed (match days with Some d => d | None => 7%Z end) s_days
           /\ u = lit "http://localhost:8000/interactions/upcoming-followups?user_id="
               ++ s_user_id ++ lit "&days=" ++ s_days
  | getCustomer customer_id =>
      m = GET
      /\ exists s_customer_id : jsstr,
           printed customer_id s_customer_id
           /\ u = lit "http://localhost:8000/customers/" ++ s_customer_id
  | contactCustomer customer_id _ =>
      m = POST
      /\ exists s_customer_id : jsstr,
           printed customer_id s_customer_id
           /\ u = lit "http://localhost:8000/customers/" ++ s_customer_id
               ++ lit "/contact"
  | getReferralLink user_id =>
      m = GET
      /\ exists s_user_id : jsstr,
           printed user_id s_user_id
           /\ u = lit "http://localhost:8000/referrals/link/" ++ s_user_id
  | signup _ =>
      m = POST /\ u = lit "http://localhost:8000/auth/signup"
  | getProfile user_id =>
      m = GET /\ u = lit "http://localhost:8000/auth/profile?current_user_id="
          ++ user_id
  | updateProfile user_id _ =>
      m = PUT /\ u = lit "http://localhost:8000/auth/profile?current_user_id="
          ++ user_id
  | uploadProfileImage user_id _ =>
      m = POST /\ u = lit "http://localhost:8000/auth/profile/upload-image?current_user_id="
          ++ user_id
  | getBusinessTypes =>
      m = GET /\ u = lit "http://localhost:8000/auth/business-types"
  | createCustomer _ =>
      m = POST /\ u = lit "http://localhost:8000/customers/"
  | getCustomers user_id =>
      m = GET
      /\ exists s_user_id : jsstr,
           printed user_id s_user_id
           /\ u = lit "http://localhost:8000/customers/?user_id=" ++ s_user_id
  | searchCustomers user_id query =>
      m = GET
      /\ exists s_user_id : jsstr,
           printed user_id s_user_id
           /\ u = lit "http://localhost:8000/customers/search?user_id="
               ++ s_user_id ++ lit "&query=" ++ query
  | getReferrals user_id =>
      m = GET
      /\ exists s_user_id : jsstr,
           printed user_id s_user_id
           /\ u = lit "http://localhost:8000/referrals/?user_id=" ++ s_user_id
  | getReferralStats user_id =>
      m = GET
      /\ exists s_user_id : jsstr,
           printed user_id s_user_id
           /\ u = lit "http://localhost:8000/referrals/stats?user_id="
               ++ s_user_id
  | getRewards user_id =>
      m = GET
      /\ exists s_user_id : jsstr,
           printed user_id s_user_id
           /\ u = lit "http://localhost:8000/referrals/rewards?user_id="
               ++ s_user_id
  | getDashboardMetrics user_id =>
      m = GET
      /\ exists s_user_id : jsstr,
           printed user_id s_user_id
           /\ u = lit "http://localhost:8000/dashboard?user_id=" ++ s_user_id
  | getReports user_id =>
      m = GET
      /\ exists s_user_id : jsstr,
           printed user_id s_user_id
           /\ u = lit "http://localhost:8000/dashboard/reports?user_id="
               ++ s_user_id
  | sendMessage _ =>
      m = POST /\ u = lit "http://localhost:8000/messaging/send"
  | getMessageTemplates =>
      m = GET /\ u = lit "http://localhost:8000/messaging/message-templates"
  | getConversation customer_id user_id =>
      m = GET
      /\ exists s_customer_id s_user_id : jsstr,
           printed customer_id s_customer_id
           /\ printed user_id s_user_id
           /\ u = lit "http://localhost:8000/messaging/conversations/"
               ++ s_customer_id ++ lit "?user_id=" ++ s_user_id
  | getAIAssist _ _ =>
      m = POST /\ u = lit "http://localhost:8000/ai/assist"
  | generatePersonalizedMessage _ _ _ =>
      m = POST /\ u = lit "http://localhost:8000/ai/generate-message"
  | getCustomerInsights _ _ =>
      m = POST /\ u = lit "http://localhost:8000/ai/customer-insights"
  | setupAutoResponses _ _ =>
      m = POST /\ u = lit "http://localhost:8000/ai/auto-responses"
  | generateMarketingContent _ =>
      m = POST /\ u = lit "http://localhost:8000/ai/marketing-content"
  | generateAIImage _ =>
      m = POST /\ u = lit "http://localhost:8000/ai/generate-image"
  | getWebsiteInfo user_id =>
      m = GET
      /\ exists s_user_id : jsstr,
           printed user_id s_user_id
           /\ u = lit "http://localhost:8000/digital-presence/website/"
               ++ s_user_id
  | getWebsiteTemplates =>
      m = GET /\ u = lit "http://localhost:8000/digital-presence/templates"
  | applyWebsiteTemplate user_id _ =>
      m = POST
      /\ exists s_user_id : jsstr,
           printed user_id s_user_id
           /\ u = lit "http://localhost:8000/digital-presence/website/"
               ++ s_user_id ++ lit "/template"
  | generateWebsiteHtml user_id template_id =>
      m = GET
      /\ exists s_user_id : jsstr,
           printed user_id s_user_id
           /\ u = lit "http://localhost:8000/digital-presence/website/"
               ++ s_user_id ++ lit "/generate/" ++ template_id
  | previewWebsite user_id template_id =>
      m = GET
      /\ exists s_user_id : jsstr,
           printed user_id s_user_id
           /\ u = lit "http://localhost:8000/digital-presence/website/"
               ++ s_user_id ++ lit "/preview/" ++ template_id
  | getSocialProfiles user_id =>
      m = GET
      /\ exists s_user_id : jsstr,
           printed user_id s_user_id
           /\ u = lit "http://localhost:8000/digital-presence/social-profiles/"
               ++ s_user_id
  | getDigitalPresenceAnalytics user_id =>
      m = GET
      /\ exists s_user_id : jsstr,
           printed user_id s_user_id
           /\ u = lit "http://localhost:8000/digital-presence/analytics/"
               ++ s_user_id
  end.

(** The message of the error that a call throws on a response [r] that is
    not ok and whose body was read: a label, the status in decimal, the
    status text and the body. *)
Definition reports_status (r : response) (msg : jsstr) : Prop :=
  exists label s : jsstr,
    decimal (status r) s
    /\ msg = label ++ lit ": " ++ s ++ lit " " ++ statusText r ++ lit " - " ++ text r.

End Spec.
Import Spec.

(** ** Concrete customers, a platform and backends for the examples *)

Module Samples.

Definition customer_with (n c : string) : Customer.t :=
  {| Customer.id := 1; Customer.name := lit n; Customer.contact_info := lit c;
     Customer.notes := None; Customer.last_contacted := None;
     Customer.user_id := 1 |}.

Definition with_phone : Customer.t := customer_with "Asha" "call +91 98765-43210 now".
Definition with_local_phone : Customer.t := customer_with "Asha" " 98765 43210".
Definition with_phone_and_email : Customer.t :=
  customer_with "Asha" "asha@shop.in 9876543210".
Definition with_nothing : Customer.t := customer_with "Asha" "shop at the corner".
Definition ten_hyphens : Customer.t := customer_with "A" "----------".
Definition ten_spaces_inside : Customer.t := customer_with "A" "a          b".
Definition only_spaces : Customer.t := customer_with "A" "          ".
Definition email_then_spaces : Customer.t := customer_with "Asha" "asha@shop.in          ".

(** ASCII letters to lower case. *)
Definition ascii_lower (s : jsstr) : jsstr :=
  map (fun c => if is_upper c then (c + 32)%N else c) s.

(** The text of the object with the one property [id], of value 7, as the
    local storage holds it. *)
Definition stored_user : jsstr :=
  lit "{" ++ [34%N] ++ lit "id" ++ [34%N] ++ lit ":7}".

(** A platform that parses the two texts of the examples. *)
Definition platform : Platform :=
  {| JSON_parse := fun s =>
       if str_eqb s stored_user then inr (Obj [(lit "id", Num 7)])
       else if str_eqb s (lit "{}") then inr (Obj [])
       else inl (SyntaxError (lit "Unexpected token"));
     JSON_stringify := fun _ => Some (lit "{}");
     toLowerCase := ascii_lower;
     toISOString := fun s => inr s |}.

Definition number_of_any : FromAny Z :=
  fun v => match v with Num z => z | _ => 0%Z end.

Definition an_interaction : CustomerInteraction.t :=
  {| CustomerInteraction.id := 31; CustomerInteraction.customer_id := 12;
     CustomerInteraction.user_id := 7;
     CustomerInteraction.interaction_type := lit "call";
     CustomerInteraction.interaction_date := lit "2024-05-01T10:00:00.000Z";
     CustomerInteraction.title := lit "First call";
     CustomerInteraction.notes := lit "asked for a quote";
     CustomerInteraction.follow_up_needed := false;
     CustomerInteraction.follow_up_date := None;
     CustomerInteraction.status := lit "completed";
     CustomerInteraction.created_at := lit "2024-05-01T10:05:00.000Z";
     CustomerInteraction.updated_at := None |}.

Definition respond (code : Z) (reason body : string) : backend :=
  fun _ _ => Resolved {| status := code; statusText := lit reason; text := lit body |}.

Definition not_found : backend := respond 404 "Not Found" "no such customer".
Definition serves_page : backend := respond 200 "OK" "<h1>Asha's shop</h1>".

End Samples.

(** ** Vocabulary of the further properties *)

Module More.

(** A text of the shape [a @ b . c] without white space, as both address
    patterns require. *)
Definition address_shaped (m : jsstr) : Prop :=
  (exists a b c, m = a ++ [ch_at] ++ b ++ [ch_dot] ++ c)
  /\ Forall (fun c => is_space c = false) m.

(** The calls of [handleEmail] once it has an address: the new window;
    then, when no window came back, the navigation of the page itself;
    or, when the call threw, the alert that shows the address. *)
Definition mail_effects {E : Type}
    (window_open : jsstr -> jsstr -> E) (location_href alert : jsstr -> E)
    (opened : opening) (email url : jsstr) : list E :=
  match opened with
  | inr true => [window_open url (lit "_blank")]
  | inr false => [window_open url (lit "_blank"); location_href url]
  | inl _ =>
      [alert (lit "Please email " ++ email
              ++ lit " manually. Your email client could not be opened automatically.")]
  end.


Definition no_address_alert : jsstr :=
  lit "No email address available in the customer contact information. Please update the customer record with an email address.".

(** Customers for the examples of the further properties. *)
Definition at_without_dot : Customer.t := Samples.customer_with "Asha" "asha@shop".
Definition with_email : Customer.t := Samples.customer_with "Asha" "mail asha@shop.in today".

(** A state of the customer detail page that shows [c]. *)
Definition showing (c : Customer.t) : CustomerDetailPage.State :=
  {| CustomerDetailPage.customer := Some c;
     CustomerDetailPage.customerInteractions := [];
     CustomerDetailPage.isEditMode := false;
     CustomerDetailPage.currentInteraction := None;
     CustomerDetailPage.interactionForm :=
       {| CustomerDetailPage.InteractionForm.interaction_type := lit "call";
          CustomerDetailPage.InteractionForm.interaction_date := lit "";
          CustomerDetailPage.InteractionForm.title := lit "";
          CustomerDetailPage.InteractionForm.notes := lit "";
          CustomerDetailPage.InteractionForm.follow_up_needed := false;
          CustomerDetailPage.InteractionForm.follow_up_date := lit "";
          CustomerDetailPage.InteractionForm.status := lit "completed" |} |}.

(** [customerData] of [handleAddCustomer]: the fields of the form and the
    number of the user. *)
Definition customerData (userId : jsstr) (st : CustomersPage.State) : value :=
  Obj [(lit "name", Str (CustomersPage.Form.name (CustomersPage.newCustomer st)));
       (lit "contact_info",
        Str (CustomersPage.Form.contact_info (CustomersPage.newCustomer st)));
       (lit "notes", Str (CustomersPage.Form.notes (CustomersPage.newCustomer st)));
       (lit "user_id", Num (parseInt_or_1 userId))].

(** The state of the customers page once a handler has run against a
    backend. *)
Definition page_after (b : backend) (st : CustomersPage.State)
    (p : prog CustomersPage.ui unit) : CustomersPage.State :=
  CustomersPage.apply_all st (effects (trace b p)).

(** The customers page with one customer and the form filled in. *)
Definition adding : CustomersPage.State :=
  {| CustomersPage.searchTerm := lit "";
     CustomersPage.customers := [Samples.with_phone];
     CustomersPage.loading := false; CustomersPage.error := lit "";
     CustomersPage.showAddForm := true;
     CustomersPage.newCustomer :=
       {| CustomersPage.Form.name := lit "Ravi";
          CustomersPage.Form.contact_info := lit "ravi@shop.in";
          CustomersPage.Form.notes := lit "met at the fair" |};
     CustomersPage.detailsOpen := false; CustomersPage.activeCustomer := None;
     CustomersPage.interactions := Arr []; CustomersPage.aiLoading := false;
     CustomersPage.aiError := lit ""; CustomersPage.aiActive := false |}.

(** The customers page after the form was submitted without a
    contact_info. *)
Definition refused : CustomersPage.State :=
  {| CustomersPage.searchTerm := lit "";
     CustomersPage.customers := [Samples.with_phone];
     CustomersPage.loading := false;
     CustomersPage.error := lit "Name and contact info are required";
     CustomersPage.showAddForm := true;
     CustomersPage.newCustomer :=
       {| CustomersPage.Form.name := lit "Ravi";
          CustomersPage.Form.contact_info := lit "";
          CustomersPage.Form.notes := lit "" |};
     CustomersPage.detailsOpen := false; CustomersPage.activeCustomer := None;
     CustomersPage.interactions := Arr []; CustomersPage.aiLoading := false;
     CustomersPage.aiError := lit ""; CustomersPage.aiActive := false |}.

(** A backend that answers the first two requests of a run with an empty
    object and has nothing for the later ones. *)
Definition two_then_none : backend :=
  fun n _ =>
    if (n <? 2)%nat
    then Resolved {| status := 200; statusText := lit "OK"; text := lit "{}" |}
    else Resolved {| status := 404; statusText := lit "Not Found";
                     text := lit "nothing here" |}.

(** A state of the detail page with the interaction dialog filled in,
    for a new interaction or for the one that is edited. *)
Definition filled (c : Customer.t) (title notes : string)
    (current : option CustomerInteraction.t) : CustomerDetailPage.State :=
  {| CustomerDetailPage.customer := Some c;
     CustomerDetailPage.customerInteractions :=
       match current with Some i => [i] | None => [] end;
     CustomerDetailPage.isEditMode :=
       match current with Some _ => true | None => false end;
     CustomerDetailPage.currentInteraction := current;
     CustomerDetailPage.interactionForm :=
       {| CustomerDetailPage.InteractionForm.interaction_type := lit "call";
          CustomerDetailPage.InteractionForm.interaction_date := lit "2024-05-01T10:00";
          CustomerDetailPage.InteractionForm.title := lit title;
          CustomerDetailPage.InteractionForm.notes := lit notes;
          CustomerDetailPage.InteractionForm.follow_up_needed := false;
          CustomerDetailPage.InteractionForm.follow_up_date := lit "";
          CustomerDetailPage.InteractionForm.status := lit "completed" |} |}.

(** The endpoint that [handleInteractionSubmit] addresses: the edited
    interaction in edit mode, the collection otherwise. *)
Definition submit_target (st : CustomerDetailPage.State)
    (m : http_method) (u : jsstr) : Prop :=
  match CustomerDetailPage.isEditMode st, CustomerDetailPage.currentInteraction st with
  | true, Some current =>
      m = PUT
      /\ exists s : jsstr,
           printed (CustomerInteraction.id current) s
           /\ u = lit "http://localhost:8000/interactions/" ++ s
  | _, _ => m = POST /\ u = lit "http://localhost:8000/interactions/"
  end.

(** The label of the REST client for the call of
    [handleInteractionSubmit]. *)
Definition submit_label (st : CustomerDetailPage.State) : jsstr :=
  match CustomerDetailPage.isEditMode st, CustomerDetailPage.currentInteraction st with
  | true, Some _ => lit "Failed to update interaction"
  | _, _ => lit "Failed to create interaction"
  end.

(** What [handleInteractionSubmit] tells the user about the exception
    [e]. *)
Definition save_failure (e : exn) : jsstr :=
  lit "Failed to save interaction. "
  ++ (if nonempty (message e) then message e
      else lit "Please check your connection and try again.").

(** The dialog of the detail page while the sample interaction is
    edited. *)
Definition editing : CustomerDetailPage.State :=
  filled Samples.with_phone "Second call" "sent the quote"
         (Some Samples.an_interaction).

(** [handleInteractionSubmit] for user 7 on the sample platform. *)
Definition submit_sample (st : CustomerDetailPage.State)
  : prog CustomerDetailPage.ui unit :=
  @CustomerDetailPage.handleInteractionSubmit Samples.platform
    (fun _ => Samples.an_interaction) (lit "7") st (lit "now").

(** The state of the shell after the actions of [l], taken in turn. *)
Definition play (l : list App.action) (st : App.State) : App.State :=
  fold_left (fun st a => App.after st (App.handler a)) l st.

(** Two visits: one that logs in as user 7 and opens customer 3, one that
    signs up and goes to the customers page. *)
Definition visit_of_a_user : list App.action :=
  [App.Login (lit "7"); App.Navigate (lit "customers"); App.ViewCustomer 3].

Definition visit_after_signup : list App.action :=
  [App.Signup; App.ProfileComplete; App.Navigate (lit "customers")].

(** Whether a call returns the text of the response ([response.text()])
    instead of parsing it ([response.json()]). *)
Definition returns_text {A : Type} (c : call A) : bool :=
  match c with
  | previewWebsite _ _ => true
  | _ => false
  end.

(** A backend that is out of service, and whose responses break off
    before their body has arrived. *)
Definition broken_body : backend :=
  fun _ _ => Unreadable 503 (lit "Service Unavailable")
                        (TypeError (lit "network error")).

End More.
Import More.

(** * Properties *)

Unset Implicit Arguments.

(** ** Strings *)

Lemma startsWith_spec (s t : jsstr) :
  startsWith s t = true <-> exists post, s = t ++ post.
Proof.
  revert s; induction t as [|d t IH]; intros s; simpl.
  - split; [intros _; now exists s | reflexivity].
  - destruct s as [|c s].
    + split; [discriminate | intros [post Hp]; discriminate].
    + rewrite andb_true_iff, IH, N.eqb_eq. split.
      * intros [-> [post ->]]. now exists post.
      * intros [post Hp]. injection Hp as -> ->. split; [reflexivity | now exists post].
Qed.

Lemma includes_spec (s t : jsstr) : includes s t = true <-> occurs t s.
Proof.
  unfold occurs. induction s as [|c s IH].
  - simpl. rewrite orb_false_r, startsWith_spec. split.
    + intros [post Hp]. now exists [], post.
    + intros [pre [post Hp]]. destruct pre; [now exists post | discriminate].
  - cbn [includes]. rewrite orb_true_iff, startsWith_spec, IH. split.
    + intros [[post Hp] | [pre [post Hp]]].
      * now exists [], post.
      * exists (c :: pre), post. now rewrite Hp.
    + intros [pre [post Hp]]. destruct pre as [|c' pre].
      * left. now exists post.
      * right. injection Hp as _ Hp. now exists pre, post.
Qed.

Lemma take_drop_while (p : char -> bool) (s : jsstr) :
  takeWhile p s ++ dropWhile p s = s.
Proof.
  induction s as [|c s IH]; simpl; [reflexivity|].
  destruct (p c); simpl; [now rewrite IH | reflexivity].
Qed.

Lemma takeWhile_all (p : char -> bool) (s : jsstr) :
  Forall (fun c => p c = true) (takeWhile p s).
Proof.
  induction s as [|c s IH]; simpl; [constructor|].
  destruct (p c) eqn:E; [constructor; assumption | constructor].
Qed.

Lemma takeWhile_longest (p : char -> bool) (w post : jsstr) :
  Forall (fun c => p c = true) w ->
  List.length w <= List.length (takeWhile p (w ++ post)).
Proof.
  induction 1 as [|c w Hc _ IH]; simpl; [lia|].
  rewrite Hc. simpl. lia.
Qed.

(** Deleting a class that contains the white space makes a previous
    [trim] redundant. *)
Lemma remove_all_dropWhile (cls : char -> bool) (s : jsstr) :
  (forall c, is_space c = true -> cls c = true) ->
  remove_all cls (dropWhile is_space s) = remove_all cls s.
Proof.
  intros Hsub. induction s as [|c s IH]; simpl; [reflexivity|].
  destruct (is_space c) eqn:E; [|reflexivity].
  rewrite (Hsub c E). simpl. exact IH.
Qed.

Lemma remove_all_rev (cls : char -> bool) (s : jsstr) :
  remove_all cls (rev s) = rev (remove_all cls s).
Proof.
  unfold remove_all. induction s as [|c s IH]; simpl; [reflexivity|].
  rewrite filter_app, IH. simpl. destruct (cls c); simpl; [now rewrite app_nil_r | reflexivity].
Qed.

Lemma remove_all_trim (cls : char -> bool) (s : jsstr) :
  (forall c, is_space c = true -> cls c = true) ->
  remove_all cls (trim s) = remove_all cls s.
Proof.
  intros Hsub. unfold trim, trimEnd, trimStart.
  rewrite remove_all_rev, (remove_all_dropWhile _ _ Hsub), remove_all_rev, rev_involutive.
  apply (remove_all_dropWhile _ _ Hsub).
Qed.

Lemma or_empty_id (s : jsstr) : or_empty s = s.
Proof. now destruct s. Qed.

(** ** The matcher finds matches only *)

Section StepSound.
Variable r : regex.
Variable step : jsstr -> list jsstr.
Hypothesis step_sound :
  forall s rest, In rest (step s) -> exists m, s = m ++ rest /\ lang r m.

Lemma greedy_sound (fuel : nat) (s rest : jsstr) :
  In rest (greedy step fuel s) ->
  exists m, s = m ++ rest /\ lang (AtLeast 0 r) m.
Proof.
  revert s. induction fuel as [|fuel IH]; intros s; cbn [greedy].
  - intros [<- | []]. exists []. split; [reflexivity | constructor].
  - intros Hin. apply in_app_or in Hin. destruct Hin as [Hin | [<- | []]].
    + apply in_flat_map in Hin. destruct Hin as [s' [Hs' Hin]].
      destruct (List.length s' <? List.length s); [|destruct Hin].
      destruct (step_sound _ _ Hs') as [u [-> Hu]].
      destruct (IH _ Hin) as [v [-> Hv]].
      exists (u ++ v). split; [now rewrite app_assoc|].
      now apply (L_more 0).
    + exists []. split; [reflexivity | constructor].
Qed.

Lemma at_least_sound (n : nat) (s rest : jsstr) :
  In rest (at_least step n s) ->
  exists m, s = m ++ rest /\ lang (AtLeast n r) m.
Proof.
  revert s. induction n as [|n IH]; intros s; cbn [at_least].
  - apply greedy_sound.
  - intros Hin. apply in_flat_map in Hin. destruct Hin as [s' [Hs' Hin]].
    destruct (step_sound _ _ Hs') as [u [-> Hu]].
    destruct (IH _ Hin) as [v [-> Hv]].
    exists (u ++ v). split; [now rewrite app_assoc|].
    now apply (L_more (S n)).
Qed.

End StepSound.

(** Every way of matching that [alts] lists is a match of the pattern. *)
Lemma alts_sound (r : regex) (s rest : jsstr) :
  In rest (alts r s) -> exists m, s = m ++ rest /\ lang r m.
Proof.
  revert s rest. induction r as [p|r1 IH1 r2 IH2|r IH|n r IH|r IH];
    intros s rest; cbn [alts].
  - destruct s as [|c s]; [intros []|].
    destruct (p c) eqn:E; [|intros []]. intros [<- | []].
    exists [c]. split; [reflexivity | now constructor].
  - intros Hin. apply in_flat_map in Hin. destruct Hin as [mid [Hmid Hin]].
    destruct (IH1 _ _ Hmid) as [u [-> Hu]].
    destruct (IH2 _ _ Hin) as [v [-> Hv]].
    exists (u ++ v). split; [now rewrite app_assoc | now constructor].
  - intros Hin. apply in_app_or in Hin. destruct Hin as [Hin | [<- | []]].
    + destruct (IH _ _ Hin) as [m [-> Hm]]. exists m. split; [reflexivity|].
      now apply L_opt_some.
    + exists []. split; [reflexivity | apply L_opt_none].
  - apply at_least_sound. exact IH.
  - intros Hin. destruct (IH _ _ Hin) as [m [-> Hm]]. exists m.
    split; [reflexivity | now constructor].
Qed.

Lemma head_alt_match (r : regex) (s rest : jsstr) (l : list jsstr) :
  alts r s = rest :: l ->
  match_at r s 0 (firstn (List.length s - List.length rest) s).
Proof.
  intros Ha.
  destruct (alts_sound r s rest) as [m [Hs Hm]]; [rewrite Ha; now left|].
  assert (Hf : firstn (List.length s - List.length rest) s = m).
  { rewrite Hs, length_app, Nat.add_sub, firstn_app, Nat.sub_diag, firstn_all.
    simpl. apply app_nil_r. }
  rewrite Hf. split; [exact Hm|]. now exists [], rest.
Qed.

(** What [s.match(r)] returns is a match of [r] in [s], at the index it
    reports. *)
Lemma search_sound (r : regex) (s : jsstr) (i : nat) (res : match_result) :
  search r s i = Some res ->
  exists j, index res = i + j /\ match_at r s j (m0 res).
Proof.
  revert i. induction s as [|c s IH]; intros i; cbn [search].
  - destruct (alts r []) as [|rest l] eqn:Ha; [discriminate|].
    intros [= <-]. exists 0. split; [simpl; lia|].
    exact (head_alt_match r [] rest l Ha).
  - destruct (alts r (c :: s)) as [|rest l] eqn:Ha.
    + intros Hs. destruct (IH _ Hs) as [j [Hj [Hl [pre [post [-> Hp]]]]]].
      exists (S j). split; [lia|]. split; [exact Hl|].
      exists (c :: pre), post. split; [reflexivity | simpl; now rewrite Hp].
    + intros [= <-]. exists 0. split; [simpl; lia|].
      exact (head_alt_match r (c :: s) rest l Ha).
Qed.

Lemma str_match_sound (r : regex) (s : jsstr) (res : match_result) :
  str_match s r = Some res -> match_at r s (index res) (m0 res).
Proof.
  intros Hs. destruct (search_sound r s 0 res Hs) as [j [Hj Hm]].
  simpl in Hj. now rewrite Hj.
Qed.

(** ** The phone pattern *)

Section ClassSteps.
Variable p : char -> bool.
Variable step : jsstr -> list jsstr.
Hypothesis step_nil : step [] = [].
Hypothesis step_cons : forall c s, step (c :: s) = if p c then [s] else [].

Lemma greedy_step_head (fuel : nat) (s : jsstr) :
  List.length s <= fuel ->
  exists l, greedy step fuel s = dropWhile p s :: l.
Proof.
  revert s. induction fuel as [|fuel IH]; intros s Hlen.
  - destruct s; [|simpl in Hlen; lia]. now exists [].
  - destruct s as [|c s]; cbn [greedy dropWhile].
    + rewrite step_nil. now exists [].
    + rewrite step_cons. destruct (p c) eqn:E.
      * cbn [flat_map]. replace (List.length s <? List.length (c :: s)) with true
          by (symmetry; apply Nat.ltb_lt; simpl; lia).
        destruct (IH s) as [l Hl]; [simpl in Hlen; lia|].
        rewrite Hl. simpl. eexists. reflexivity.
      * now exists [].
Qed.

Lemma at_least_step (n : nat) (s : jsstr) :
  (n <= List.length (takeWhile p s) ->
   exists l, at_least step n s = dropWhile p s :: l)
  /\ (List.length (takeWhile p s) < n -> at_least step n s = []).
Proof.
  revert s. induction n as [|n IH]; intros s.
  - split; [intros _ | lia]. apply greedy_step_head. lia.
  - destruct s as [|c s]; cbn [at_least takeWhile dropWhile].
    + rewrite step_nil. split; [simpl; lia | reflexivity].
    + rewrite step_cons. destruct (p c) eqn:E; cbn [flat_map List.length].
      * rewrite app_nil_r. destruct (IH s) as [IH1 IH2]. split; intros Hn.
        -- apply IH1. lia.
        -- apply IH2. lia.
      * split; [lia | reflexivity].
Qed.

End ClassSteps.

Lemma at_least_class (p : char -> bool) (n : nat) (s : jsstr) :
  (n <= List.length (takeWhile p s) ->
   exists l, at_least (alts (Class p)) n s = dropWhile p s :: l)
  /\ (List.length (takeWhile p s) < n -> at_least (alts (Class p)) n s = []).
Proof.
  apply at_least_step; reflexivity.
Qed.

Lemma plus_not_in_class (c : char) :
  is_char ch_plus c = true -> phone_class c = false.
Proof.
  unfold is_char. rewrite N.eqb_eq. now intros ->.
Qed.

Lemma alts_phone_unfold (s : jsstr) :
  alts phone_re s =
  flat_map (at_least (alts (Class phone_class)) 10)
           (match s with
            | c :: s' => (if is_char ch_plus c then [s'] else []) ++ [s]
            | [] => [s]
            end).
Proof. destruct s; reflexivity. Qed.

Lemma alts_phone (s : jsstr) :
  match phone_at s with
  | Some m => exists post l, s = m ++ post /\ alts phone_re s = post :: l
  | None => alts phone_re s = []
  end.
Proof.
  rewrite alts_phone_unfold. unfold phone_at.
  destruct s as [|c s].
  - cbn [flat_map app]. rewrite app_nil_r.
    apply (at_least_class phone_class 10 []). simpl. lia.
  - destruct (is_char ch_plus c) eqn:E; cbn [flat_map app].
    + rewrite app_nil_r.
      assert (Hout : at_least (alts (Class phone_class)) 10 (c :: s) = []).
      { apply at_least_class. cbn [takeWhile].
        rewrite (plus_not_in_class c E). simpl. lia. }
      rewrite Hout, app_nil_r.
      destruct (at_least_class phone_class 10 s) as [Hyes Hno].
      destruct (10 <=? List.length (takeWhile phone_class s)) eqn:L.
      * apply Nat.leb_le in L. destruct (Hyes L) as [l Hl].
        exists (dropWhile phone_class s), l. split; [|exact Hl].
        simpl. now rewrite take_drop_while.
      * apply Nat.leb_gt in L. now apply Hno.
    + rewrite app_nil_r.
      destruct (at_least_class phone_class 10 (c :: s)) as [Hyes Hno].
      destruct (10 <=? List.length (takeWhile phone_class (c :: s))) eqn:L.
      * apply Nat.leb_le in L. destruct (Hyes L) as [l Hl].
        exists (dropWhile phone_class (c :: s)), l. split; [|exact Hl].
        now rewrite take_drop_while.
      * apply Nat.leb_gt in L. now apply Hno.
Qed.

(** The search, position by position. *)
Lemma search_phone (s : jsstr) (i : nat) :
  search phone_re s i =
  match phone_at s with
  | Some m => Some {| index := i; m0 := m |}
  | None =>
      match s with
      | [] => None
      | _ :: s' => search phone_re s' (S i)
      end
  end.
Proof.
  pose proof (alts_phone s) as Ha.
  destruct s as [|c s]; cbn [search];
    destruct (phone_at _) as [m|].
  - destruct Ha as [post [l [Hs Hl]]]. rewrite Hl.
    do 2 f_equal. rewrite Hs at 1 2. rewrite length_app, Nat.add_sub.
    rewrite firstn_app, Nat.sub_diag, firstn_all. simpl. apply app_nil_r.
  - now rewrite Ha.
  - destruct Ha as [post [l [Hs Hl]]]. rewrite Hl.
    do 2 f_equal. rewrite Hs at 1 2. rewrite length_app, Nat.add_sub.
    rewrite firstn_app, Nat.sub_diag, firstn_all. simpl. apply app_nil_r.
  - now rewrite Ha.
Qed.

Lemma lang_class_inv (p : char -> bool) (u : jsstr) :
  lang (Class p) u -> exists c, u = [c] /\ p c = true.
Proof. intros Hl. inversion Hl; subst. now exists c. Qed.

Lemma lang_at_least_class (p : char -> bool) (n : nat) (w : jsstr) :
  lang (AtLeast n (Class p)) w
  <-> Forall (fun c => p c = true) w /\ n <= List.length w.
Proof.
  split.
  - intros Hl. remember (AtLeast n (Class p)) as r eqn:Er.
    revert n Er. induction Hl; intros k Er; try discriminate.
    + injection Er as -> ->.
      apply lang_class_inv in Hl1. destruct Hl1 as [c [-> Hc]].
      destruct (IHHl2 (pred k) eq_refl) as [Hall Hlen].
      split; [constructor; assumption | simpl; lia].
    + injection Er as <- _. split; [constructor | simpl; lia].
  - intros [Hall Hlen]. revert n Hlen.
    induction Hall as [|c w Hc _ IH]; intros n Hlen.
    + simpl in Hlen. replace n with 0 by lia. constructor.
    + change (c :: w) with ([c] ++ w). apply L_more.
      * now constructor.
      * apply IH. simpl in Hlen. lia.
Qed.

(** The texts that the phone pattern matches. *)
Lemma lang_phone (m : jsstr) :
  lang phone_re m
  <-> exists sign digits,
        m = sign ++ digits /\ (sign = [] \/ sign = [ch_plus])
        /\ Forall (fun c => phone_class c = true) digits
        /\ 10 <= List.length digits.
Proof.
  unfold phone_re. split.
  - intros Hl. inversion Hl as [| | | | | |r u Hg]; subst.
    inversion Hg as [|r1 r2 u v Ho Hr| | | | |]; subst.
    apply lang_at_least_class in Hr. destruct Hr as [Hall Hlen].
    exists u, v. repeat split; try assumption.
    inversion Ho as [| |r u' Hc| | | |]; subst; [|now left].
    apply lang_class_inv in Hc. destruct Hc as [c [-> Hc]].
    unfold is_char in Hc. apply N.eqb_eq in Hc. subst. now right.
  - intros [sign [digits [-> [Hs [Hall Hlen]]]]].
    constructor. constructor.
    + destruct Hs as [-> | ->]; [apply L_opt_none|].
      apply L_opt_some. now constructor.
    + apply lang_at_least_class. now split.
Qed.

Lemma phone_at_sound (s m : jsstr) :
  phone_at s = Some m -> lang phone_re m /\ exists post, s = m ++ post.
Proof.
  unfold phone_at. destruct s as [|c s]; [discriminate|].
  destruct (is_char ch_plus c) eqn:E.
  - destruct (10 <=? _) eqn:L; [|discriminate]. intros [= <-].
    apply Nat.leb_le in L. split.
    + apply lang_phone. exists [ch_plus], (takeWhile phone_class s).
      unfold is_char in E. apply N.eqb_eq in E. subst c.
      repeat split; auto using takeWhile_all.
    + exists (dropWhile phone_class s). simpl. now rewrite take_drop_while.
  - destruct (10 <=? _) eqn:L; [|discriminate]. intros [= <-].
    apply Nat.leb_le in L. split.
    + apply lang_phone. exists [], (takeWhile phone_class (c :: s)).
      repeat split; auto using takeWhile_all.
    + exists (dropWhile phone_class (c :: s)). symmetry.
      apply (take_drop_while phone_class (c :: s)).
Qed.

Lemma phone_at_complete (s m' post' : jsstr) :
  s = m' ++ post' -> lang phone_re m' ->
  exists m, phone_at s = Some m /\ List.length m' <= List.length m.
Proof.
  intros -> Hl. apply lang_phone in Hl.
  destruct Hl as [sign [digits [-> [Hs [Hall Hlen]]]]].
  pose proof (takeWhile_longest phone_class _ post' Hall) as Hlong.
  destruct Hs as [-> | ->].
  - destruct digits as [|c digits]; [simpl in Hlen; lia|].
    cbn [app phone_at]. cbn [app] in Hlong.
    assert (Hc : phone_class c = true) by now inversion Hall.
    destruct (is_char ch_plus c) eqn:E.
    { apply plus_not_in_class in E. congruence. }
    replace (10 <=? _) with true by (symmetry; apply Nat.leb_le; lia).
    eexists. split; [reflexivity | exact Hlong].
  - cbn [app phone_at]. change (is_char ch_plus ch_plus) with true. cbv iota.
    replace (10 <=? _) with true by (symmetry; apply Nat.leb_le; lia).
    eexists. split; [reflexivity | simpl; lia].
Qed.

Lemma match_at_zero (r : regex) (s m : jsstr) :
  match_at r s 0 m <-> lang r m /\ exists post, s = m ++ post.
Proof.
  unfold match_at. split.
  - intros [Hl [pre [post [-> Hp]]]]. destruct pre; [|discriminate].
    split; [assumption | now exists post].
  - intros [Hl [post ->]]. split; [assumption | now exists [], post].
Qed.

Lemma match_at_succ (r : regex) (c : char) (s m : jsstr) (j : nat) :
  match_at r (c :: s) (S j) m <-> match_at r s j m.
Proof.
  unfold match_at. split.
  - intros [Hl [pre [post [Hs Hp]]]]. destruct pre as [|c' pre]; [discriminate|].
    injection Hs as -> ->. injection Hp as Hp.
    split; [assumption | now exists pre, post].
  - intros [Hl [pre [post [-> Hp]]]]. split; [assumption|].
    exists (c :: pre), post. split; [reflexivity | simpl; now rewrite Hp].
Qed.

Lemma no_match_in_empty (j : nat) (m : jsstr) : ~ match_at phone_re [] j m.
Proof.
  intros [Hl [pre [post [Hs _]]]].
  symmetry in Hs. apply app_eq_nil in Hs. destruct Hs as [_ Hs].
  apply app_eq_nil in Hs. destruct Hs as [-> _].
  apply lang_phone in Hl. destruct Hl as [sign [digits [Hm [_ [_ Hlen]]]]].
  symmetry in Hm. apply app_eq_nil in Hm. destruct Hm as [_ ->]. simpl in Hlen. lia.
Qed.

(** What the search for the phone pattern returns. *)
Lemma search_phone_spec (s : jsstr) (i : nat) :
  match search phone_re s i with
  | Some r => exists j, index r = i + j /\ first_match phone_re s j (m0 r)
  | None => forall j m, ~ match_at phone_re s j m
  end.
Proof.
  revert i. induction s as [|c s IH]; intros i; rewrite search_phone.
  - simpl. apply no_match_in_empty.
  - destruct (phone_at (c :: s)) as [m|] eqn:P.
    + exists 0. cbn [index m0]. split; [lia|].
      destruct (phone_at_sound _ _ P) as [Hl Hpost].
      repeat split.
      * exact Hl.
      * destruct Hpost as [post Hpost]. now exists [], post.
      * intros; lia.
      * intros m' Hm'. destruct (proj1 (match_at_zero _ _ _) Hm') as [Hl' [post' Hs']].
        destruct (phone_at_complete _ _ _ Hs' Hl') as [m1 [P1 Hle]].
        rewrite P in P1. now injection P1 as <-.
    + assert (Hzero : forall m, ~ match_at phone_re (c :: s) 0 m).
      { intros m Hm. destruct (proj1 (match_at_zero _ _ _) Hm) as [Hl [post Hs]].
        destruct (phone_at_complete _ _ _ Hs Hl) as [m1 [P1 _]]. congruence. }
      specialize (IH (S i)). destruct (search phone_re s (S i)) as [r|].
      * destruct IH as [j [Hi [Hm [Hleft Hlong]]]].
        exists (S j). split; [lia|]. repeat split.
        -- apply Hm.
        -- destruct Hm as [_ [pre [post [-> Hp]]]].
           exists (c :: pre), post. split; [reflexivity | simpl; now rewrite Hp].
        -- intros j' m' Hm'. destruct j' as [|j'].
           ++ destruct (Hzero _ Hm').
           ++ pose proof (proj1 (match_at_succ _ _ _ _ _) Hm') as Hm2.
              pose proof (Hleft _ _ Hm2). lia.
        -- intros m' Hm'. apply Hlong. exact (proj1 (match_at_succ _ _ _ _ _) Hm').
      * intros j m Hm. destruct j as [|j].
        -- destruct (Hzero _ Hm).
        -- exact (IH _ _ (proj1 (match_at_succ _ _ _ _ _) Hm)).
Qed.

(** [info.match(/(\+?[\d\s-]{10,})/)] finds the first match when the text
    has one, and nothing otherwise. *)
Lemma str_match_phone_found (s : jsstr) :
  has_match phone_re s ->
  exists r, str_match s phone_re = Some r
            /\ first_match phone_re s (index r) (m0 r)
            /\ and_m0 (Some r) = Some (m0 r).
Proof.
  intros [j [m Hm]]. unfold str_match.
  pose proof (search_phone_spec s 0) as Hs.
  destruct (search phone_re s 0) as [r|]; [|now apply Hs in Hm].
  destruct Hs as [k [Hk Hfirst]]. simpl in Hk. rewrite <- Hk in Hfirst.
  exists r. repeat split; try apply Hfirst.
  destruct Hfirst as [[Hl _] _]. apply lang_phone in Hl.
  destruct Hl as [sign [digits [Hr [_ [_ Hlen]]]]].
  unfold and_m0. rewrite Hr. destruct digits; [simpl in Hlen; lia|].
  now destruct sign.
Qed.

Lemma str_match_phone_none (s : jsstr) :
  ~ has_match phone_re s -> and_m0 (str_match s phone_re) = None.
Proof.
  intros Hno. unfold str_match.
  pose proof (search_phone_spec s 0) as Hs.
  destruct (search phone_re s 0) as [r|]; [|reflexivity].
  destruct Hs as [k [_ [Hm _]]]. exfalso. apply Hno. now exists k, (m0 r).
Qed.

Lemma str_match_phone_sound (s : jsstr) (m : jsstr) :
  and_m0 (str_match s phone_re) = Some m -> has_match phone_re s.
Proof.
  unfold str_match. pose proof (search_phone_spec s 0) as Hs.
  destruct (search phone_re s 0) as [r|]; [|discriminate].
  intros _. destruct Hs as [k [_ [Hm _]]]. now exists k, (m0 r).
Qed.

(** ** Programs *)

Section ProgFacts.
Context {E : Type}.

Lemma awaited_bind {A B : Type} (p : prog E A) (f : A -> prog E B) :
  awaited p -> (forall a, awaited (f a)) -> awaited (bind p f).
Proof.
  intros Hp Hf. induction Hp; simpl; auto; constructor; auto.
Qed.

Lemma awaited_try_catch {A : Type} (p : prog E A) (h : exn -> prog E A) :
  awaited p -> (forall e, awaited (h e)) -> awaited (try_catch p h).
Proof.
  intros Hp Hh. induction Hp; simpl; auto; constructor; auto.
Qed.

Lemma awaited_finally {A : Type} (p : prog E A) (f : prog E unit) :
  awaited p -> awaited f -> awaited (finally p f).
Proof.
  intros Hp Hf. induction Hp; simpl.
  - apply awaited_bind; [assumption | intros; constructor].
  - apply awaited_bind; [assumption | intros; constructor].
  - constructor; auto.
  - constructor; auto.
Qed.

Lemma awaited_lift {A : Type} (r : exn + A) : awaited (lift (E := E) r).
Proof. destruct r; constructor. Qed.

Lemma awaited_perform (e : E) : awaited (perform e).
Proof. repeat constructor. Qed.

Lemma awaited_apiService `{Platform} {A : Type} (c : call A) :
  awaited (apiService E c).
Proof.
  assert (Hc : forall label req, awaited (checked E label req)).
  { intros label req. constructor. intros [e|r|code reason e];
      [constructor| |constructor].
    destruct (negb (ok r)); constructor. }
  destruct c; unfold apiService, returning_json, returning_text;
    (apply awaited_bind; [apply Hc | intros; first [apply awaited_lift | constructor]]).
Qed.

Lemma awaited_sequential {A : Type} (p : prog E A) :
  awaited p -> forall b n, sequential (fst (run b n p)).
Proof.
  intros Hp b. induction Hp as [a|e|e k Hk IH|r k Hk IH]; intros n; simpl.
  - constructor.
  - constructor.
  - specialize (IH n). destruct (run b n k) as [t o]. simpl in *. now constructor.
  - specialize (IH (b n r) (S n)). destruct (run b (S n) (k (b n r))) as [t o].
    simpl in *. now constructor.
Qed.

Lemma sequential_peak (t : list (event E)) : sequential t -> peak 0 t <= 1.
Proof.
  induction 1 as [|e t Hs IH|r res t Hs IH]; cbn [peak pred]; [lia | exact IH |].
  destruct (peak 0 t); simpl; lia.
Qed.

Lemma awaited_one_at_a_time {A : Type} (p : prog E A) :
  awaited p -> one_at_a_time p.
Proof.
  intros Hp b n. pose proof (awaited_sequential p Hp b n) as Hs.
  split; [assumption | now apply sequential_peak].
Qed.

End ProgFacts.

Ltac awaited_step :=
  first
    [ apply awaited_apiService
    | apply awaited_lift
    | apply awaited_perform
    | apply awaited_bind
    | apply awaited_try_catch
    | apply awaited_finally
    | apply aw_ret
    | apply aw_throw
    | intro
    | match goal with
      | |- awaited (if ?c then _ else _) => destruct c
      | |- awaited (match ?x with _ => _ end) => destruct x
      end ].

Ltac awaited_all := repeat awaited_step.

(** A program that issues a request without awaiting it can have two
    requests in flight: the property is not one that every program has. *)
Example fire_then_await_peak :
  forall (b : backend) (r1 r2 : request),
    peak 0 (trace b (Fire (E := unit) r1
                       (Await r2 (fun _ => Ret tt)))) = 2.
Proof. reflexivity. Qed.

(** ** What the contact handlers make of a phone match *)

Lemma space_not_digit_or_plus (c : char) :
  is_space c = true -> is_digit c = false /\ is_char ch_plus c = false.
Proof.
  unfold is_space, is_digit, is_char, ch_plus, between. intros Hs.
  assert (Hc : (c < 43 \/ 57 < c)%N).
  { repeat match goal with
           | H : (_ || _) = true |- _ => apply orb_true_iff in H; destruct H
           | H : (_ && _) = true |- _ => apply andb_true_iff in H; destruct H
           | H : (_ <=? _)%N = true |- _ => apply N.leb_le in H
           | H : (_ =? _)%N = true |- _ => apply N.eqb_eq in H
           end; lia. }
  split.
  - apply andb_false_iff. rewrite !N.leb_gt. lia.
  - apply N.eqb_neq. lia.
Qed.

Lemma space_in_space_or_hyphen (c : char) :
  is_space c = true -> space_or_hyphen c = true.
Proof. unfold space_or_hyphen. now intros ->. Qed.

Lemma space_in_not_digit_or_plus (c : char) :
  is_space c = true -> not_digit_or_plus c = true.
Proof.
  intros Hs. destruct (space_not_digit_or_plus c Hs) as [Hd Hp].
  unfold not_digit_or_plus. now rewrite Hd, Hp.
Qed.

Lemma space_in_not_digit (c : char) : is_space c = true -> not_digit c = true.
Proof.
  intros Hs. destruct (space_not_digit_or_plus c Hs) as [Hd _].
  unfold not_digit. now rewrite Hd.
Qed.

Lemma dropWhile_keeps (P : char -> Prop) (q : char -> bool) (s : jsstr) :
  Forall P s -> Forall P (dropWhile q s).
Proof.
  induction 1 as [|c s Hc Hs IH]; simpl; [constructor|].
  destruct (q c); [assumption | now constructor].
Qed.

Lemma trim_keeps (P : char -> Prop) (s : jsstr) : Forall P s -> Forall P (trim s).
Proof.
  intros Hs. unfold trim, trimEnd, trimStart.
  apply Forall_rev, dropWhile_keeps, Forall_rev, dropWhile_keeps, Hs.
Qed.

Lemma dropWhile_snoc (q : char -> bool) (s : jsstr) (c : char) :
  q c = false -> dropWhile q (s ++ [c]) = dropWhile q s ++ [c].
Proof.
  intros Hc. induction s as [|d s IH]; simpl.
  - now rewrite Hc.
  - destruct (q d); [exact IH | reflexivity].
Qed.

Lemma trim_cons (c : char) (s : jsstr) :
  is_space c = false -> trim (c :: s) = c :: trimEnd s.
Proof.
  intros Hc. unfold trim, trimStart, trimEnd. simpl. rewrite Hc. simpl.
  rewrite (dropWhile_snoc _ _ _ Hc), rev_app_distr. reflexivity.
Qed.

Lemma class_not_plus (digits : jsstr) :
  Forall (fun c => phone_class c = true) digits ->
  Forall (fun c => is_char ch_plus c = false) digits.
Proof.
  intros Hall. eapply Forall_impl; [|exact Hall]. intros c Hc.
  destruct (is_char ch_plus c) eqn:E; [|reflexivity].
  apply plus_not_in_class in E. congruence.
Qed.

Lemma startsWith_plus (s : jsstr) :
  startsWith s (lit "+") = match s with c :: _ => is_char ch_plus c | [] => false end.
Proof.
  destruct s as [|c s]; [reflexivity|]. cbn. now rewrite andb_true_r.
Qed.

(** The number that [handleWhatsApp] puts in the link. *)
Lemma whatsapp_number_of_match (m : jsstr) :
  lang phone_re m ->
  (if startsWith (trim m) (lit "+")
   then remove_all not_digit_or_plus (trim m)
   else lit "+91" ++ remove_all not_digit (trim m))
  = whatsapp_number m.
Proof.
  intros Hl. apply lang_phone in Hl.
  destruct Hl as [sign [digits [-> [Hs [Hall Hlen]]]]].
  pose proof (class_not_plus digits Hall) as Hnp.
  unfold whatsapp_number, digits_of. destruct Hs as [-> | ->]; cbn [app].
  - assert (H1 : startsWith (trim digits) (lit "+") = false).
    { rewrite startsWith_plus. pose proof (trim_keeps _ _ Hnp) as Ht.
      destruct (trim digits); [reflexivity | now inversion Ht]. }
    assert (H2 : startsWith digits (lit "+") = false).
    { rewrite startsWith_plus. destruct digits; [reflexivity | now inversion Hnp]. }
    rewrite H1, H2, (remove_all_trim _ _ space_in_not_digit).
    unfold remove_all, not_digit. f_equal. apply filter_ext.
    intros c. apply negb_involutive.
  - rewrite (trim_cons ch_plus digits eq_refl).
    change (startsWith (ch_plus :: trimEnd digits) (lit "+")) with true.
    change (startsWith (ch_plus :: digits) (lit "+")) with true. cbv iota.
    rewrite <- (trim_cons ch_plus digits eq_refl).
    rewrite (remove_all_trim _ _ space_in_not_digit_or_plus).
    unfold remove_all. cbn [filter]. change (is_digit ch_plus) with false.
    change (negb (not_digit_or_plus ch_plus)) with true. cbv iota. f_equal.
    apply filter_ext_in. intros c Hc.
    pose proof (proj1 (Forall_forall _ _) Hnp c Hc) as Hp. simpl in Hp.
    unfold not_digit_or_plus. now rewrite Hp, orb_false_r, negb_involutive.
Qed.

Lemma trim_occurs (s : jsstr) : occurs (trim s) s.
Proof.
  unfold occurs, trim, trimStart, trimEnd.
  exists (takeWhile is_space s),
         (rev (takeWhile is_space (rev (dropWhile is_space s)))).
  rewrite <- rev_app_distr, take_drop_while, rev_involutive.
  now rewrite take_drop_while.
Qed.

(** A match in the trimmed text is a match in the text. *)
Lemma has_match_trim (r : regex) (s : jsstr) :
  has_match r (trim s) -> has_match r s.
Proof.
  intros [i [m [Hl [pre [post [Hs Hi]]]]]].
  destruct (trim_occurs s) as [pre' [post' Hs']].
  exists (List.length (pre' ++ pre)), m. split; [exact Hl|].
  exists (pre' ++ pre), (post ++ post'). split; [|reflexivity].
  rewrite Hs' at 1. rewrite Hs. now rewrite <- !app_assoc.
Qed.

Lemma has_no_match_by_search (s : jsstr) :
  str_match s phone_re = None -> ~ has_match phone_re s.
Proof.
  intros Hn Hm. destruct (str_match_phone_found s Hm) as [r [Hr _]]. congruence.
Qed.

(** Where [handleCall] goes when the trimmed text has a phone match. *)
Lemma handleCall_dials (customer : Customer.t) :
  has_match phone_re (trim (Customer.contact_info customer)) ->
  exists (i : nat) (m : jsstr),
    first_match phone_re (trim (Customer.contact_info customer)) i m
    /\ CustomersPage.handleCall customer
       = perform (CustomersPage.location_href
                    (lit "tel:" ++ remove_all space_or_hyphen m))
    /\ forall st : CustomerDetailPage.State,
         CustomerDetailPage.customer st = Some customer ->
         CustomerDetailPage.handleCall st
         = perform (CustomerDetailPage.location_href
                      (lit "tel:" ++ remove_all space_or_hyphen m)).
Proof.
  intros Hm.
  destruct (str_match_phone_found _ Hm) as [r [Hr [Hfirst Hand]]].
  exists (index r), (m0 r). split; [exact Hfirst|]. split.
  - unfold CustomersPage.handleCall, CustomersPage.info_of.
    rewrite or_empty_id, Hr, Hand.
    now rewrite (remove_all_trim _ _ space_in_space_or_hyphen).
  - intros st Hst. unfold CustomerDetailPage.handleCall, CustomerDetailPage.info_of.
    rewrite Hst, or_empty_id, Hr, Hand.
    now rewrite (remove_all_trim _ _ space_in_space_or_hyphen).
Qed.

(** ** C1 *)

Lemma with_phone_has_match :
  has_match phone_re (trim (Customer.contact_info Samples.with_phone)).
Proof.
  apply (str_match_phone_sound _ (lit "+91 98765-43210 ")). reflexivity.
Qed.

Example with_phone_dials :
  CustomersPage.handleCall Samples.with_phone
  = perform (CustomersPage.location_href (lit "tel:+919876543210")).
Proof. reflexivity. Qed.

(** ** C2 *)

(** C2: for every customer whose trimmed contact_info has no match of the
    phone pattern, [handleSMS] and [handleWhatsApp] show an alert and open
    no URI; if it has no [@] either, [handleCall] writes it (the trimmed
    contact_info) to the clipboard and shows an alert, and navigates
    nowhere. *)
Theorem C2_fallback_is_clipboard_and_alerts :
  forall customer : Customer.t,
    ~ has_match phone_re (trim (Customer.contact_info customer)) ->
    CustomersPage.handleSMS customer
    = perform (CustomersPage.alert (lit "Invalid phone number for SMS"))
    /\ CustomersPage.handleWhatsApp customer
       = perform (CustomersPage.alert (lit "Invalid phone number for WhatsApp"))
    /\ (~ occurs (lit "@") (trim (Customer.contact_info customer)) ->
        CustomersPage.handleCall customer
        = Do (CustomersPage.clipboard_writeText
                (trim (Customer.contact_info customer)))
             (Do (CustomersPage.alert (lit "Contact copied to clipboard"))
                 (Ret tt))).
Proof.
  intros customer Hno. pose proof (str_match_phone_none _ Hno) as Hnone.
  unfold CustomersPage.handleSMS, CustomersPage.handleWhatsApp,
    CustomersPage.handleCall, CustomersPage.info_of.
  rewrite or_empty_id, Hnone. repeat split.
  intros Hat. destruct (includes _ (lit "@")) eqn:Hinc; [|reflexivity].
  apply includes_spec in Hinc. contradiction.
Qed.

Lemma with_nothing_has_no_match :
  ~ has_match phone_re (trim (Customer.contact_info Samples.with_nothing)).
Proof. apply has_no_match_by_search. reflexivity. Qed.

Lemma C2_witness :
  CustomersPage.handleSMS Samples.with_nothing
  = perform (CustomersPage.alert (lit "Invalid phone number for SMS"))
  /\ CustomersPage.handleWhatsApp Samples.with_nothing
     = perform (CustomersPage.alert (lit "Invalid phone number for WhatsApp"))
  /\ CustomersPage.handleCall Samples.with_nothing
     = Do (CustomersPage.clipboard_writeText (lit "shop at the corner"))
          (Do (CustomersPage.alert (lit "Contact copied to clipboard"))
              (Ret tt)).
Proof.
  destruct (C2_fallback_is_clipboard_and_alerts Samples.with_nothing
              with_nothing_has_no_match) as [Hsms [Hwa Hcall]].
  split; [exact Hsms | split; [exact Hwa |]].
  apply Hcall. intros Hat. apply includes_spec in Hat. discriminate Hat.
Defined.

Example with_nothing_is_copied :
  CustomersPage.handleCall Samples.with_nothing
  = Do (CustomersPage.clipboard_writeText (lit "shop at the corner"))
       (Do (CustomersPage.alert (lit "Contact copied to clipboard")) (Ret tt)).
Proof. reflexivity. Qed.

(** ** C8 *)

(** C8: for every customer whose trimmed contact_info has a phone match,
    [handleWhatsApp] (on both pages) encodes its greeting and opens the
    [wa.me] link whose number is made of the digits of the first match:
    after the plus sign of the match when it starts with one, and after
    [+91] otherwise. *)
Theorem C8_whatsapp_number_defaults_to_91 :
  forall customer : Customer.t,
    has_match phone_re (trim (Customer.contact_info customer)) ->
    exists (i : nat) (m : jsstr),
      first_match phone_re (trim (Customer.contact_info customer)) i m
      /\ whatsapp_number m
         = (if startsWith m (lit "+") then ch_plus :: digits_of m
            else lit "+91" ++ digits_of m)
      /\ CustomersPage.handleWhatsApp customer
         = (encodedMessage <- lift (encode
              (lit "Hello " ++ Customer.name customer
               ++ lit "! I'm reaching out to discuss how we can help with your needs. Would you have some time to chat?")) ;;
            perform (CustomersPage.window_open
                       (lit "https://wa.me/" ++ whatsapp_number m
                        ++ lit "?text=" ++ encodedMessage) (lit "_blank")))
      /\ forall st : CustomerDetailPage.State,
           CustomerDetailPage.customer st = Some customer ->
           CustomerDetailPage.handleWhatsApp st
           = (encodedMessage <- lift (encode
                (lit "Hello " ++ Customer.name customer
                 ++ lit ", I'm reaching out regarding your insurance needs. How may I assist you today?")) ;;
              perform (CustomerDetailPage.window_open
                         (lit "https://wa.me/" ++ whatsapp_number m
                          ++ lit "?text=" ++ encodedMessage) (lit "_blank"))).
Proof.
  intros customer Hm.
  destruct (str_match_phone_found _ Hm) as [r [Hr [Hfirst Hand]]].
  assert (Hl : lang phone_re (m0 r)) by apply Hfirst.
  exists (index r), (m0 r). split; [exact Hfirst|]. split; [reflexivity|]. split.
  - unfold CustomersPage.handleWhatsApp, CustomersPage.info_of.
    rewrite or_empty_id, Hr, Hand.
    now rewrite (whatsapp_number_of_match _ Hl).
  - intros st Hst.
    unfold CustomerDetailPage.handleWhatsApp, CustomerDetailPage.info_of.
    rewrite Hst, or_empty_id, Hr, Hand.
    now rewrite (whatsapp_number_of_match _ Hl).
Qed.

Lemma with_local_phone_has_match :
  has_match phone_re (trim (Customer.contact_info Samples.with_local_phone)).
Proof.
  apply (str_match_phone_sound _ (lit "98765 43210")). reflexivity.
Qed.

Lemma C8_witness :
  exists (i : nat) (m : jsstr),
    first_match phone_re (trim (Customer.contact_info Samples.with_local_phone)) i m
    /\ whatsapp_number m
       = (if startsWith m (lit "+") then ch_plus :: digits_of m
          else lit "+91" ++ digits_of m)
    /\ CustomersPage.handleWhatsApp Samples.with_local_phone
       = (encodedMessage <- lift (encode
            (lit "Hello " ++ Customer.name Samples.with_local_phone
             ++ lit "! I'm reaching out to discuss how we can help with your needs. Would you have some time to chat?")) ;;
          perform (CustomersPage.window_open
                     (lit "https://wa.me/" ++ whatsapp_number m
                      ++ lit "?text=" ++ encodedMessage) (lit "_blank")))
    /\ forall st : CustomerDetailPage.State,
         CustomerDetailPage.customer st = Some Samples.with_local_phone ->
         CustomerDetailPage.handleWhatsApp st
         = (encodedMessage <- lift (encode
              (lit "Hello " ++ Customer.name Samples.with_local_phone
               ++ lit ", I'm reaching out regarding your insurance needs. How may I assist you today?")) ;;
            perform (CustomerDetailPage.window_open
                       (lit "https://wa.me/" ++ whatsapp_number m
                        ++ lit "?text=" ++ encodedMessage) (lit "_blank"))).
Proof.
  exact (C8_whatsapp_number_defaults_to_91 Samples.with_local_phone
           with_local_phone_has_match).
Defined.

Example with_local_phone_whatsapp :
  CustomersPage.handleWhatsApp Samples.with_local_phone
  = perform (CustomersPage.window_open
      (lit "https://wa.me/+919876543210?text=Hello%20Asha!%20I'm%20reaching%20out%20to%20discuss%20how%20we%20can%20help%20with%20your%20needs.%20Would%20you%20have%20some%20time%20to%20chat%3F")
      (lit "_blank")).
Proof. reflexivity. Qed.

Example with_phone_whatsapp_keeps_plus :
  exists rest,
    CustomersPage.handleWhatsApp Samples.with_phone
    = perform (CustomersPage.window_open
                 (lit "https://wa.me/+919876543210?text=" ++ rest) (lit "_blank")).
Proof. eexists. reflexivity. Qed.

(** ** C9 *)

(** C9, as it is worded, at a contact_info that holds an address followed
    by ten spaces: the text has a match of the phone pattern (the spaces)
    and an [@], yet [handleCall] goes to [mailto:] on both pages, because
    the handlers trim the text before they search it. *)
Lemma C9_counterexample_trailing_spaces :
  has_match phone_re (Customer.contact_info Samples.email_then_spaces)
  /\ occurs (lit "@") (Customer.contact_info Samples.email_then_spaces)
  /\ (exists rest,
        CustomersPage.handleCall Samples.email_then_spaces
        = perform (CustomersPage.location_href
                     (lit "mailto:asha@shop.in?subject=" ++ rest)))
  /\ CustomerDetailPage.handleCall
       {| CustomerDetailPage.customer := Some Samples.email_then_spaces;
          CustomerDetailPage.customerInteractions := [];
          CustomerDetailPage.isEditMode := false;
          CustomerDetailPage.currentInteraction := None;
          CustomerDetailPage.interactionForm :=
            {| CustomerDetailPage.InteractionForm.interaction_type := lit "call";
               CustomerDetailPage.InteractionForm.interaction_date := lit "";
               CustomerDetailPage.InteractionForm.title := lit "";
               CustomerDetailPage.InteractionForm.notes := lit "";
               CustomerDetailPage.InteractionForm.follow_up_needed := false;
               CustomerDetailPage.InteractionForm.follow_up_date := lit "";
               CustomerDetailPage.InteractionForm.status := lit "completed" |} |}
     = perform (CustomerDetailPage.location_href (lit "mailto:asha@shop.in")).
Proof.
  split; [|split; [|split]].
  - apply (str_match_phone_sound _ (lit "          ")). reflexivity.
  - apply includes_spec. reflexivity.
  - eexists. reflexivity.
  - reflexivity.
Qed.

(** C9, amended: for every customer whose trimmed contact_info contains
    both a match of the phone pattern and an [@], [handleCall] (on both
    pages) navigates to the [tel:] URI of the first match and performs
    nothing else; so whenever it navigates to a [mailto:] URI, the trimmed
    contact_info has no match of the phone pattern. *)
Theorem C9_phone_takes_precedence_over_email :
  forall customer : Customer.t,
    has_match phone_re (trim (Customer.contact_info customer)) ->
    occurs (lit "@") (trim (Customer.contact_info customer)) ->
    exists (i : nat) (m : jsstr),
      first_match phone_re (trim (Customer.contact_info customer)) i m
      /\ CustomersPage.handleCall customer
         = perform (CustomersPage.location_href
                      (lit "tel:" ++ remove_all space_or_hyphen m))
      /\ (forall (b : backend) (u : jsstr),
            In (CustomersPage.location_href u)
               (effects (trace b (CustomersPage.handleCall customer))) ->
            startsWith u (lit "mailto:") = false)
      /\ forall st : CustomerDetailPage.State,
           CustomerDetailPage.customer st = Some customer ->
           CustomerDetailPage.handleCall st
           = perform (CustomerDetailPage.location_href
                        (lit "tel:" ++ remove_all space_or_hyphen m))
           /\ forall (b : backend) (u : jsstr),
                In (CustomerDetailPage.location_href u)
                   (effects (trace b (CustomerDetailPage.handleCall st))) ->
                startsWith u (lit "mailto:") = false.
Proof.
  intros customer Hm _.
  destruct (handleCall_dials customer Hm) as [i [m [Hf [Hc Hd]]]].
  exists i, m. split; [exact Hf|]. split; [exact Hc|]. split.
  - intros b u. rewrite Hc. cbn. intros [[= <-] | []]. reflexivity.
  - intros st Hst. split; [exact (Hd st Hst)|].
    intros b u. rewrite (Hd st Hst). cbn. intros [[= <-] | []]. reflexivity.
Qed.

Lemma with_phone_and_email_has_match :
  has_match phone_re (trim (Customer.contact_info Samples.with_phone_and_email)).
Proof.
  apply (str_match_phone_sound _ (lit " 9876543210")). reflexivity.
Qed.

Lemma with_phone_and_email_has_at :
  occurs (lit "@") (trim (Customer.contact_info Samples.with_phone_and_email)).
Proof. apply includes_spec. reflexivity. Qed.

Lemma C9_witness :
  exists (i : nat) (m : jsstr),
    first_match phone_re
      (trim (Customer.contact_info Samples.with_phone_and_email)) i m
    /\ CustomersPage.handleCall Samples.with_phone_and_email
       = perform (CustomersPage.location_href
                    (lit "tel:" ++ remove_all space_or_hyphen m))
    /\ (forall (b : backend) (u : jsstr),
          In (CustomersPage.location_href u)
             (effects (trace b (CustomersPage.handleCall
                                  Samples.with_phone_and_email))) ->
          startsWith u (lit "mailto:") = false)
    /\ forall st : CustomerDetailPage.State,
         CustomerDetailPage.customer st = Some Samples.with_phone_and_email ->
         CustomerDetailPage.handleCall st
         = perform (CustomerDetailPage.location_href
                      (lit "tel:" ++ remove_all space_or_hyphen m))
         /\ forall (b : backend) (u : jsstr),
              In (CustomerDetailPage.location_href u)
                 (effects (trace b (CustomerDetailPage.handleCall st))) ->
              startsWith u (lit "mailto:") = false.
Proof.
  exact (C9_phone_takes_precedence_over_email Samples.with_phone_and_email
           with_phone_and_email_has_match with_phone_and_email_has_at).
Defined.

Example with_phone_and_email_dials :
  CustomersPage.handleCall Samples.with_phone_and_email
  = perform (CustomersPage.location_href (lit "tel:9876543210")).
Proof. reflexivity. Qed.

(** ** C10 *)

(** C10: there are contact_infos without any digit that the phone pattern
    accepts and that the three handlers treat as a phone number: ten
    hyphens, and a text with ten spaces inside it.  [handleCall] navigates
    to a [tel:] URI, [handleSMS] opens an [sms:] URI and [handleWhatsApp]
    opens a [wa.me] link, and none of them takes its fallback. *)
Theorem C10_digitless_text_is_taken_for_a_phone :
  (exists customer : Customer.t,
     Customer.contact_info customer = lit "----------"
     /\ taken_for_a_phone customer)
  /\ (exists customer : Customer.t,
        occurs (lit "          ") (Customer.contact_info customer)
        /\ taken_for_a_phone customer).
Proof.
  split.
  - exists Samples.ten_hyphens. split; [reflexivity|].
    split; [repeat constructor|]. split.
    + apply (str_match_phone_sound _ (lit "----------")). reflexivity.
    + split; [eexists; split; reflexivity|]. split; eexists; split; reflexivity.
  - exists Samples.ten_spaces_inside. split; [apply includes_spec; reflexivity|].
    split; [repeat constructor|]. split.
    + apply (str_match_phone_sound _ (lit "          ")). reflexivity.
    + split; [eexists; split; reflexivity|]. split; eexists; split; reflexivity.
Qed.

(** A contact_info of white space alone is trimmed to the empty text, and
    the handlers take their fallbacks. *)
Example only_spaces_falls_back :
  CustomersPage.handleCall Samples.only_spaces
  = Do (CustomersPage.clipboard_writeText (lit ""))
       (Do (CustomersPage.alert (lit "Contact copied to clipboard")) (Ret tt))
  /\ CustomersPage.handleSMS Samples.only_spaces
     = perform (CustomersPage.alert (lit "Invalid phone number for SMS"))
  /\ CustomersPage.handleWhatsApp Samples.only_spaces
     = perform (CustomersPage.alert (lit "Invalid phone number for WhatsApp")).
Proof. repeat split. Qed.

(** ** C3 *)

Lemma kept_filter {A : Type} (P : A -> Prop) (f : A -> bool) (l : list A) :
  (forall x, f x = true <-> P x) -> kept P l (filter f l).
Proof.
  intros Hf. induction l as [|x l IH]; simpl; [constructor|].
  destruct (f x) eqn:E.
  - apply kept_keep; [now apply Hf | exact IH].
  - apply kept_drop; [|exact IH]. intros HP. apply Hf in HP. congruence.
Qed.

(** [kept P l] determines its result. *)
Lemma kept_unique {A : Type} (P : A -> Prop) (l l1 l2 : list A) :
  kept P l l1 -> kept P l l2 -> l1 = l2.
Proof.
  intros H1. revert l2. induction H1 as [|x l l1 Hx H1 IH|x l l1 Hx H1 IH];
    intros l2 H2; inversion H2; subst; try contradiction; auto.
  f_equal. now apply IH.
Qed.

Lemma kept_In {A : Type} (P : A -> Prop) (l l' : list A) :
  kept P l l' -> forall x, In x l' <-> In x l /\ P x.
Proof.
  induction 1 as [|y l l' Hy Hk IH|y l l' Hy Hk IH]; intros x; simpl.
  - tauto.
  - rewrite IH. split.
    + intros [<- | [Hin Hp]]; auto.
    + intros [[<- | Hin] Hp]; auto.
  - rewrite IH. split.
    + intros [Hin Hp]; auto.
    + intros [[<- | Hin] Hp]; [contradiction | auto].
Qed.

(** C3: for every customer list and every search term, the filtered list
    is the customer list with exactly the customers whose lowercased name
    or lowercased contact_info contains the lowercased search term as a
    substring, in the order of the customer list. *)
Theorem C3_filter_is_substring_search :
  forall `{Platform} (st : CustomersPage.State),
    kept (shown (CustomersPage.searchTerm st))
         (CustomersPage.customers st) (CustomersPage.filteredCustomers st)
    /\ (forall c : Customer.t,
          In c (CustomersPage.filteredCustomers st)
          <-> In c (CustomersPage.customers st)
              /\ shown (CustomersPage.searchTerm st) c)
    /\ (forall l : list Customer.t,
          kept (shown (CustomersPage.searchTerm st))
               (CustomersPage.customers st) l ->
          l = CustomersPage.filteredCustomers st).
Proof.
  intros P st.
  assert (Hk : kept (shown (CustomersPage.searchTerm st))
                    (CustomersPage.customers st)
                    (CustomersPage.filteredCustomers st)).
  { unfold CustomersPage.filteredCustomers. apply kept_filter.
    intros c. unfold shown. now rewrite orb_true_iff, !includes_spec. }
  split; [exact Hk|]. split.
  - now apply kept_In.
  - intros l Hl. exact (kept_unique _ _ _ _ Hl Hk).
Qed.

Example filter_example :
  @CustomersPage.filteredCustomers Samples.platform
    {| CustomersPage.searchTerm := lit "ASHA";
       CustomersPage.customers :=
         [Samples.with_phone; Samples.ten_hyphens; Samples.email_then_spaces;
          Samples.customer_with "Ravi" "ravi@asha.org"];
       CustomersPage.loading := false; CustomersPage.error := lit "";
       CustomersPage.showAddForm := false;
       CustomersPage.newCustomer := CustomersPage.Form.empty;
       CustomersPage.detailsOpen := false; CustomersPage.activeCustomer := None;
       CustomersPage.interactions := Arr []; CustomersPage.aiLoading := false;
       CustomersPage.aiError := lit ""; CustomersPage.aiActive := false |}
  = [Samples.with_phone; Samples.email_then_spaces;
     Samples.customer_with "Ravi" "ravi@asha.org"].
Proof. reflexivity. Qed.

(** ** The calls of the REST client *)

Section ApiFacts.
Context `{Platform}.
Variable E : Type.

Lemma run_returning_json (b : backend) (n : nat) (label : jsstr) (req : request) :
  run b n (returning_json E label req)
  = ([Sent req; Settled req (b n req)],
     match b n req with
     | Rejected e => Raised e
     | Resolved r =>
         if ok r then
           match JSON_parse (text r) with
           | inl e => Raised e
           | inr v => Returned v
           end
         else Raised (Error (failure_message label r))
     | Unreadable _ _ e => Raised e
     end).
Proof.
  unfold returning_json, checked. cbn [bind run].
  destruct (b n req) as [e|r|code reason e]; [reflexivity| |reflexivity].
  destruct (ok r); cbn [negb bind run]; [|reflexivity].
  destruct (JSON_parse (text r)); reflexivity.
Qed.

Lemma run_returning_text (b : backend) (n : nat) (label : jsstr) (req : request) :
  run b n (returning_text E label req)
  = ([Sent req; Settled req (b n req)],
     match b n req with
     | Rejected e => Raised e
     | Resolved r =>
         if ok r then Returned (text r)
         else Raised (Error (failure_message label r))
     | Unreadable _ _ e => Raised e
     end).
Proof.
  unfold returning_text, checked. cbn [bind run].
  destruct (b n req) as [e|r|code reason e]; [reflexivity| |reflexivity].
  destruct (ok r); reflexivity.
Qed.

(** Every call sends its one request, and fails with the status of a
    response that is not ok. *)
Lemma run_apiService {A : Type} (c : call A) (b : backend) (n : nat) :
  fst (run b n (apiService E c)) = [Sent (request_of c); Settled (request_of c) (b n (request_of c))]
  /\ forall r, b n (request_of c) = Resolved r -> ok r = false ->
       snd (run b n (apiService E c))
       = Raised (Error (failure_message (label_of c) r)).
Proof.
  destruct c; unfold apiService;
    rewrite ?run_returning_json, ?run_returning_text;
    (split; [reflexivity | intros r Hr Hok; cbn [snd]; now rewrite Hr, Hok]).
Qed.

End ApiFacts.

(** ** C5 *)

Example getCustomer_not_found :
  result (E := unit) Samples.not_found
    (@apiService Samples.platform unit _ (getCustomer 12))
  = Raised (Error (lit "Failed to fetch customer: 404 Not Found - no such customer"))
  /\ requests (trace Samples.not_found
                 (@apiService Samples.platform unit _ (getCustomer 12)))
     = [fetch_url (lit "http://localhost:8000/customers/12")].
Proof. split; reflexivity. Qed.

(** ** C4 *)

(** C4: [handleAddCustomer] issues the create-customer request (one, with
    the form's fields) exactly when the name and the contact_info of the
    new-customer form are both non-empty; when either is empty it makes no
    request, its only effect is to set the error message
    'Name and contact info are required', and the customer list of the
    state is unchanged. *)
Theorem C4_add_customer_needs_name_and_contact :
  forall `{Platform} `{FromAny Customer.t}
         (userId : jsstr) (st : CustomersPage.State) (b : backend),
    requests (trace b (CustomersPage.handleAddCustomer userId st))
    = (if nonempty (CustomersPage.Form.name (CustomersPage.newCustomer st))
          && nonempty (CustomersPage.Form.contact_info (CustomersPage.newCustomer st))
       then [request_of (createCustomer
               (Obj [(lit "name",
                      Str (CustomersPage.Form.name (CustomersPage.newCustomer st)));
                     (lit "contact_info",
                      Str (CustomersPage.Form.contact_info (CustomersPage.newCustomer st)));
                     (lit "notes",
                      Str (CustomersPage.Form.notes (CustomersPage.newCustomer st)));
                     (lit "user_id", Num (parseInt_or_1 userId))]))]
       else [])
    /\ (nonempty (CustomersPage.Form.name (CustomersPage.newCustomer st))
        && nonempty (CustomersPage.Form.contact_info (CustomersPage.newCustomer st))
        = false ->
        effects (trace b (CustomersPage.handleAddCustomer userId st))
        = [CustomersPage.setError (lit "Name and contact info are required")]
        /\ CustomersPage.customers
             (CustomersPage.apply_all st
                (effects (trace b (CustomersPage.handleAddCustomer userId st))))
           = CustomersPage.customers st
        /\ CustomersPage.error
             (CustomersPage.apply_all st
                (effects (trace b (CustomersPage.handleAddCustomer userId st))))
           = lit "Name and contact info are required").
Proof.
  intros P F userId st b. unfold CustomersPage.handleAddCustomer, trace.
  rewrite <- negb_andb.
  destruct (nonempty (CustomersPage.Form.name (CustomersPage.newCustomer st))
            && nonempty (CustomersPage.Form.contact_info (CustomersPage.newCustomer st))).
  - split; [|discriminate]. cbn [negb].
    unfold apiService, returning_json, checked.
    cbn [bind try_catch finally run perform fst requests].
    destruct (b 0 _) as [e|r|code reason e];
      cbn [bind try_catch finally run perform fst requests].
    + reflexivity.
    + destruct (ok r); cbn [negb bind try_catch finally run perform fst requests lift].
      * destruct (JSON_parse (text r));
          cbn [negb bind try_catch finally run perform fst requests lift]; reflexivity.
      * reflexivity.
    + reflexivity.
  - split; [reflexivity|]. intros _. destruct st. repeat split.
Qed.

Example add_customer_without_contact :
  effects (trace Samples.serves_page
    (@CustomersPage.handleAddCustomer Samples.platform
       (fun _ => Samples.with_phone) (lit "7")
       {| CustomersPage.searchTerm := lit "";
          CustomersPage.customers := [Samples.with_phone];
          CustomersPage.loading := false; CustomersPage.error := lit "";
          CustomersPage.showAddForm := true;
          CustomersPage.newCustomer :=
            {| CustomersPage.Form.name := lit "Ravi";
               CustomersPage.Form.contact_info := lit "";
               CustomersPage.Form.notes := lit "met at the fair" |};
          CustomersPage.detailsOpen := false; CustomersPage.activeCustomer := None;
          CustomersPage.interactions := Arr []; CustomersPage.aiLoading := false;
          CustomersPage.aiError := lit ""; CustomersPage.aiActive := false |}))
  = [CustomersPage.setError (lit "Name and contact info are required")].
Proof. reflexivity. Qed.

(** ** C6 *)

Section Sequencing.
Context `{Platform} `{FromAny Customer.t} `{FromAny (list Customer.t)}
        `{FromAny CustomerInteraction.t} `{FromAny (list CustomerInteraction.t)}
        `{FromAny Z}.

Lemma loadWebsiteInfo_awaited (user : option jsstr) :
  awaited (DigitalPresenceBuilder.loadWebsiteInfo user).
Proof. unfold DigitalPresenceBuilder.loadWebsiteInfo. awaited_all. Qed.

(** C6: in every handler of the customers page, the customer detail page,
    the digital presence builder and the profile page, against every
    backend, each request is settled before the next one is sent, so that
    at most one request is in flight at any time; the requests of the load
    of the customer detail page are, in this order, the one for the
    customer, the one for its interactions and the one for its detailed
    interactions, or the first few of them when the load ends early. *)
Theorem C6_one_request_in_flight_at_a_time :
  (forall userId, one_at_a_time (CustomersPage.fetchCustomers userId))
  /\ (forall customer, one_at_a_time (CustomersPage.openDetails customer))
  /\ (forall userId, one_at_a_time (CustomersPage.handleActivateAI userId))
  /\ (forall userId st, one_at_a_time (CustomersPage.handleAddCustomer userId st))
  /\ (forall customerId userId,
        one_at_a_time (CustomerDetailPage.fetchData customerId userId))
  /\ (forall customerId userId st,
        one_at_a_time (CustomerDetailPage.fetchAIInsights customerId userId st))
  /\ (forall st confirmed id,
        one_at_a_time (CustomerDetailPage.handleDeleteInteraction st confirmed id))
  /\ (forall userId st now,
        one_at_a_time (CustomerDetailPage.handleInteractionSubmit userId st now))
  /\ (forall user, one_at_a_time (DigitalPresenceBuilder.loadWebsiteInfo user))
  /\ (forall template user,
        one_at_a_time (DigitalPresenceBuilder.handleGenerateWebsite template user))
  /\ (forall template user popup,
        one_at_a_time
          (DigitalPresenceBuilder.handlePreviewWebsite template user popup))
  /\ (forall template user,
        one_at_a_time (DigitalPresenceBuilder.handleApplyTemplate template user))
  /\ (forall userId, one_at_a_time (ProfilePage.fetchProfileData userId))
  /\ (forall userId file input,
        one_at_a_time (ProfilePage.handleProfileImageUpload userId file input))
  /\ (forall userId formData,
        one_at_a_time (ProfilePage.handleSaveProfile userId formData))
  /\ (forall customerId userId (b : backend),
        exists k : nat,
          requests (trace b (CustomerDetailPage.fetchData customerId userId))
          = firstn k
              [request_of (getCustomer customerId);
               request_of (getCustomerInteractions customerId);
               request_of (getCustomerDetailedInteractions
                             customerId (parseInt_or_1 userId))]).
Proof.
  repeat match goal with |- _ /\ _ => split end;
    try (intros; apply awaited_one_at_a_time).
  - unfold CustomersPage.fetchCustomers. awaited_all.
  - unfold CustomersPage.openDetails. awaited_all.
  - unfold CustomersPage.handleActivateAI. awaited_all.
  - unfold CustomersPage.handleAddCustomer. awaited_all.
  - unfold CustomerDetailPage.fetchData. awaited_all.
  - unfold CustomerDetailPage.fetchAIInsights. awaited_all.
  - unfold CustomerDetailPage.handleDeleteInteraction. awaited_all.
  - unfold CustomerDetailPage.handleInteractionSubmit,
      CustomerDetailPage.resetInteractionForm. awaited_all.
  - apply loadWebsiteInfo_awaited.
  - unfold DigitalPresenceBuilder.handleGenerateWebsite.
    awaited_all; apply loadWebsiteInfo_awaited.
  - unfold DigitalPresenceBuilder.handlePreviewWebsite. awaited_all.
  - unfold DigitalPresenceBuilder.handleApplyTemplate.
    awaited_all; apply loadWebsiteInfo_awaited.
  - unfold ProfilePage.fetchProfileData. awaited_all.
  - unfold ProfilePage.handleProfileImageUpload. awaited_all.
  - unfold ProfilePage.handleSaveProfile. awaited_all.
  - intros customerId userId b.
    unfold CustomerDetailPage.fetchData, trace.
    destruct ((customerId =? 0)%Z || negb (nonempty userId));
      [exists 0; reflexivity|].
    unfold apiService, returning_json, checked.
    repeat first
      [ progress cbn [negb bind try_catch finally run perform fst requests lift]
      | match goal with
        | |- context [run _ _ (match b ?n ?r with _ => _ end)] =>
            destruct (b n r)
        | |- context [run _ _ (bind (bind (match b ?n ?r with _ => _ end) _) _)] =>
            destruct (b n r)
        | |- context [negb (ok ?r)] => destruct (ok r)
        | |- context [lift (JSON_parse ?s)] => destruct (JSON_parse s)
        | |- context [b ?n ?r] => destruct (b n r)
        end ];
      first [ exists 1; reflexivity | exists 2; reflexivity | exists 3; reflexivity ].
Qed.

End Sequencing.

Example fetchData_asks_in_order :
  requests (trace (Samples.respond 200 "OK" "{}")
    (@CustomerDetailPage.fetchData Samples.platform
       (fun _ => Samples.with_phone) (fun _ => []) 12 (lit "7")))
  = [fetch_url (lit "http://localhost:8000/customers/12");
     fetch_url (lit "http://localhost:8000/customers/12/interactions");
     fetch_url (lit "http://localhost:8000/interactions/?customer_id=12&user_id=7")].
Proof. reflexivity. Qed.

(** ** C7 *)

(** C7: with a stored user whose id is set, against every backend that
    answers the preview request of the selected template with an ok
    response, [previewWebsite] returns the text of the body of that
    response as it is, and [handlePreviewWebsite] makes that one request
    and, when the text is not empty and the window opens, writes exactly
    that text into the new window and closes the document; it writes
    nothing else. *)
Theorem C7_preview_is_the_response_body :
  forall `{Platform} `{FromAny Z}
         (selectedTemplate userStr : jsstr) (user user_id : value)
         (popup : bool) (b : backend) (r : response),
    nonempty userStr = true ->
    JSON_parse userStr = inr user ->
    get (lit "id") user = inr user_id ->
    truthy user_id = true ->
    b 0 (request_of (previewWebsite (from_any user_id) selectedTemplate))
    = Resolved r ->
    ok r = true ->
    result b (apiService DigitalPresenceBuilder.ui
                (previewWebsite (from_any user_id) selectedTemplate))
    = Returned (text r)
    /\ requests (trace b (DigitalPresenceBuilder.handlePreviewWebsite
                           selectedTemplate (Some userStr) popup))
       = [fetch_url (API_BASE_URL ++ lit "/digital-presence/website/"
                ++ Z_toString (from_any user_id) ++ lit "/preview/"
                ++ selectedTemplate)]
    /\ effects (trace b (DigitalPresenceBuilder.handlePreviewWebsite
                          selectedTemplate (Some userStr) popup))
       = (if nonempty (text r) then
            DigitalPresenceBuilder.window_open (lit "") (lit "_blank")
            :: (if popup then
                  [DigitalPresenceBuilder.document_write (text r);
                   DigitalPresenceBuilder.document_close]
                else [])
          else []).
Proof.
  intros P F selectedTemplate userStr user user_id popup b r
         Hne Hparse Hid Htruthy Hres Hok.
  split; [|split].
  - unfold result, apiService. rewrite run_returning_text. cbn [snd].
    now rewrite Hres, Hok.
  - unfold DigitalPresenceBuilder.handlePreviewWebsite,
      DigitalPresenceBuilder.no_user, DigitalPresenceBuilder.userStr, trace.
    rewrite Hne, Hparse. cbn [negb lift bind]. rewrite Hid. cbn [lift bind].
    rewrite Htruthy. cbn [negb].
    unfold apiService, returning_text, checked.
    cbn [bind try_catch run fst requests]. rewrite Hres, Hok.
    cbn [negb bind try_catch run fst requests].
    destruct (nonempty (text r)), popup; reflexivity.
  - unfold DigitalPresenceBuilder.handlePreviewWebsite,
      DigitalPresenceBuilder.no_user, DigitalPresenceBuilder.userStr, trace.
    rewrite Hne, Hparse. cbn [negb lift bind]. rewrite Hid. cbn [lift bind].
    rewrite Htruthy. cbn [negb].
    unfold apiService, returning_text, checked.
    cbn [bind try_catch run fst effects]. rewrite Hres, Hok.
    cbn [negb bind try_catch run fst effects].
    destruct (nonempty (text r)), popup; reflexivity.
Qed.

Lemma C7_witness :
  result Samples.serves_page
    (@apiService Samples.platform DigitalPresenceBuilder.ui _
       (previewWebsite 7 (lit "professional")))
  = Returned (lit "<h1>Asha's shop</h1>")
  /\ requests (trace Samples.serves_page
       (@DigitalPresenceBuilder.handlePreviewWebsite Samples.platform
          Samples.number_of_any (lit "professional") (Some Samples.stored_user) true))
     = [fetch_url (lit "http://localhost:8000/digital-presence/website/7/preview/professional")]
  /\ effects (trace Samples.serves_page
       (@DigitalPresenceBuilder.handlePreviewWebsite Samples.platform
          Samples.number_of_any (lit "professional") (Some Samples.stored_user) true))
     = [DigitalPresenceBuilder.window_open (lit "") (lit "_blank");
        DigitalPresenceBuilder.document_write (lit "<h1>Asha's shop</h1>");
        DigitalPresenceBuilder.document_close].
Proof.
  exact (@C7_preview_is_the_response_body
           Samples.platform Samples.number_of_any
           (lit "professional") Samples.stored_user (Obj [(lit "id", Num 7)]) (Num 7)
           true Samples.serves_page
           {| status := 200; statusText := lit "OK";
              text := lit "<h1>Asha's shop</h1>" |}
           eq_refl eq_refl eq_refl eq_refl eq_refl eq_refl).
Defined.

(** Whatever the stored user and the backend are, a text that
    [handlePreviewWebsite] writes into the new window is the text of an ok
    response of the backend. *)
Lemma preview_writes_only_a_response_body :
  forall `{Platform} `{FromAny Z}
         (selectedTemplate : jsstr) (user : option jsstr) (popup : bool)
         (b : backend) (html : jsstr),
    In (DigitalPresenceBuilder.document_write html)
       (effects (trace b (DigitalPresenceBuilder.handlePreviewWebsite
                            selectedTemplate user popup))) ->
    exists (req : request) (r : response),
      b 0 req = Resolved r /\ ok r = true /\ html = text r.
Proof.
  intros P F selectedTemplate user popup b html.
  unfold DigitalPresenceBuilder.handlePreviewWebsite, trace.
  assert (Herr : forall msg,
             ~ In (DigitalPresenceBuilder.document_write html)
                  [DigitalPresenceBuilder.setError msg]).
  { intros msg [Hw | []]. discriminate Hw. }
  destruct (DigitalPresenceBuilder.no_user user).
  { intros Hin. now apply Herr in Hin. }
  destruct (JSON_parse _) as [e|u]; cbn [lift bind try_catch].
  { intros Hin. now apply Herr in Hin. }
  destruct (get (lit "id") u) as [e|uid]; cbn [lift bind try_catch].
  { intros Hin. now apply Herr in Hin. }
  destruct (truthy uid); cbn [negb].
  2:{ intros Hin. now apply Herr in Hin. }
  unfold apiService, returning_text, checked.
  cbn [bind try_catch run fst effects].
  destruct (b 0 _) as [e|r|code reason e] eqn:Hb.
  { intros Hin. now apply Herr in Hin. }
  2:{ intros Hin. now apply Herr in Hin. }
  destruct (ok r) eqn:Hok; cbn [negb bind try_catch run fst effects].
  2:{ intros Hin. now apply Herr in Hin. }
  destruct (nonempty (text r)); [|intros []].
  destruct popup; cbn [bind try_catch run fst effects perform In].
  - intros [Hw | [[= <-] | [Hw | []]]]; try discriminate.
    eexists. exists r. repeat split; eassumption.
  - intros [Hw | []]. discriminate.
Qed.

(** * Further properties of the code *)

(** ** The number that is dialled or texted *)

Lemma digit_not_space_nor_hyphen (c : char) :
  is_digit c = true -> space_or_hyphen c = false.
Proof.
  intros Hd. unfold space_or_hyphen.
  destruct (is_space c) eqn:Hs.
  - destruct (space_not_digit_or_plus c Hs) as [Hn _]. congruence.
  - unfold is_digit, between in Hd. apply andb_true_iff in Hd.
    destruct Hd as [H1 H2]. apply N.leb_le in H1.
    unfold is_char, ch_hyphen. simpl. apply N.eqb_neq. lia.
Qed.

Lemma class_kept_iff_digit (c : char) :
  phone_class c = true -> negb (space_or_hyphen c) = is_digit c.
Proof.
  unfold phone_class. intros Hc. destruct (is_digit c) eqn:Hd.
  - now rewrite (digit_not_space_nor_hyphen c Hd).
  - simpl in Hc. unfold space_or_hyphen. now rewrite Hc.
Qed.

(** A phone match without its white space and hyphens is its plus sign,
    if it has one, and its digits. *)
Lemma clean_number (m : jsstr) :
  lang phone_re m ->
  exists sign : jsstr,
    (sign = [] \/ sign = [ch_plus])
    /\ remove_all space_or_hyphen m = sign ++ digits_of m
    /\ Forall (fun c => is_digit c = true) (digits_of m).
Proof.
  intros Hl. apply lang_phone in Hl.
  destruct Hl as [sign [run [-> [Hs [Hall Hlen]]]]].
  exists sign. split; [exact Hs|]. split.
  - unfold remove_all, digits_of. rewrite !filter_app.
    assert (Hrun : filter (fun c => negb (space_or_hyphen c)) run
                   = filter is_digit run).
    { apply filter_ext_in. intros c Hc. apply class_kept_iff_digit.
      exact (proj1 (Forall_forall _ _) Hall c Hc). }
    rewrite Hrun. destruct Hs as [-> | ->]; reflexivity.
  - unfold digits_of. apply Forall_forall. intros c Hc.
    now apply filter_In in Hc.
Qed.

(** What the search returns is a phone match. *)
Lemma and_m0_phone_lang (s m : jsstr) :
  and_m0 (str_match s phone_re) = Some m -> lang phone_re m.
Proof.
  destruct (str_match s phone_re) as [r|] eqn:Hr; [|discriminate].
  cbn [and_m0]. destruct (nonempty (m0 r)); [|discriminate]. intros [= <-].
  exact (proj1 (str_match_sound _ _ _ Hr)).
Qed.

(** A phone match without its white space and hyphens, exactly: its
    plus sign when it starts with one, and its digits. *)
Lemma clean_number_exact (m : jsstr) :
  lang phone_re m ->
  remove_all space_or_hyphen m
  = (if startsWith m (lit "+") then [ch_plus] else []) ++ digits_of m.
Proof.
  intros Hl. destruct (clean_number m Hl) as [sign [_ [Hclean _]]].
  apply lang_phone in Hl.
  destruct Hl as [sg [run [Hm [Hsg [Hall Hlen]]]]].
  pose proof (class_not_plus run Hall) as Hnp. subst m.
  unfold remove_all, digits_of. rewrite !filter_app.
  assert (Hrun : filter (fun c => negb (space_or_hyphen c)) run
                 = filter is_digit run).
  { apply filter_ext_in. intros c Hc. apply class_kept_iff_digit.
    exact (proj1 (Forall_forall _ _) Hall c Hc). }
  rewrite Hrun, startsWith_plus. destruct Hsg as [-> | ->]; cbn [app].
  - destruct run as [|c run]; [reflexivity|].
    inversion Hnp as [|? ? Hc _]; subst. now rewrite Hc.
  - reflexivity.
Qed.

Lemma kept_without_spaces_and_hyphens (m : jsstr) :
  kept neither_space_nor_hyphen m (remove_all space_or_hyphen m).
Proof.
  unfold remove_all. apply kept_filter. intros c.
  unfold neither_space_nor_hyphen, space_or_hyphen, is_char.
  rewrite negb_true_iff, orb_false_iff, N.eqb_neq. reflexivity.
Qed.

(** C1: for every customer whose trimmed contact_info has a match of the
    phone pattern, [handleCall] (on both pages) navigates to the [tel:]
    URI of the first match without its white space and hyphens: the code
    units of the match that are neither, in their order, which are its
    plus sign, when it starts with one, and its digits. *)
Theorem C1_handleCall_dials_first_match :
  forall customer : Customer.t,
    has_match phone_re (trim (Customer.contact_info customer)) ->
    exists (i : nat) (m u : jsstr),
      first_match phone_re (trim (Customer.contact_info customer)) i m
      /\ kept neither_space_nor_hyphen m u
      /\ u = (if startsWith m (lit "+") then lit "+" else lit "") ++ digits_of m
      /\ CustomersPage.handleCall customer
         = perform (CustomersPage.location_href (lit "tel:" ++ u))
      /\ forall st : CustomerDetailPage.State,
           CustomerDetailPage.customer st = Some customer ->
           CustomerDetailPage.handleCall st
           = perform (CustomerDetailPage.location_href (lit "tel:" ++ u)).
Proof.
  intros customer Hm.
  destruct (handleCall_dials customer Hm) as [i [m [Hfirst [Hlist Hdetail]]]].
  exists i, m, (remove_all space_or_hyphen m).
  split; [exact Hfirst|]. split; [apply kept_without_spaces_and_hyphens|].
  split; [|split; assumption].
  apply clean_number_exact. apply Hfirst.
Qed.

Lemma C1_witness :
  has_match phone_re (trim (Customer.contact_info Samples.with_phone))
  /\ exists (i : nat) (m u : jsstr),
       first_match phone_re (trim (Customer.contact_info Samples.with_phone)) i m
       /\ kept neither_space_nor_hyphen m u
       /\ u = (if startsWith m (lit "+") then lit "+" else lit "") ++ digits_of m
       /\ CustomersPage.handleCall Samples.with_phone
          = perform (CustomersPage.location_href (lit "tel:" ++ u))
       /\ forall st : CustomerDetailPage.State,
            CustomerDetailPage.customer st = Some Samples.with_phone ->
            CustomerDetailPage.handleCall st
            = perform (CustomerDetailPage.location_href (lit "tel:" ++ u)).
Proof.
  split.
  - exact with_phone_has_match.
  - exact (C1_handleCall_dials_first_match Samples.with_phone with_phone_has_match).
Defined.



(** ** The addresses that are mailed *)

Lemma lang_seq_inv (r1 r2 : regex) (m : jsstr) :
  lang (Seq r1 r2) m -> exists u v, m = u ++ v /\ lang r1 u /\ lang r2 v.
Proof. intros Hl. inversion Hl; subst. now exists u, v. Qed.

Lemma lang_group_inv (r : regex) (m : jsstr) : lang (Group r) m -> lang r m.
Proof. intros Hl. now inversion Hl. Qed.

Lemma lang_char_inv (x : char) (u : jsstr) :
  lang (Class (is_char x)) u -> u = [x].
Proof.
  intros Hl. apply lang_class_inv in Hl. destruct Hl as [c [-> Hc]].
  unfold is_char in Hc. apply N.eqb_eq in Hc. now subst.
Qed.

Lemma class_without_space (c : char) :
  email_local_class c = true \/ email_domain_class c = true
  \/ is_alpha c = true \/ not_space c = true \/ c = ch_at \/ c = ch_dot ->
  is_space c = false.
Proof.
  intros Hc. destruct (is_space c) eqn:Hs; [exfalso|reflexivity].
  assert (Hr : (9 <= c <= 13 \/ c = 32 \/ 160 <= c)%N).
  { unfold is_space, between in Hs.
    repeat match goal with
           | H : (_ || _) = true |- _ => apply orb_true_iff in H; destruct H
           | H : (_ && _) = true |- _ => apply andb_true_iff in H; destruct H
           | H : (_ <=? _)%N = true |- _ => apply N.leb_le in H
           | H : (_ =? _)%N = true |- _ => apply N.eqb_eq in H
           end; lia. }
  unfold email_local_class, email_domain_class, is_alpha, is_upper, is_lower,
    is_digit, between, not_space, ch_at, ch_dot in Hc.
  rewrite Hs in Hc.
  repeat match goal with
         | H : _ \/ _ |- _ => destruct H
         | H : (_ || _) = true |- _ => apply orb_true_iff in H; destruct H
         | H : (_ && _) = true |- _ => apply andb_true_iff in H; destruct H
         | H : (_ <=? _)%N = true |- _ => apply N.leb_le in H
         | H : (_ =? _)%N = true |- _ => apply N.eqb_eq in H
         end; try discriminate; lia.
Qed.

Lemma lang_run_without_space (n : nat) (p : char -> bool) (w : jsstr) :
  (forall c, p c = true -> is_space c = false) ->
  lang (AtLeast n (Class p)) w -> Forall (fun c => is_space c = false) w.
Proof.
  intros Hp Hl. apply lang_at_least_class in Hl. destruct Hl as [Hall _].
  eapply Forall_impl; [|exact Hall]. exact Hp.
Qed.

Lemma lang_email_shaped (n1 n2 n3 : nat) (p1 p2 p3 : char -> bool) (m : jsstr) :
  (forall c, p1 c = true \/ p2 c = true \/ p3 c = true -> is_space c = false) ->
  lang (Seq (AtLeast n1 (Class p1)) (Seq (Class (is_char ch_at))
          (Seq (AtLeast n2 (Class p2)) (Seq (Class (is_char ch_dot))
             (AtLeast n3 (Class p3)))))) m ->
  address_shaped m.
Proof.
  intros Hp Hl.
  apply lang_seq_inv in Hl. destruct Hl as [a [m1 [-> [Ha Hl]]]].
  apply lang_seq_inv in Hl. destruct Hl as [at_ [m2 [-> [Hat Hl]]]].
  apply lang_seq_inv in Hl. destruct Hl as [b [m3 [-> [Hb Hl]]]].
  apply lang_seq_inv in Hl. destruct Hl as [dot [c [-> [Hdot Hc]]]].
  apply lang_char_inv in Hat, Hdot. subst. split; [now exists a, b, c|].
  apply lang_run_without_space in Ha, Hb, Hc; auto.
  repeat (apply Forall_app; split); auto; repeat constructor.
Qed.

Lemma occurs_trans (a b c : jsstr) : occurs a b -> occurs b c -> occurs a c.
Proof.
  intros [p1 [q1 ->]] [p2 [q2 ->]].
  exists (p2 ++ p1), (q1 ++ q2). now rewrite <- !app_assoc.
Qed.

Lemma match_at_occurs (r : regex) (s : jsstr) (i : nat) (m : jsstr) :
  match_at r s i m -> occurs m s.
Proof. intros [_ [pre [post [-> _]]]]. now exists pre, post. Qed.

(** The address that the handlers extract is a part of the text and has
    the shape [a @ b . c]. *)
Lemma email_of_sound (info m : jsstr) :
  email_of info = Some m -> occurs m info /\ address_shaped m.
Proof.
  unfold email_of.
  destruct (str_match info email_re) as [r|] eqn:H1.
  - cbn [and_m0]. destruct (nonempty (m0 r)); [|discriminate]. intros [= <-].
    pose proof (str_match_sound _ _ _ H1) as Hm. split.
    + exact (match_at_occurs _ _ _ _ Hm).
    + destruct Hm as [Hl _]. apply lang_group_inv in Hl.
      refine (lang_email_shaped _ _ _ _ _ _ _ _ Hl).
      intros c Hc. apply class_without_space. tauto.
  - destruct (str_match info simple_email_re) as [r|] eqn:H2; [|discriminate].
    cbn [and_m0]. destruct (nonempty (m0 r)); [|discriminate]. intros [= <-].
    pose proof (str_match_sound _ _ _ H2) as Hm. split.
    + exact (match_at_occurs _ _ _ _ Hm).
    + destruct Hm as [Hl _].
      refine (lang_email_shaped _ _ _ _ _ _ _ _ Hl).
      intros c Hc. apply class_without_space. tauto.
Qed.

Lemma address_shaped_has (m : jsstr) :
  address_shaped m -> occurs (lit "@") m /\ occurs (lit ".") m.
Proof.
  intros [[a [b [c ->]]] _]. split.
  - now exists a, (b ++ [ch_dot] ++ c).
  - exists (a ++ [ch_at] ++ b), c. now rewrite <- !app_assoc.
Qed.

Lemma email_of_none (info : jsstr) :
  ~ occurs (lit "@") info \/ ~ occurs (lit ".") info -> email_of info = None.
Proof.
  intros Hno. destruct (email_of info) as [m|] eqn:He; [|reflexivity].
  destruct (email_of_sound _ _ He) as [Hocc Hshape].
  destruct (address_shaped_has _ Hshape) as [Hat Hdot].
  destruct Hno as [Hno | Hno]; exfalso; apply Hno; eapply occurs_trans; eassumption.
Qed.

Lemma no_space_dropWhile (s : jsstr) :
  Forall (fun c => is_space c = false) s -> dropWhile is_space s = s.
Proof.
  intros Hs. destruct Hs as [|c s Hc _]; [reflexivity|]. simpl. now rewrite Hc.
Qed.

Lemma no_space_trim (s : jsstr) :
  Forall (fun c => is_space c = false) s -> trim s = s.
Proof.
  intros Hs. unfold trim, trimStart, trimEnd.
  rewrite (no_space_dropWhile s Hs).
  rewrite (no_space_dropWhile (rev s)); [apply rev_involutive|].
  now apply Forall_rev.
Qed.

(** X2: [handleEmail] (on both pages) shows the alert that no address is
    available when the trimmed contact_info has no [@] or no dot.
    Otherwise, whatever [window.open] does, its effects are that alert, or
    none when the encoding of the letter throws, or those of mailing one
    address: a part of the trimmed contact_info of the shape [a@b.c]
    without white space, written into a [mailto:] URI that is opened in a
    new window, that the page itself navigates to when no window came
    back, and that is shown in an alert when the call threw. *)
Theorem X2_handleEmail_mails_an_address_of_the_text :
  forall (customer : Customer.t) (opened : opening) (b : backend),
    ((~ occurs (lit "@") (trim (Customer.contact_info customer))
      \/ ~ occurs (lit ".") (trim (Customer.contact_info customer))) ->
     CustomersPage.handleEmail opened customer
     = perform (CustomersPage.alert no_address_alert)
     /\ forall st, CustomerDetailPage.customer st = Some customer ->
          CustomerDetailPage.handleEmail st opened
          = perform (CustomerDetailPage.alert no_address_alert))
    /\ (effects (trace b (CustomersPage.handleEmail opened customer))
        = [CustomersPage.alert no_address_alert]
        \/ effects (trace b (CustomersPage.handleEmail opened customer)) = []
        \/ exists email rest : jsstr,
             occurs email (trim (Customer.contact_info customer))
             /\ address_shaped email
             /\ effects (trace b (CustomersPage.handleEmail opened customer))
                = mail_effects CustomersPage.window_open
                    CustomersPage.location_href CustomersPage.alert opened email
                    (lit "mailto:" ++ email ++ lit "?subject=" ++ rest))
    /\ forall st, CustomerDetailPage.customer st = Some customer ->
         effects (trace b (CustomerDetailPage.handleEmail st opened))
         = [CustomerDetailPage.alert no_address_alert]
         \/ effects (trace b (CustomerDetailPage.handleEmail st opened)) = []
         \/ exists email rest : jsstr,
              occurs email (trim (Customer.contact_info customer))
              /\ address_shaped email
              /\ effects (trace b (CustomerDetailPage.handleEmail st opened))
                 = mail_effects CustomerDetailPage.window_open
                     CustomerDetailPage.location_href CustomerDetailPage.alert
                     opened email
                     (lit "mailto:" ++ email ++ lit "?subject=" ++ rest).
Proof.
  intros customer opened b. split; [|split].
  - intros Hno. pose proof (email_of_none _ Hno) as Hnone. split.
    + unfold CustomersPage.handleEmail, CustomersPage.info_of.
      now rewrite or_empty_id, Hnone.
    + intros st Hst.
      unfold CustomerDetailPage.handleEmail, CustomerDetailPage.info_of.
      now rewrite Hst, or_empty_id, Hnone.
  - unfold CustomersPage.handleEmail, CustomersPage.info_of, trace.
    rewrite or_empty_id.
    destruct (email_of _) as [m|] eqn:He; [|now left].
    destruct (email_of_sound _ _ He) as [Hocc Hshape].
    rewrite (no_space_trim m (proj2 Hshape)).
    destruct (encode _) as [e1|subject]; [right; left; reflexivity|].
    cbn [lift bind].
    destruct (encode _) as [e2|body]; [right; left; reflexivity|].
    right; right. exists m, (subject ++ lit "&body=" ++ body).
    split; [exact Hocc|]. split; [exact Hshape|].
    destruct opened as [e|[|]]; reflexivity.
  - intros st Hst.
    unfold CustomerDetailPage.handleEmail, CustomerDetailPage.info_of, trace.
    rewrite Hst, or_empty_id.
    destruct (email_of _) as [m|] eqn:He; [|now left].
    destruct (email_of_sound _ _ He) as [Hocc Hshape].
    rewrite (no_space_trim m (proj2 Hshape)).
    destruct (encode _) as [e1|subject]; [right; left; reflexivity|].
    cbn [lift bind].
    destruct (encode _) as [e2|body]; [right; left; reflexivity|].
    right; right. exists m, (subject ++ lit "&body=" ++ body).
    split; [exact Hocc|]. split; [exact Hshape|].
    destruct opened as [e|[|]]; reflexivity.
Qed.

Example with_email_blocked_window :
  exists rest,
    effects (trace Samples.not_found
               (CustomersPage.handleEmail (inr false) with_email))
    = [CustomersPage.window_open
         (lit "mailto:asha@shop.in?subject=" ++ rest) (lit "_blank");
       CustomersPage.location_href (lit "mailto:asha@shop.in?subject=" ++ rest)].
Proof. eexists. reflexivity. Qed.

Example at_without_dot_has_no_address :
  CustomersPage.handleEmail (inr true) at_without_dot
  = perform (CustomersPage.alert no_address_alert).
Proof. reflexivity. Qed.

(** ** Where [handleCall] navigates *)




(** X4: on the detail page, [handleCall] does nothing at all for a
    customer whose trimmed contact_info has no phone match and has an [@]
    but no dot: no navigation, no clipboard, no alert.  On the list page
    the same customer is mailed at the whole contact_info, unless the
    encoding of the letter throws. *)
Theorem X4_detail_handleCall_is_silent_without_a_dot :
  forall (customer : Customer.t) (st : CustomerDetailPage.State),
    CustomerDetailPage.customer st = Some customer ->
    ~ has_match phone_re (trim (Customer.contact_info customer)) ->
    occurs (lit "@") (trim (Customer.contact_info customer)) ->
    ~ occurs (lit ".") (trim (Customer.contact_info customer)) ->
    CustomerDetailPage.handleCall st = Ret tt
    /\ forall b : backend,
         effects (trace b (CustomersPage.handleCall customer)) = []
         \/ exists rest : jsstr,
              effects (trace b (CustomersPage.handleCall customer))
              = [CustomersPage.location_href
                   (lit "mailto:" ++ trim (Customer.contact_info customer)
                    ++ lit "?subject=" ++ rest)].
Proof.
  intros customer st Hst Hno Hat Hdot.
  pose proof (str_match_phone_none _ Hno) as Hnone.
  apply includes_spec in Hat. split.
  - unfold CustomerDetailPage.handleCall, CustomerDetailPage.info_of.
    rewrite Hst, or_empty_id, Hnone, Hat.
    pose proof (email_of_none _ (or_intror Hdot)) as He. unfold email_of in He.
    destruct (str_match _ email_re); [now rewrite He | reflexivity].
  - intros b. unfold CustomersPage.handleCall, CustomersPage.info_of, trace.
    rewrite or_empty_id, Hnone, Hat.
    destruct (encode _) as [e1|subject]; [now left|]. cbn [lift bind].
    destruct (encode _) as [e2|body]; [now left|].
    right. now exists (subject ++ lit "&body=" ++ body).
Qed.

Lemma at_without_dot_no_phone :
  ~ has_match phone_re (trim (Customer.contact_info at_without_dot)).
Proof. apply has_no_match_by_search. reflexivity. Qed.

Lemma at_without_dot_no_dot :
  ~ occurs (lit ".") (trim (Customer.contact_info at_without_dot)).
Proof. intros H. apply includes_spec in H. discriminate H. Qed.

Lemma X4_witness :
  CustomerDetailPage.handleCall (showing at_without_dot) = Ret tt
  /\ forall b : backend,
       effects (trace b (CustomersPage.handleCall at_without_dot)) = []
       \/ exists rest : jsstr,
            effects (trace b (CustomersPage.handleCall at_without_dot))
            = [CustomersPage.location_href
                 (lit "mailto:" ++ trim (Customer.contact_info at_without_dot)
                  ++ lit "?subject=" ++ rest)].
Proof.
  refine (X4_detail_handleCall_is_silent_without_a_dot
            at_without_dot (showing at_without_dot) eq_refl
            at_without_dot_no_phone _ at_without_dot_no_dot).
  apply includes_spec. reflexivity.
Defined.

(** ** The customers page after its handlers *)

(** One step of a run: the next request is answered, the response is
    checked, its body is parsed. *)
Ltac run_step :=
  cbn [bind try_catch finally run perform fst snd requests effects lift negb
       fold_left app];
  match goal with
  | H : ?b ?n ?r = Rejected _ |- context [?b ?n ?r] => rewrite H
  | H : ?b ?n ?r = Resolved _ |- context [?b ?n ?r] => rewrite H
  | H : ?b ?n ?r = Unreadable _ _ _ |- context [?b ?n ?r] => rewrite H
  | H : ok ?r = _ |- context [ok ?r] => rewrite H
  | H : JSON_parse ?s = _ |- context [JSON_parse ?s] => rewrite H
  | H : get ?k ?v = _ |- context [get ?k ?v] => rewrite H
  | H : truthy ?v = _ |- context [truthy ?v] => rewrite H
  | |- context [match ?b ?n ?r with
                | Rejected _ => _ | Resolved _ => _ | Unreadable _ _ _ => _
                end] =>
      let e := fresh "e" in let r' := fresh "r" in
      destruct (b n r) as [e | r' | ? ? e] eqn:?
  | |- context [if negb (ok ?r) then _ else _] => destruct (ok r) eqn:?
  | |- context [if ok ?r then _ else _] => destruct (ok r) eqn:?
  | |- context [match JSON_parse ?s with inl _ => _ | inr _ => _ end] =>
      destruct (JSON_parse s) eqn:?
  | |- context [lift (JSON_parse ?s)] => destruct (JSON_parse s) eqn:?
  end.

Ltac run_all :=
  unfold apiService, returning_json, returning_text, checked;
  repeat run_step;
  cbn [bind try_catch finally run perform fst snd requests effects lift negb
       fold_left app].

(** X5: when the name and the contact_info of the form are filled in,
    [handleAddCustomer] ends with [loading] off, whatever the backend
    does.  When the create-customer call returns, the new customer is
    appended to the list, the form is emptied and closed and the error is
    cleared.  When it throws (a rejected fetch, a response that is not ok,
    a body that is not JSON), the list and the form stay as they were and
    the error is exactly 'Failed to create customer': the status that the
    thrown message carries is not shown. *)
Theorem X5_handleAddCustomer_appends_or_reports :
  forall `{Platform} `{FromAny Customer.t}
         (userId : jsstr) (st : CustomersPage.State) (b : backend),
    nonempty (CustomersPage.Form.name (CustomersPage.newCustomer st))
    && nonempty (CustomersPage.Form.contact_info (CustomersPage.newCustomer st))
    = true ->
    CustomersPage.loading
      (page_after b st (CustomersPage.handleAddCustomer userId st)) = false
    /\ match result b (apiService CustomersPage.ui
                         (createCustomer (customerData userId st))) with
       | Returned v =>
           CustomersPage.customers
             (page_after b st (CustomersPage.handleAddCustomer userId st))
           = CustomersPage.customers st ++ [from_any v]
           /\ CustomersPage.newCustomer
                (page_after b st (CustomersPage.handleAddCustomer userId st))
              = CustomersPage.Form.empty
           /\ CustomersPage.showAddForm
                (page_after b st (CustomersPage.handleAddCustomer userId st))
              = false
           /\ CustomersPage.error
                (page_after b st (CustomersPage.handleAddCustomer userId st))
              = lit ""
       | Raised _ =>
           CustomersPage.customers
             (page_after b st (CustomersPage.handleAddCustomer userId st))
           = CustomersPage.customers st
           /\ CustomersPage.newCustomer
                (page_after b st (CustomersPage.handleAddCustomer userId st))
              = CustomersPage.newCustomer st
           /\ CustomersPage.showAddForm
                (page_after b st (CustomersPage.handleAddCustomer userId st))
              = CustomersPage.showAddForm st
           /\ CustomersPage.error
                (page_after b st (CustomersPage.handleAddCustomer userId st))
              = lit "Failed to create customer"
       end.
Proof.
  intros P F userId st b Hvalid.
  unfold page_after, CustomersPage.apply_all, CustomersPage.handleAddCustomer,
    customerData, trace, result.
  rewrite <- negb_andb, Hvalid. cbn [negb]. destruct st.
  run_all; repeat split.
Qed.

Lemma X5_witness :
  CustomersPage.loading
    (page_after Samples.not_found adding
       (@CustomersPage.handleAddCustomer Samples.platform
          (fun _ => Samples.with_phone) (lit "7") adding)) = false
  /\ match result Samples.not_found
             (@apiService Samples.platform CustomersPage.ui _
                (createCustomer (customerData (lit "7") adding))) with
     | Returned v =>
         CustomersPage.customers
           (page_after Samples.not_found adding
              (@CustomersPage.handleAddCustomer Samples.platform
                 (fun _ => Samples.with_phone) (lit "7") adding))
         = CustomersPage.customers adding ++ [Samples.with_phone]
         /\ CustomersPage.newCustomer
              (page_after Samples.not_found adding
                 (@CustomersPage.handleAddCustomer Samples.platform
                    (fun _ => Samples.with_phone) (lit "7") adding))
            = CustomersPage.Form.empty
         /\ CustomersPage.showAddForm
              (page_after Samples.not_found adding
                 (@CustomersPage.handleAddCustomer Samples.platform
                    (fun _ => Samples.with_phone) (lit "7") adding))
            = false
         /\ CustomersPage.error
              (page_after Samples.not_found adding
                 (@CustomersPage.handleAddCustomer Samples.platform
                    (fun _ => Samples.with_phone) (lit "7") adding))
            = lit ""
     | Raised _ =>
         CustomersPage.customers
           (page_after Samples.not_found adding
              (@CustomersPage.handleAddCustomer Samples.platform
                 (fun _ => Samples.with_phone) (lit "7") adding))
         = CustomersPage.customers adding
         /\ CustomersPage.newCustomer
              (page_after Samples.not_found adding
                 (@CustomersPage.handleAddCustomer Samples.platform
                    (fun _ => Samples.with_phone) (lit "7") adding))
            = CustomersPage.newCustomer adding
         /\ CustomersPage.showAddForm
              (page_after Samples.not_found adding
                 (@CustomersPage.handleAddCustomer Samples.platform
                    (fun _ => Samples.with_phone) (lit "7") adding))
            = CustomersPage.showAddForm adding
         /\ CustomersPage.error
              (page_after Samples.not_found adding
                 (@CustomersPage.handleAddCustomer Samples.platform
                    (fun _ => Samples.with_phone) (lit "7") adding))
            = lit "Failed to create customer"
     end.
Proof.
  exact (@X5_handleAddCustomer_appends_or_reports Samples.platform
           (fun _ => Samples.with_phone) (lit "7") adding Samples.not_found
           eq_refl).
Defined.

(** X6: on a customers page that is not loading, [handleAddCustomer] with
    an empty name or contact_info leaves the page rendered as the text
    'Name and contact info are required' alone: the form is no longer on
    it.  And once an error text is rendered, loading the customers,
    opening the details of a customer and activating the assistant all
    end on an error text again: none of them clears the error. *)
Theorem X6_error_text_replaces_the_page :
  forall `{Platform} `{FromAny Customer.t} `{FromAny (list Customer.t)}
         (userId : jsstr) (st : CustomersPage.State) (b : backend),
    CustomersPage.loading st = false ->
    (nonempty (CustomersPage.Form.name (CustomersPage.newCustomer st))
     && nonempty (CustomersPage.Form.contact_info (CustomersPage.newCustomer st))
     = false ->
     CustomersPage.render
       (page_after b st (CustomersPage.handleAddCustomer userId st))
     = CustomersPage.ErrorText (lit "Name and contact info are required"))
    /\ (nonempty (CustomersPage.error st) = true ->
        (exists s : jsstr,
           CustomersPage.render (page_after b st (CustomersPage.fetchCustomers userId))
           = CustomersPage.ErrorText s)
        /\ (forall customer : Customer.t,
              CustomersPage.render
                (page_after b st (CustomersPage.openDetails customer))
              = CustomersPage.ErrorText (CustomersPage.error st))
        /\ CustomersPage.render
             (page_after b st (CustomersPage.handleActivateAI userId))
           = CustomersPage.ErrorText (CustomersPage.error st)).
Proof.
  intros P F1 F2 userId st b Hload. split.
  - intros Hinvalid.
    unfold page_after, CustomersPage.apply_all, CustomersPage.handleAddCustomer, trace.
    rewrite <- negb_andb, Hinvalid. destruct st. cbn in Hload. subst. reflexivity.
  - intros Herr. destruct st. cbn in Hload, Herr. subst. repeat split.
    + unfold page_after, CustomersPage.apply_all, CustomersPage.fetchCustomers, trace.
      destruct (nonempty userId); cbn [negb].
      * run_all; eexists; unfold CustomersPage.render; cbn;
          try rewrite Herr; reflexivity.
      * eexists. unfold CustomersPage.render. cbn. rewrite Herr. reflexivity.
    + intros customer.
      unfold page_after, CustomersPage.apply_all, CustomersPage.openDetails, trace.
      run_all; unfold CustomersPage.render; cbn; rewrite Herr; reflexivity.
    + unfold page_after, CustomersPage.apply_all, CustomersPage.handleActivateAI, trace.
      run_all; unfold CustomersPage.render; cbn; rewrite Herr; reflexivity.
Qed.

Lemma X6_witness :
  @CustomersPage.render Samples.platform
    (page_after Samples.not_found refused
       (@CustomersPage.handleAddCustomer Samples.platform
          (fun _ => Samples.with_phone) (lit "7") refused))
  = CustomersPage.ErrorText (lit "Name and contact info are required")
  /\ (exists s : jsstr,
        @CustomersPage.render Samples.platform
          (page_after Samples.not_found refused
             (@CustomersPage.fetchCustomers Samples.platform
                (fun _ => [Samples.with_phone]) (lit "7")))
        = CustomersPage.ErrorText s)
  /\ (forall customer : Customer.t,
        @CustomersPage.render Samples.platform
          (page_after Samples.not_found refused
             (@CustomersPage.openDetails Samples.platform customer))
        = CustomersPage.ErrorText (CustomersPage.error refused))
  /\ @CustomersPage.render Samples.platform
       (page_after Samples.not_found refused
          (@CustomersPage.handleActivateAI Samples.platform (lit "7")))
     = CustomersPage.ErrorText (CustomersPage.error refused).
Proof.
  destruct (@X6_error_text_replaces_the_page Samples.platform
              (fun _ => Samples.with_phone) (fun _ => [Samples.with_phone])
              (lit "7") refused Samples.not_found eq_refl) as [Hadd Hkeep].
  exact (conj (Hadd eq_refl) (Hkeep eq_refl)).
Defined.

Example failed_load_hides_the_page :
  @CustomersPage.render Samples.platform
    (page_after Samples.not_found adding
       (@CustomersPage.fetchCustomers Samples.platform
          (fun _ => [Samples.with_phone]) (lit "7")))
  = CustomersPage.ErrorText (lit "Failed to load customers").
Proof. reflexivity. Qed.

(** ** The number of the user *)

Lemma digit_value_decimal (d : N) :
  (d < 10)%N -> digit_value 10 (48 + d)%N = Some d.
Proof.
  intros Hd. unfold digit_value, between.
  assert (H1 : (48 <=? 48 + d)%N = true) by (apply N.leb_le; lia).
  assert (H2 : (48 + d <=? 57)%N = true) by (apply N.leb_le; lia).
  rewrite H1, H2. cbn [andb].
  replace (48 + d - 48)%N with d by lia.
  assert (H3 : (d <? 10)%N = true) by (apply N.ltb_lt; lia).
  now rewrite H3.
Qed.

(** Reading back the digits that [String] writes. *)
Lemma parse_digits_of_pos (fuel : nat) :
  forall (n : N) (acc : jsstr),
    (n < 10 ^ N.of_nat (S fuel))%N ->
    parse_digits 10 (digits_of_pos (S fuel) n acc) None
    = parse_digits 10 acc (Some n).
Proof.
  induction fuel as [|fuel IH]; intros n acc Hn.
  - change (10 ^ N.of_nat 1)%N with 10%N in Hn.
    cbn [digits_of_pos].
    assert (Hq : (n / 10 = 0)%N) by (apply N.div_small; lia).
    rewrite Hq. cbn [N.eqb parse_digits].
    rewrite (digit_value_decimal (n mod 10)) by (apply N.mod_lt; lia).
    now rewrite N.mod_small.
  - remember (S fuel) as f eqn:Hf.
    cbn [digits_of_pos]. destruct (n / 10 =? 0)%N eqn:Hq.
    + apply N.eqb_eq in Hq. cbn [parse_digits].
      rewrite (digit_value_decimal (n mod 10)) by (apply N.mod_lt; lia).
      f_equal. f_equal. pose proof (N.div_mod n 10) as Hdm. rewrite Hq in Hdm.
      generalize dependent (n mod 10)%N. intros; lia.
    + rewrite IH.
      * cbn [parse_digits].
        rewrite (digit_value_decimal (n mod 10)) by (apply N.mod_lt; lia).
        f_equal. f_equal. pose proof (N.div_mod n 10) as Hdm. clear Hq IH Hn.
        generalize dependent (n mod 10)%N. generalize dependent (n / 10)%N.
        intros; lia.
      * apply N.Div0.div_lt_upper_bound.
        replace (N.of_nat (S f)) with (N.succ (N.of_nat f)) in Hn by lia.
        now rewrite N.pow_succ_r' in Hn.
Qed.

Lemma digits_of_pos_head (fuel : nat) :
  forall (n : N) (acc : jsstr),
    exists (c : char) (rest : jsstr),
      digits_of_pos (S fuel) n acc = c :: rest /\ is_digit c = true.
Proof.
  assert (Hd : forall n, is_digit (48 + n mod 10)%N = true).
  { intros n. assert (Hm : (n mod 10 < 10)%N) by (apply N.mod_lt; discriminate).
    generalize dependent (n mod 10)%N. intros d Hm. unfold is_digit, between.
    apply andb_true_iff. split; apply N.leb_le; lia. }
  induction fuel as [|fuel IH]; intros n acc.
  - cbn [digits_of_pos]. destruct (n / 10 =? 0)%N; eexists; eexists; eauto.
  - remember (S fuel) as f. cbn [digits_of_pos].
    destruct (n / 10 =? 0)%N; [eexists; eexists; eauto | apply IH].
Qed.

Lemma fuel_suffices (n : N) : (n < 10 ^ N.of_nat (S (N.to_nat (N.log2 n))))%N.
Proof.
  replace (N.of_nat (S (N.to_nat (N.log2 n)))) with (N.succ (N.log2 n)) by lia.
  destruct n as [|p]; [reflexivity|].
  apply N.lt_le_trans with (2 ^ N.succ (N.log2 (N.pos p)))%N.
  - apply N.log2_spec. lia.
  - apply N.pow_le_mono_l. lia.
Qed.

Lemma digits_of_pos_all (fuel : nat) :
  forall (n : N) (acc : jsstr),
    Forall (fun c => is_digit c = true) acc ->
    Forall (fun c => is_digit c = true) (digits_of_pos fuel n acc).
Proof.
  assert (Hd : forall n, is_digit (48 + n mod 10)%N = true).
  { intros n. assert (Hm : (n mod 10 < 10)%N) by (apply N.mod_lt; discriminate).
    generalize dependent (n mod 10)%N. intros d Hm. unfold is_digit, between.
    apply andb_true_iff. split; apply N.leb_le; lia. }
  induction fuel as [|fuel IH]; intros n acc Hacc; [exact Hacc|].
  cbn [digits_of_pos].
  destruct (n / 10 =? 0)%N; [|apply IH]; constructor; auto.
Qed.

Lemma digit_range (c : char) : is_digit c = true -> (48 <= c <= 57)%N.
Proof.
  unfold is_digit, between. intros Hd. apply andb_true_iff in Hd.
  destruct Hd as [H1 H2]. apply N.leb_le in H1, H2. lia.
Qed.

Lemma digit_not_space (c : char) : is_digit c = true -> is_space c = false.
Proof.
  intros Hd. pose proof (digit_not_space_nor_hyphen c Hd) as Hn.
  unfold space_or_hyphen in Hn. now apply orb_false_iff in Hn.
Qed.

(** [parseInt] of a sign and decimal digits. *)
Lemma parseInt_decimal (c : char) (s : jsstr) :
  Forall (fun c => is_digit c = true) (c :: s) ->
  parseInt (c :: s) = option_map Z.of_N (parse_digits 10 (c :: s) None)
  /\ parseInt (ch_hyphen :: c :: s)
     = option_map (fun n => (- Z.of_N n)%Z) (parse_digits 10 (c :: s) None).
Proof.
  intros Hall. inversion Hall as [|? ? Hc Hs]; subst.
  pose proof (digit_range c Hc) as Hr.
  assert (H45 : (c =? 45)%N = false) by (apply N.eqb_neq; lia).
  assert (H43 : (c =? 43)%N = false) by (apply N.eqb_neq; lia).
  assert (Hx : forall d, is_digit d = true ->
                 ((d =? 120) || (d =? 88))%N = false).
  { intros d Hd. pose proof (digit_range d Hd) as Hrd.
    assert (H120 : (d =? 120)%N = false) by (apply N.eqb_neq; lia).
    assert (H88 : (d =? 88)%N = false) by (apply N.eqb_neq; lia).
    now rewrite H120, H88. }
  split.
  - unfold parseInt, trimStart. cbn [dropWhile].
    rewrite (digit_not_space c Hc), H45, H43.
    destruct s as [|d rest].
    + now destruct (parse_digits 10 [c] None).
    + inversion Hs as [|? ? Hd _]; subst. rewrite (Hx d Hd), andb_false_r.
      now destruct (parse_digits 10 (c :: d :: rest) None).
  - unfold parseInt, trimStart. cbn [dropWhile].
    change (is_space ch_hyphen) with false. cbv iota.
    change (ch_hyphen =? 45)%N with true. cbv iota.
    destruct s as [|d rest].
    + now destruct (parse_digits 10 [c] None).
    + inversion Hs as [|? ? Hd _]; subst. rewrite (Hx d Hd), andb_false_r.
      now destruct (parse_digits 10 (c :: d :: rest) None).
Qed.

(** [parseInt(String(z))] is [z]. *)
Lemma parseInt_toString (z : Z) : parseInt (Z_toString z) = Some z.
Proof.
  assert (HN : forall n : N,
             exists c s, N_toString n = c :: s
                         /\ Forall (fun c => is_digit c = true) (c :: s)
                         /\ parse_digits 10 (c :: s) None = Some n).
  { intros n. unfold N_toString.
    destruct (digits_of_pos_head (N.to_nat (N.log2 n)) n []) as [c [s [Hcs _]]].
    exists c, s. split; [exact Hcs|]. split.
    - rewrite <- Hcs. apply digits_of_pos_all. constructor.
    - rewrite <- Hcs. rewrite parse_digits_of_pos by apply fuel_suffices.
      reflexivity. }
  destruct z as [|p|p]; unfold Z_toString.
  - destruct (HN (Z.to_N 0)) as [c [s [-> [Hall Hp]]]].
    rewrite (proj1 (parseInt_decimal c s Hall)), Hp. reflexivity.
  - destruct (HN (Z.to_N (Z.pos p))) as [c [s [-> [Hall Hp]]]].
    rewrite (proj1 (parseInt_decimal c s Hall)), Hp. reflexivity.
  - destruct (HN (N.pos p)) as [c [s [-> [Hall Hp]]]].
    rewrite (proj2 (parseInt_decimal c s Hall)), Hp. reflexivity.
Qed.

Lemma toString_nonempty (z : Z) : nonempty (Z_toString z) = true.
Proof.
  destruct z as [|p|p]; unfold Z_toString; [| |reflexivity];
    unfold N_toString;
    match goal with
    | |- context [digits_of_pos (S ?f) ?n ?acc] =>
        destruct (digits_of_pos_head f n acc) as [c [s [-> _]]]
    end; reflexivity.
Qed.

Lemma parseInt_or_1_not_zero (s : jsstr) : parseInt_or_1 s <> 0%Z.
Proof.
  unfold parseInt_or_1. destruct (parseInt s) as [z|]; [|discriminate].
  destruct (z =? 0)%Z eqn:Hz; [discriminate|]. now apply Z.eqb_neq.
Qed.


(** ** Decimal numerals *)

Lemma value_of_from (s : jsstr) :
  forall a : N,
    fold_left (fun acc c => (acc * 10 + (c - 48))%N) s a
    = (a * 10 ^ N.of_nat (List.length s) + value_of s)%N.
Proof.
  unfold value_of. induction s as [|c s IH]; intros a.
  - cbn. lia.
  - cbn [fold_left List.length]. rewrite (IH (a * 10 + (c - 48))%N), (IH (0 * 10 + (c - 48))%N).
    replace (N.of_nat (S (List.length s))) with (N.succ (N.of_nat (List.length s))) by lia.
    rewrite N.pow_succ_r'. lia.
Qed.

Lemma value_of_snoc (s : jsstr) (c : char) :
  value_of (s ++ [c]) = (value_of s * 10 + (c - 48))%N.
Proof. unfold value_of. now rewrite fold_left_app. Qed.

Lemma value_of_cons (c : char) (s : jsstr) :
  value_of (c :: s) = ((c - 48) * 10 ^ N.of_nat (List.length s) + value_of s)%N.
Proof.
  unfold value_of at 1. cbn [fold_left]. rewrite value_of_from. lia.
Qed.

Lemma parse_digits_value (s : jsstr) :
  Forall (fun c => is_digit c = true) s ->
  forall a : N,
    parse_digits 10 s (Some a)
    = Some (fold_left (fun acc c => (acc * 10 + (c - 48))%N) s a).
Proof.
  induction 1 as [|c s Hc Hs IH]; intros a; [reflexivity|].
  pose proof (digit_range c Hc) as Hr. cbn [parse_digits fold_left].
  replace c with (48 + (c - 48))%N at 1 by lia.
  rewrite digit_value_decimal by lia. apply IH.
Qed.

Lemma parse_digits_numeral (c : char) (s : jsstr) :
  Forall (fun c => is_digit c = true) (c :: s) ->
  parse_digits 10 (c :: s) None = Some (value_of (c :: s)).
Proof.
  intros Hall. inversion Hall as [|? ? Hc Hs]; subst.
  pose proof (digit_range c Hc) as Hr. cbn [parse_digits].
  replace c with (48 + (c - 48))%N at 1 by lia.
  rewrite digit_value_decimal by lia. rewrite (parse_digits_value s Hs).
  unfold value_of. cbn [fold_left]. reflexivity.
Qed.

(** The first digit that [String] writes is 0 only for the number 0. *)
Lemma digits_of_pos_leading (fuel : nat) :
  forall (n : N) (acc rest : jsstr),
    (n < 10 ^ N.of_nat (S fuel))%N ->
    digits_of_pos (S fuel) n acc = 48%N :: rest ->
    n = 0%N /\ rest = acc.
Proof.
  induction fuel as [|fuel IH]; intros n acc rest Hn.
  - change (10 ^ N.of_nat 1)%N with 10%N in Hn. cbn [digits_of_pos].
    assert (Hq : (n / 10 = 0)%N) by (apply N.div_small; lia).
    rewrite Hq. cbn [N.eqb]. rewrite N.mod_small by lia.
    intros Heq. assert (Hd : (48 + n)%N = 48%N) by congruence.
    split; [lia | congruence].
  - remember (S fuel) as f eqn:Hf. cbn [digits_of_pos].
    destruct (n / 10 =? 0)%N eqn:Hq.
    + apply N.eqb_eq in Hq. intros Heq.
      assert (Hd : (48 + n mod 10)%N = 48%N) by congruence.
      pose proof (N.div_mod n 10) as Hdm. rewrite Hq in Hdm.
      split; [|congruence]. clear Heq.
      generalize dependent (n mod 10)%N. intros d Hd Hdm. lia.
    + intros Hrest. apply N.eqb_neq in Hq.
      assert (Hlt : (n / 10 < 10 ^ N.of_nat (S fuel))%N).
      { subst f. apply N.Div0.div_lt_upper_bound.
        replace (N.of_nat (S (S fuel))) with (N.succ (N.of_nat (S fuel))) in Hn by lia.
        now rewrite N.pow_succ_r' in Hn. }
      subst f. destruct (IH _ _ _ Hlt Hrest) as [Hz _]. contradiction.
Qed.

Lemma numeral_toString (n : N) : numeral n (N_toString n).
Proof.
  unfold N_toString.
  destruct (digits_of_pos_head (N.to_nat (N.log2 n)) n []) as [c [s [Hcs _]]].
  assert (Hall : Forall (fun c => is_digit c = true)
                        (digits_of_pos (S (N.to_nat (N.log2 n))) n []))
    by (apply digits_of_pos_all; constructor).
  pose proof (parse_digits_of_pos (N.to_nat (N.log2 n)) n [] (fuel_suffices n)) as Hp.
  repeat split.
  - rewrite Hcs. discriminate.
  - exact Hall.
  - intros rest Hrest.
    now destruct (digits_of_pos_leading _ _ _ _ (fuel_suffices n) Hrest).
  - rewrite Hcs in Hp, Hall |- *. rewrite (parse_digits_numeral c s Hall) in Hp.
    cbn [parse_digits] in Hp. now injection Hp.
Qed.

Lemma decimal_toString (z : Z) : decimal z (Z_toString z).
Proof.
  destruct z as [|p|p]; unfold decimal, Z_toString.
  - apply numeral_toString.
  - apply numeral_toString.
  - eexists. split; [reflexivity | apply numeral_toString].
Qed.

Lemma numeral_head_positive (c : char) (s : jsstr) :
  Forall (fun c => is_digit c = true) (c :: s) -> c <> 48%N ->
  (1 <= value_of (c :: s))%N.
Proof.
  intros Hall Hc. inversion Hall as [|? ? Hd _]; subst.
  pose proof (digit_range c Hd) as Hr. rewrite value_of_cons.
  assert (Hpow : (1 <= 10 ^ N.of_nat (List.length s))%N).
  { apply N.lt_pred_le. cbn. apply N.neq_0_lt_0. apply N.pow_nonzero. lia. }
  nia.
Qed.

Lemma numeral_init (t : jsstr) (c : char) (n : N) :
  numeral n (t ++ [c]) ->
  is_digit c = true
  /\ n = (value_of t * 10 + (c - 48))%N
  /\ (t = [] \/ (numeral (value_of t) t /\ (1 <= value_of t)%N)).
Proof.
  intros [_ [Hall [Hlead Hv]]]. rewrite value_of_snoc in Hv.
  apply Forall_app in Hall. destruct Hall as [Ht Hc].
  inversion Hc as [|? ? Hd _]; subst. split; [exact Hd|]. split; [reflexivity|].
  destruct t as [|d t]; [now left|right].
  assert (Hne : d <> 48%N).
  { intros ->. specialize (Hlead (t ++ [c]) eq_refl). now destruct t. }
  split; [|now apply numeral_head_positive].
  repeat split; [discriminate | exact Ht | ].
  intros rest Heq. assert (Hd' : d = 48%N) by congruence. contradiction.
Qed.

Lemma numeral_unique (s : jsstr) :
  forall (n : N) (s' : jsstr), numeral n s -> numeral n s' -> s = s'.
Proof.
  induction s as [|c t IH] using rev_ind; intros n s' Hs Hs'.
  - now destruct Hs as [Hne _].
  - destruct s' as [|c' t' _] using rev_ind; [now destruct Hs' as [Hne _]|].
    destruct (numeral_init _ _ _ Hs) as [Hc [Hn Ht]].
    destruct (numeral_init _ _ _ Hs') as [Hc' [Hn' Ht']].
    pose proof (digit_range c Hc) as Hr. pose proof (digit_range c' Hc') as Hr'.
    assert (Hcc : c = c' /\ value_of t = value_of t') by lia.
    destruct Hcc as [<- Hv]. f_equal.
    destruct Ht as [-> | [Hnum H1]], Ht' as [-> | [Hnum' H1']].
    + reflexivity.
    + change (value_of []) with 0%N in Hv. lia.
    + change (value_of []) with 0%N in Hv. lia.
    + rewrite <- Hv in Hnum'. exact (IH _ _ Hnum Hnum').
Qed.

Lemma decimal_unique (z : Z) (s s' : jsstr) :
  decimal z s -> decimal z s' -> s = s'.
Proof.
  destruct z as [|p|p]; unfold decimal.
  - apply numeral_unique.
  - apply numeral_unique.
  - intros [d [-> Hd]] [d' [-> Hd']]. f_equal. exact (numeral_unique _ _ _ Hd Hd').
Qed.

(** What a template literal prints for a number is what [String] gives. *)
Lemma printed_toString (z : Z) (s : jsstr) : printed z s -> s = Z_toString z.
Proof. intros [_ Hd]. exact (decimal_unique z _ _ Hd (decimal_toString z)). Qed.

(** [parseInt] reads a decimal numeral as its number. *)
Lemma parseInt_numeral (z : Z) (s : jsstr) : decimal z s -> parseInt s = Some z.
Proof.
  intros Hd. rewrite (decimal_unique z _ _ Hd (decimal_toString z)).
  apply parseInt_toString.
Qed.

(** X7: the effect that loads the customers does nothing for an empty
    [userId].  For any other [userId] whose number, as [parseInt] reads
    it, is a safe integer (or that [parseInt] cannot read), it sends one
    GET for the customers of a user whose number is never 0, printed in
    decimal: a [userId] that cannot be read, or is read as 0, is taken for
    user 1; any other is taken for the number read.  A [userId] that is
    the decimal numeral of a safe integer other than 0 is sent back as
    that same text. *)
Theorem X7_fetchCustomers_asks_for_a_numbered_user :
  forall `{Platform} `{FromAny (list Customer.t)} (userId : jsstr) (b : backend),
    (nonempty userId = false -> CustomersPage.fetchCustomers userId = Ret tt)
    /\ (nonempty userId = true ->
        (forall z : Z, parseInt userId = Some z -> safe z) ->
        exists (n : Z) (s : jsstr),
          n <> 0%Z /\ printed n s
          /\ (parseInt userId = None \/ parseInt userId = Some 0%Z -> n = 1%Z)
          /\ (forall z : Z, parseInt userId = Some z -> z <> 0%Z -> n = z)
          /\ requests (trace b (CustomersPage.fetchCustomers userId))
             = [{| url := lit "http://localhost:8000/customers/?user_id=" ++ s;
                   method := GET; headers := []; body := None |}])
    /\ forall (z : Z) (s : jsstr),
         printed z s -> z <> 0%Z ->
         requests (trace b (CustomersPage.fetchCustomers s))
         = [{| url := lit "http://localhost:8000/customers/?user_id=" ++ s;
               method := GET; headers := []; body := None |}].
Proof.
  intros P F userId b.
  assert (Hreq : forall u, nonempty u = true ->
            requests (trace b (CustomersPage.fetchCustomers u))
            = [{| url := lit "http://localhost:8000/customers/?user_id="
                        ++ Z_toString (parseInt_or_1 u);
                  method := GET; headers := []; body := None |}]).
  { intros u Hu. unfold CustomersPage.fetchCustomers, trace. rewrite Hu.
    cbn [negb]. run_all; reflexivity. }
  split; [|split].
  - intros He. unfold CustomersPage.fetchCustomers. now rewrite He.
  - intros Hne Hsafe.
    exists (parseInt_or_1 userId), (Z_toString (parseInt_or_1 userId)).
    split; [apply parseInt_or_1_not_zero|]. split; [|split; [|split]].
    + split; [|apply decimal_toString].
      unfold parseInt_or_1. destruct (parseInt userId) as [z|] eqn:Hz.
      * destruct (z =? 0)%Z; [unfold safe; lia | exact (Hsafe z eq_refl)].
      * unfold safe. lia.
    + unfold parseInt_or_1. now intros [-> | ->].
    + intros z Hz Hnz. unfold parseInt_or_1. rewrite Hz.
      apply Z.eqb_neq in Hnz. now rewrite Hnz.
    + exact (Hreq _ Hne).
  - intros z s Hp Hz. rewrite (printed_toString z s Hp).
    rewrite (Hreq _ (toString_nonempty z)).
    unfold parseInt_or_1. rewrite parseInt_toString.
    apply Z.eqb_neq in Hz. now rewrite Hz.
Qed.

(** ** C5 *)

Lemma numeral_occurs_in_message (label s : jsstr) (r : response) :
  occurs s (label ++ lit ": " ++ s ++ lit " " ++ statusText r ++ lit " - " ++ text r).
Proof.
  exists (label ++ lit ": "), (lit " " ++ statusText r ++ lit " - " ++ text r).
  now rewrite <- app_assoc.
Qed.

(** The message of the REST client for a response that is not ok. *)
Lemma failure_message_reports_status (label : jsstr) (r : response) :
  reports_status r (failure_message label r).
Proof.
  exists label, (Z_toString (status r)). split; [apply decimal_toString|].
  reflexivity.
Qed.

(** Every call goes to the endpoint that the table gives it. *)
Lemma request_at_endpoint `{Platform} {A : Type} (c : call A)
    (m : http_method) (u : jsstr) :
  endpoint c m u -> method (request_of c) = m /\ url (request_of c) = u.
Proof.
  destruct c; cbn [endpoint];
    intros Hep;
    repeat match goal with
           | H : _ /\ _ |- _ => destruct H
           | H : exists _, _ |- _ => destruct H
           | H : printed _ ?s |- _ => apply printed_toString in H; subst s
           end; subst; split; reflexivity.
Qed.

(** C5: every call of the REST client, on every input and against every
    backend, issues exactly one [fetch], with the method and the URL of
    its endpoint.  When the response is not ok ([response.ok] is false,
    the status is outside 200-299) and its body can be read, the call
    throws an [Error] whose message is a label, the status in decimal,
    the status text and the body, so that the message contains the
    status; when the body cannot be read, the call throws the failure of
    the reading instead. *)
Theorem C5_one_fetch_and_status_in_error :
  forall `{Platform} (E A : Type) (c : call A) (b : backend),
    exists req : request,
      requests (trace b (apiService E c)) = [req]
      /\ (forall (m : http_method) (u : jsstr),
            endpoint c m u -> method req = m /\ url req = u)
      /\ (forall r : response,
            b 0%nat req = Resolved r -> ok r = false ->
            exists msg : jsstr,
              result b (apiService E c) = Raised (Error msg)
              /\ reports_status r msg
              /\ exists s : jsstr, decimal (status r) s /\ occurs s msg)
      /\ (forall (code : Z) (reason : jsstr) (e : exn),
            b 0%nat req = Unreadable code reason e ->
            result b (apiService E c) = Raised e).
Proof.
  intros P E A c b. exists (request_of c).
  destruct (run_apiService E c b 0) as [Ht Hr].
  split; [unfold trace; now rewrite Ht|].
  split; [intros m u; apply request_at_endpoint|]. split.
  - intros r Hres Hok. exists (failure_message (label_of c) r).
    split; [exact (Hr r Hres Hok)|].
    split; [apply failure_message_reports_status|].
    exists (Z_toString (status r)). split; [apply decimal_toString|].
    apply numeral_occurs_in_message.
  - intros code reason e Hres. unfold result.
    destruct c; unfold apiService;
      rewrite ?run_returning_json, ?run_returning_text; cbn [snd];
      now rewrite Hres.
Qed.

(** A response that is not ok and whose body cannot be read: the error
    that the call throws is the failure of the reading, and its message
    does not contain the status. *)
Lemma C5_counterexample_unreadable_body :
  broken_body 0%nat (@request_of Samples.platform _ (getCustomer 12))
  = Unreadable 503 (lit "Service Unavailable") (TypeError (lit "network error"))
  /\ ((200 <=? 503) && (503 <=? 299))%Z = false
  /\ result (E := unit) broken_body
       (@apiService Samples.platform unit _ (getCustomer 12))
     = Raised (TypeError (lit "network error"))
  /\ includes (message (TypeError (lit "network error"))) (lit "503") = false
  /\ ~ occurs (lit "503") (message (TypeError (lit "network error"))).
Proof.
  repeat split. intros Hocc. apply includes_spec in Hocc. discriminate Hocc.
Qed.

Example login_goes_to_its_endpoint :
  endpoint (login (Obj [])) POST (lit "http://localhost:8000/auth/login")
  /\ requests (trace (E := unit) Samples.not_found
                 (@apiService Samples.platform unit _ (login (Obj []))))
     = [{| url := lit "http://localhost:8000/auth/login"; method := POST;
           headers := [(lit "Content-Type", lit "application/json")];
           body := Some (Text (lit "{}")) |}].
Proof. repeat split. Qed.

Example getCustomer_goes_to_its_endpoint :
  endpoint (getCustomer 12) GET (lit "http://localhost:8000/customers/12").
Proof.
  split; [reflexivity|]. exists (lit "12"). split; [|reflexivity].
  split; [unfold safe; lia|].
  repeat split; try discriminate. repeat constructor.
Qed.

Example numbered_user_is_sent_back :
  printed 42 (lit "42")
  /\ requests (trace Samples.not_found
                 (@CustomersPage.fetchCustomers Samples.platform
                    (fun _ => []) (lit "42")))
     = [{| url := lit "http://localhost:8000/customers/?user_id=42";
           method := GET; headers := []; body := None |}].
Proof.
  split; [|reflexivity]. split; [unfold safe; lia|].
  repeat split; try discriminate. repeat constructor.
Qed.

Example unreadable_user_is_user_1 :
  requests (trace Samples.not_found
              (@CustomersPage.fetchCustomers Samples.platform
                 (fun _ => []) (lit "asha")))
  = [fetch_url (lit "http://localhost:8000/customers/?user_id=1")].
Proof. reflexivity. Qed.

(** ** The customer detail page *)

(** X8: the effect that loads the detail page, for a customer number other
    than 0 and a non-empty [userId].  When the customer or the messages
    cannot be fetched the page error is set and no further request is
    sent; when only the detailed interactions cannot be fetched the page
    is loaded without an error and their list is set to the empty one.
    In every case [loading] is switched off last. *)
Theorem X8_fetchData_survives_the_last_request :
  forall `{Platform} `{FromAny Customer.t} `{FromAny (list CustomerInteraction.t)}
         (customerId : Z) (userId : jsstr) (b : backend),
    customerId <> 0%Z -> nonempty userId = true ->
    match snd (run b 0 (apiService CustomerDetailPage.ui (getCustomer customerId))) with
    | Raised _ =>
        requests (trace b (CustomerDetailPage.fetchData customerId userId))
        = [request_of (getCustomer customerId)]
        /\ effects (trace b (CustomerDetailPage.fetchData customerId userId))
           = [CustomerDetailPage.setLoading true;
              CustomerDetailPage.setError (lit "");
              CustomerDetailPage.setError (lit "Failed to load customer data");
              CustomerDetailPage.setLoading false]
    | Returned c =>
        match snd (run b 1 (apiService CustomerDetailPage.ui
                              (getCustomerInteractions customerId))) with
        | Raised _ =>
            requests (trace b (CustomerDetailPage.fetchData customerId userId))
            = [request_of (getCustomer customerId);
               request_of (getCustomerInteractions customerId)]
            /\ effects (trace b (CustomerDetailPage.fetchData customerId userId))
               = [CustomerDetailPage.setLoading true;
                  CustomerDetailPage.setError (lit "");
                  CustomerDetailPage.setCustomer (Some (from_any c));
                  CustomerDetailPage.setError (lit "Failed to load customer data");
                  CustomerDetailPage.setLoading false]
        | Returned v =>
            requests (trace b (CustomerDetailPage.fetchData customerId userId))
            = [request_of (getCustomer customerId);
               request_of (getCustomerInteractions customerId);
               request_of (getCustomerDetailedInteractions customerId
                             (parseInt_or_1 userId))]
            /\ effects (trace b (CustomerDetailPage.fetchData customerId userId))
               = [CustomerDetailPage.setLoading true;
                  CustomerDetailPage.setError (lit "");
                  CustomerDetailPage.setCustomer (Some (from_any c));
                  CustomerDetailPage.setInteractions v;
                  CustomerDetailPage.setCustomerInteractions
                    match snd (run b 2 (apiService CustomerDetailPage.ui
                                          (getCustomerDetailedInteractions customerId
                                             (parseInt_or_1 userId)))) with
                    | Returned l => from_any l
                    | Raised _ => []
                    end;
                  CustomerDetailPage.setLoading false]
        end
    end.
Proof.
  intros P F1 F2 customerId userId b Hid Hu.
  unfold CustomerDetailPage.fetchData, trace.
  apply Z.eqb_neq in Hid. rewrite Hid, Hu. cbn [negb orb].
  run_all; split; reflexivity.
Qed.

Lemma X8_witness :
  match snd (run two_then_none 0
               (@apiService Samples.platform CustomerDetailPage.ui _ (getCustomer 12))) with
  | Raised _ =>
      requests (trace two_then_none
                  (@CustomerDetailPage.fetchData Samples.platform
                     (fun _ => Samples.with_phone) (fun _ => []) 12 (lit "7")))
      = [@request_of Samples.platform _ (getCustomer 12)]
      /\ effects (trace two_then_none
                    (@CustomerDetailPage.fetchData Samples.platform
                       (fun _ => Samples.with_phone) (fun _ => []) 12 (lit "7")))
         = [CustomerDetailPage.setLoading true;
            CustomerDetailPage.setError (lit "");
            CustomerDetailPage.setError (lit "Failed to load customer data");
            CustomerDetailPage.setLoading false]
  | Returned c =>
      match snd (run two_then_none 1
                   (@apiService Samples.platform CustomerDetailPage.ui _
                      (getCustomerInteractions 12))) with
      | Raised _ =>
          requests (trace two_then_none
                      (@CustomerDetailPage.fetchData Samples.platform
                         (fun _ => Samples.with_phone) (fun _ => []) 12 (lit "7")))
          = [@request_of Samples.platform _ (getCustomer 12); @request_of Samples.platform _ (getCustomerInteractions 12)]
          /\ effects (trace two_then_none
                        (@CustomerDetailPage.fetchData Samples.platform
                           (fun _ => Samples.with_phone) (fun _ => []) 12 (lit "7")))
             = [CustomerDetailPage.setLoading true;
                CustomerDetailPage.setError (lit "");
                CustomerDetailPage.setCustomer (Some Samples.with_phone);
                CustomerDetailPage.setError (lit "Failed to load customer data");
                CustomerDetailPage.setLoading false]
      | Returned v =>
          requests (trace two_then_none
                      (@CustomerDetailPage.fetchData Samples.platform
                         (fun _ => Samples.with_phone) (fun _ => []) 12 (lit "7")))
          = [@request_of Samples.platform _ (getCustomer 12); @request_of Samples.platform _ (getCustomerInteractions 12);
             @request_of Samples.platform _ (getCustomerDetailedInteractions 12 (parseInt_or_1 (lit "7")))]
          /\ effects (trace two_then_none
                        (@CustomerDetailPage.fetchData Samples.platform
                           (fun _ => Samples.with_phone) (fun _ => []) 12 (lit "7")))
             = [CustomerDetailPage.setLoading true;
                CustomerDetailPage.setError (lit "");
                CustomerDetailPage.setCustomer (Some Samples.with_phone);
                CustomerDetailPage.setInteractions v;
                CustomerDetailPage.setCustomerInteractions
                  match snd (run two_then_none 2
                               (@apiService Samples.platform CustomerDetailPage.ui _
                                  (getCustomerDetailedInteractions 12
                                     (parseInt_or_1 (lit "7"))))) with
                  | Returned l => []
                  | Raised _ => []
                  end;
                CustomerDetailPage.setLoading false]
      end
  end.
Proof.
  exact (@X8_fetchData_survives_the_last_request Samples.platform
           (fun _ => Samples.with_phone) (fun _ => []) 12 (lit "7") two_then_none
           ltac:(discriminate) eq_refl).
Defined.

Example detail_page_without_its_interactions :
  effects (trace two_then_none
             (@CustomerDetailPage.fetchData Samples.platform
                (fun _ => Samples.with_phone) (fun _ => []) 12 (lit "7")))
  = [CustomerDetailPage.setLoading true;
     CustomerDetailPage.setError (lit "");
     CustomerDetailPage.setCustomer (Some Samples.with_phone);
     CustomerDetailPage.setInteractions (Obj []);
     CustomerDetailPage.setCustomerInteractions [];
     CustomerDetailPage.setLoading false].
Proof. reflexivity. Qed.

(** X9: [handleDeleteInteraction] does nothing when the question is
    declined.  Whenever it sets the list of interactions, the question was
    confirmed, the delete call returned, and the new list holds exactly
    the old interactions whose id is not the deleted one.  When the call
    throws, the list is left alone and the only effect is the alert. *)
Theorem X9_delete_removes_that_interaction_only :
  forall `{Platform} (st : CustomerDetailPage.State) (confirmed : bool) (id : Z)
         (b : backend),
    (confirmed = false ->
     CustomerDetailPage.handleDeleteInteraction st confirmed id = Ret tt)
    /\ (forall l : list CustomerInteraction.t,
          In (CustomerDetailPage.setCustomerInteractions l)
             (effects (trace b (CustomerDetailPage.handleDeleteInteraction
                                  st confirmed id))) ->
          confirmed = true
          /\ (exists v : value,
                result b (apiService CustomerDetailPage.ui
                            (deleteCustomerInteraction id)) = Returned v)
          /\ forall i : CustomerInteraction.t,
               In i l <-> In i (CustomerDetailPage.customerInteractions st)
                          /\ CustomerInteraction.id i <> id)
    /\ (forall e : exn,
          confirmed = true ->
          result b (apiService CustomerDetailPage.ui (deleteCustomerInteraction id))
          = Raised e ->
          requests (trace b (CustomerDetailPage.handleDeleteInteraction
                               st confirmed id))
          = [request_of (deleteCustomerInteraction id)]
          /\ effects (trace b (CustomerDetailPage.handleDeleteInteraction
                                 st confirmed id))
             = [CustomerDetailPage.alert
                  (lit "Failed to delete interaction. Please try again.")]).
Proof.
  intros P st confirmed id b. split; [|split].
  - intros ->. reflexivity.
  - intros l. unfold CustomerDetailPage.handleDeleteInteraction, trace, result.
    destruct confirmed; cbn [negb]; [|intros []].
    run_all; cbn [In]; intros [Hin | []]; try discriminate Hin.
    injection Hin as <-. split; [reflexivity|]. split; [now eexists|].
    intros i. rewrite filter_In, negb_true_iff, Z.eqb_neq. reflexivity.
  - intros e -> . unfold CustomerDetailPage.handleDeleteInteraction, trace, result.
    cbn [negb]. run_all; intros Hr; try discriminate Hr; split; reflexivity.
Qed.

Lemma trim_blank (s : jsstr) :
  Forall (fun c => is_space c = true) s -> trim s = [].
Proof.
  intros Hs. unfold trim, trimStart, trimEnd.
  assert (Hd : dropWhile is_space s = []).
  { induction Hs as [|c s Hc _ IH]; [reflexivity|]. simpl. now rewrite Hc. }
  now rewrite Hd.
Qed.

(** X10: with a customer on the page and a non-empty [userId],
    [handleInteractionSubmit] sends no request when the title or the notes
    of the form are empty or all white space: it switches the loading
    flag on, shows the alert that asks for the missing field, the title
    first, and switches the flag off again; the list of interactions and
    the dialog are left alone. *)
Theorem X10_blank_title_or_notes_are_not_submitted :
  forall `{Platform} `{FromAny CustomerInteraction.t}
         (userId : jsstr) (st : CustomerDetailPage.State) (now : jsstr)
         (b : backend) (c : Customer.t),
    CustomerDetailPage.customer st = Some c ->
    nonempty userId = true ->
    Forall (fun c => is_space c = true)
           (CustomerDetailPage.InteractionForm.title
              (CustomerDetailPage.interactionForm st))
    \/ Forall (fun c => is_space c = true)
              (CustomerDetailPage.InteractionForm.notes
                 (CustomerDetailPage.interactionForm st)) ->
    requests (trace b (CustomerDetailPage.handleInteractionSubmit userId st now)) = []
    /\ effects (trace b (CustomerDetailPage.handleInteractionSubmit userId st now))
       = [CustomerDetailPage.setInteractionLoading true;
          CustomerDetailPage.alert
            (if nonempty (trim (CustomerDetailPage.InteractionForm.title
                                  (CustomerDetailPage.interactionForm st)))
             then lit "Please enter notes for the interaction"
             else lit "Please enter a title for the interaction");
          CustomerDetailPage.setInteractionLoading false].
Proof.
  intros P F userId st now b c Hc Hu Hblank.
  unfold CustomerDetailPage.handleInteractionSubmit, trace.
  rewrite Hc, Hu. cbn [negb].
  destruct (nonempty (trim (CustomerDetailPage.InteractionForm.title _))) eqn:Ht;
    cbn [negb].
  - destruct Hblank as [Hb | Hb].
    + rewrite (trim_blank _ Hb) in Ht. discriminate Ht.
    + rewrite (trim_blank _ Hb). cbn. split; reflexivity.
  - cbn. split; reflexivity.
Qed.

Lemma X10_witness :
  requests (trace Samples.not_found
              (@CustomerDetailPage.handleInteractionSubmit Samples.platform
                 (fun _ => Samples.an_interaction) (lit "7")
                 (filled Samples.with_phone "  " "called back" None) (lit "now")))
  = []
  /\ effects (trace Samples.not_found
                (@CustomerDetailPage.handleInteractionSubmit Samples.platform
                   (fun _ => Samples.an_interaction) (lit "7")
                   (filled Samples.with_phone "  " "called back" None) (lit "now")))
     = [CustomerDetailPage.setInteractionLoading true;
        CustomerDetailPage.alert (lit "Please enter a title for the interaction");
        CustomerDetailPage.setInteractionLoading false].
Proof.
  refine (@X10_blank_title_or_notes_are_not_submitted Samples.platform
            (fun _ => Samples.an_interaction) (lit "7")
            (filled Samples.with_phone "  " "called back" None) (lit "now")
            Samples.not_found Samples.with_phone eq_refl eq_refl (or_introl _)).
  repeat constructor.
Defined.

(** One case analysis for [handleInteractionSubmit]: the mode, the dates,
    then the answer of the backend. *)
Ltac submit_cases st :=
  destruct (CustomerDetailPage.isEditMode st);
  destruct (CustomerDetailPage.currentInteraction st);
  destruct (toISOString (CustomerDetailPage.InteractionForm.interaction_date
                           (CustomerDetailPage.interactionForm st)));
  destruct (CustomerDetailPage.InteractionForm.follow_up_needed
              (CustomerDetailPage.interactionForm st)
            && nonempty (CustomerDetailPage.InteractionForm.follow_up_date
                           (CustomerDetailPage.interactionForm st)));
  try destruct (toISOString (CustomerDetailPage.InteractionForm.follow_up_date
                               (CustomerDetailPage.interactionForm st)));
  run_all.

(** X11: with a customer on the page and a non-empty [userId],
    [handleInteractionSubmit] sends at most one request: in edit mode a
    PUT to the interaction that is edited, otherwise a POST to the
    collection, with a JSON body and its content type.  Whenever it sets
    the list of interactions, that one request was answered by an ok
    response whose body parsed to a value: in edit mode the new list is
    the old one with the edited interaction replaced by that value, in
    place; otherwise it is the old list with that value put in front.
    The loading flag is switched on first and off last. *)
Theorem X11_submit_updates_in_place_or_prepends :
  forall `{Platform} `{FromAny CustomerInteraction.t}
         (userId : jsstr) (st : CustomerDetailPage.State) (now : jsstr)
         (b : backend) (c : Customer.t),
    CustomerDetailPage.customer st = Some c ->
    nonempty userId = true ->
    (requests (trace b (CustomerDetailPage.handleInteractionSubmit userId st now)) = []
     \/ exists (req : request) (data : value),
          requests (trace b (CustomerDetailPage.handleInteractionSubmit userId st now))
          = [req]
          /\ headers req = [(lit "Content-Type", lit "application/json")]
          /\ body req = option_map Text (JSON_stringify data)
          /\ forall (m : http_method) (u : jsstr),
               submit_target st m u -> method req = m /\ url req = u)
    /\ (forall l : list CustomerInteraction.t,
          In (CustomerDetailPage.setCustomerInteractions l)
             (effects (trace b (CustomerDetailPage.handleInteractionSubmit
                                  userId st now))) ->
          exists (req : request) (r : response) (v : value),
            requests (trace b (CustomerDetailPage.handleInteractionSubmit
                                 userId st now)) = [req]
            /\ b 0%nat req = Resolved r /\ ok r = true
            /\ JSON_parse (text r) = inr v
            /\ match CustomerDetailPage.isEditMode st,
                     CustomerDetailPage.currentInteraction st with
               | true, Some current =>
                   l = map (fun i => if (CustomerInteraction.id i
                                         =? CustomerInteraction.id current)%Z
                                     then from_any v else i)
                           (CustomerDetailPage.customerInteractions st)
               | _, _ => l = from_any v :: CustomerDetailPage.customerInteractions st
               end)
    /\ exists es : list CustomerDetailPage.ui,
         effects (trace b (CustomerDetailPage.handleInteractionSubmit userId st now))
         = CustomerDetailPage.setInteractionLoading true
           :: es ++ [CustomerDetailPage.setInteractionLoading false].
Proof.
  intros P F userId st now b c Hc Hu.
  unfold CustomerDetailPage.handleInteractionSubmit,
    CustomerDetailPage.resetInteractionForm, submit_target, trace.
  rewrite Hc, Hu. cbn [negb].
  destruct (nonempty (trim (CustomerDetailPage.InteractionForm.title _)));
    cbn [negb];
    [destruct (nonempty (trim (CustomerDetailPage.InteractionForm.notes _)));
     cbn [negb]|].
  - submit_cases st.
    all: (split;
       [ first [ now left
               | right; eexists; eexists;
                 split; [reflexivity|]; split; [reflexivity|];
                 split; [reflexivity|];
                 intros m u Hep;
                 repeat match goal with
                        | H : _ /\ _ |- _ => destruct H
                        | H : exists _, _ |- _ => destruct H
                        | H : printed _ ?s |- _ =>
                            apply printed_toString in H; subst s
                        end; subst; split; reflexivity ] | ]).
    all: (split;
       [ intros l Hin; cbn [In] in Hin;
         repeat match goal with
                | H : _ \/ _ |- _ => destruct H
                | H : False |- _ => destruct H
                | H : CustomerDetailPage.setCustomerInteractions _ = _ |- _ =>
                    injection H as <-
                | H : _ = CustomerDetailPage.setCustomerInteractions _ |- _ =>
                    first [discriminate H | injection H as <-]
                end | ]).
    all: try (eexists; eexists; eexists;
              split; [reflexivity|]; split; [eassumption|];
              split; [assumption|]; split; [eassumption|]; reflexivity).
    all: match goal with
         | |- exists es, _ :: ?t = _ :: es ++ [_] =>
             first [ exists []; reflexivity
                   | eexists [_]; reflexivity
                   | eexists [_; _]; reflexivity
                   | eexists [_; _; _]; reflexivity
                   | eexists [_; _; _; _]; reflexivity ]
         end.
  - cbn. split; [now left|]. split.
    + intros l [Hw | [Hw | [Hw | []]]]; discriminate Hw.
    + eexists [_]. reflexivity.
  - cbn. split; [now left|]. split.
    + intros l [Hw | [Hw | [Hw | []]]]; discriminate Hw.
    + eexists [_]. reflexivity.
Qed.

Lemma X11_witness :
  (requests (trace two_then_none (submit_sample editing)) = []
   \/ exists (req : request) (data : value),
        requests (trace two_then_none (submit_sample editing)) = [req]
        /\ headers req = [(lit "Content-Type", lit "application/json")]
        /\ body req = option_map Text (@JSON_stringify Samples.platform data)
        /\ forall (m : http_method) (u : jsstr),
             submit_target editing m u -> method req = m /\ url req = u)
  /\ (exists (req : request) (r : response) (v : value),
        requests (trace two_then_none (submit_sample editing)) = [req]
        /\ two_then_none 0%nat req = Resolved r /\ ok r = true
        /\ @JSON_parse Samples.platform (text r) = inr v
        /\ [Samples.an_interaction]
           = map (fun i => if (CustomerInteraction.id i
                               =? CustomerInteraction.id Samples.an_interaction)%Z
                           then Samples.an_interaction else i)
                 (CustomerDetailPage.customerInteractions editing))
  /\ exists es : list CustomerDetailPage.ui,
       effects (trace two_then_none (submit_sample editing))
       = CustomerDetailPage.setInteractionLoading true
         :: es ++ [CustomerDetailPage.setInteractionLoading false].
Proof.
  destruct (@X11_submit_updates_in_place_or_prepends Samples.platform
              (fun _ => Samples.an_interaction) (lit "7") editing (lit "now")
              two_then_none Samples.with_phone eq_refl eq_refl)
    as [Hreq [Hlist Hflag]].
  split; [exact Hreq|]. split; [|exact Hflag].
  apply (Hlist [Samples.an_interaction]). right. left. reflexivity.
Defined.

Example edited_interaction_is_put :
  requests (trace Samples.not_found (submit_sample editing))
  = [{| url := lit "http://localhost:8000/interactions/31"; method := PUT;
        headers := [(lit "Content-Type", lit "application/json")];
        body := Some (Text (lit "{}")) |}]
  /\ effects (trace two_then_none (submit_sample editing))
     = [CustomerDetailPage.setInteractionLoading true;
        CustomerDetailPage.setCustomerInteractions [Samples.an_interaction];
        CustomerDetailPage.setInteractionDialogOpen false;
        CustomerDetailPage.setInteractionForm
          {| CustomerDetailPage.InteractionForm.interaction_type := lit "call";
             CustomerDetailPage.InteractionForm.interaction_date := lit "now";
             CustomerDetailPage.InteractionForm.title := lit "";
             CustomerDetailPage.InteractionForm.notes := lit "";
             CustomerDetailPage.InteractionForm.follow_up_needed := false;
             CustomerDetailPage.InteractionForm.follow_up_date := lit "";
             CustomerDetailPage.InteractionForm.status := lit "completed" |};
        CustomerDetailPage.setInteractionLoading false].
Proof. split; reflexivity. Qed.

(** X12: with a customer on the page, a non-empty [userId] and a title
    and notes that are not blank, what [handleInteractionSubmit] tells the
    user when saving fails.  A date that cannot be converted sends no
    request and is reported with the message of the exception.  A
    response that is not ok and whose body was read is reported with the
    message of the REST client: the label of the call, the status in
    decimal, the status text and the body.  A response whose body cannot
    be read is reported with the message of that failure, without the
    status.  In every case the text follows 'Failed to save interaction. ',
    the list and the dialog are left alone, and the loading flag is
    switched off. *)
Theorem X12_submit_reports_the_failure :
  forall `{Platform} `{FromAny CustomerInteraction.t}
         (userId : jsstr) (st : CustomerDetailPage.State) (now : jsstr)
         (b : backend) (c : Customer.t),
    CustomerDetailPage.customer st = Some c ->
    nonempty userId = true ->
    nonempty (trim (CustomerDetailPage.InteractionForm.title
                      (CustomerDetailPage.interactionForm st))) = true ->
    nonempty (trim (CustomerDetailPage.InteractionForm.notes
                      (CustomerDetailPage.interactionForm st))) = true ->
    (forall e : exn,
       toISOString (CustomerDetailPage.InteractionForm.interaction_date
                      (CustomerDetailPage.interactionForm st)) = inl e ->
       requests (trace b (CustomerDetailPage.handleInteractionSubmit userId st now))
       = []
       /\ effects (trace b (CustomerDetailPage.handleInteractionSubmit userId st now))
          = [CustomerDetailPage.setInteractionLoading true;
             CustomerDetailPage.alert (save_failure e);
             CustomerDetailPage.setInteractionLoading false])
    /\ (forall (req : request) (r : response),
          requests (trace b (CustomerDetailPage.handleInteractionSubmit userId st now))
          = [req] ->
          b 0%nat req = Resolved r -> ok r = false ->
          exists s : jsstr,
            decimal (status r) s
            /\ effects (trace b (CustomerDetailPage.handleInteractionSubmit
                                   userId st now))
               = [CustomerDetailPage.setInteractionLoading true;
                  CustomerDetailPage.alert
                    (lit "Failed to save interaction. " ++ submit_label st
                     ++ lit ": " ++ s ++ lit " " ++ statusText r
                     ++ lit " - " ++ text r);
                  CustomerDetailPage.setInteractionLoading false])
    /\ (forall (req : request) (code : Z) (reason : jsstr) (e : exn),
          requests (trace b (CustomerDetailPage.handleInteractionSubmit userId st now))
          = [req] ->
          b 0%nat req = Unreadable code reason e ->
          effects (trace b (CustomerDetailPage.handleInteractionSubmit userId st now))
          = [CustomerDetailPage.setInteractionLoading true;
             CustomerDetailPage.alert (save_failure e);
             CustomerDetailPage.setInteractionLoading false]).
Proof.
  intros P F userId st now b c Hc Hu Ht Hn.
  unfold CustomerDetailPage.handleInteractionSubmit,
    CustomerDetailPage.resetInteractionForm, submit_label, save_failure, trace.
  rewrite Hc, Hu, Ht, Hn. cbn [negb]. split; [|split].
  - intros e He. rewrite He. cbn. split; reflexivity.
  - intros req r.
    submit_cases st; intros Hreq Hres Hok; try discriminate Hreq;
      injection Hreq as <-;
      match goal with
      | H : b 0%nat _ = ?x |- _ =>
          assert (Heq : x = Resolved r) by (rewrite <- H; exact Hres);
          first [discriminate Heq | injection Heq as ->]
      end; try congruence;
      (exists (Z_toString (status r)); split; [apply decimal_toString|];
       reflexivity).
  - intros req code reason e.
    submit_cases st; intros Hreq Hres; try discriminate Hreq;
      injection Hreq as <-;
      match goal with
      | H : b 0%nat _ = ?x |- _ =>
          assert (Heq : x = Unreadable code reason e)
            by (rewrite <- H; exact Hres);
          first [discriminate Heq | injection Heq as -> -> ->]
      end; reflexivity.
Qed.

Lemma X12_witness :
  (forall e : exn,
     @toISOString Samples.platform
       (CustomerDetailPage.InteractionForm.interaction_date
          (CustomerDetailPage.interactionForm editing)) = inl e ->
     requests (trace Samples.not_found (submit_sample editing)) = []
     /\ effects (trace Samples.not_found (submit_sample editing))
        = [CustomerDetailPage.setInteractionLoading true;
           CustomerDetailPage.alert (save_failure e);
           CustomerDetailPage.setInteractionLoading false])
  /\ (forall (req : request) (r : response),
        requests (trace Samples.not_found (submit_sample editing)) = [req] ->
        Samples.not_found 0%nat req = Resolved r -> ok r = false ->
        exists s : jsstr,
          decimal (status r) s
          /\ effects (trace Samples.not_found (submit_sample editing))
             = [CustomerDetailPage.setInteractionLoading true;
                CustomerDetailPage.alert
                  (lit "Failed to save interaction. " ++ submit_label editing
                   ++ lit ": " ++ s ++ lit " " ++ statusText r
                   ++ lit " - " ++ text r);
                CustomerDetailPage.setInteractionLoading false])
  /\ (forall (req : request) (code : Z) (reason : jsstr) (e : exn),
        requests (trace Samples.not_found (submit_sample editing)) = [req] ->
        Samples.not_found 0%nat req = Unreadable code reason e ->
        effects (trace Samples.not_found (submit_sample editing))
        = [CustomerDetailPage.setInteractionLoading true;
           CustomerDetailPage.alert (save_failure e);
           CustomerDetailPage.setInteractionLoading false]).
Proof.
  exact (@X12_submit_reports_the_failure Samples.platform
           (fun _ => Samples.an_interaction) (lit "7") editing (lit "now")
           Samples.not_found Samples.with_phone eq_refl eq_refl eq_refl eq_refl).
Defined.

Example failed_update_shows_the_status :
  effects (trace Samples.not_found (submit_sample editing))
  = [CustomerDetailPage.setInteractionLoading true;
     CustomerDetailPage.alert
       (lit "Failed to save interaction. Failed to update interaction: 404 Not Found - no such customer");
     CustomerDetailPage.setInteractionLoading false].
Proof. reflexivity. Qed.

Example unreadable_error_body_hides_the_status :
  effects (trace broken_body (submit_sample editing))
  = [CustomerDetailPage.setInteractionLoading true;
     CustomerDetailPage.alert (lit "Failed to save interaction. network error");
     CustomerDetailPage.setInteractionLoading false].
Proof. reflexivity. Qed.

(** ** The website builder *)

(** X13: the four handlers of the website builder send requests only on
    behalf of a stored user: whenever one of them sends a request, the
    item [user] of the local storage is a non-empty text that
    [JSON.parse] accepts and whose [id] is truthy. *)
Theorem X13_builder_requests_need_a_stored_user :
  forall `{Platform} `{FromAny Z} (selectedTemplate : jsstr)
         (localStorage_user : option jsstr) (popup : bool) (b : backend)
         (req : request),
    In req (requests (trace b (DigitalPresenceBuilder.loadWebsiteInfo
                                 localStorage_user)))
    \/ In req (requests (trace b (DigitalPresenceBuilder.handleGenerateWebsite
                                    selectedTemplate localStorage_user)))
    \/ In req (requests (trace b (DigitalPresenceBuilder.handlePreviewWebsite
                                    selectedTemplate localStorage_user popup)))
    \/ In req (requests (trace b (DigitalPresenceBuilder.handleApplyTemplate
                                    selectedTemplate localStorage_user))) ->
    exists (s : jsstr) (user id : value),
      localStorage_user = Some s /\ nonempty s = true
      /\ JSON_parse s = inr user /\ get (lit "id") user = inr id
      /\ truthy id = true.
Proof.
  intros P F selectedTemplate localStorage_user popup b req.
  unfold DigitalPresenceBuilder.loadWebsiteInfo,
    DigitalPresenceBuilder.handleGenerateWebsite,
    DigitalPresenceBuilder.handlePreviewWebsite,
    DigitalPresenceBuilder.handleApplyTemplate, trace.
  unfold DigitalPresenceBuilder.no_user, DigitalPresenceBuilder.userStr.
  destruct localStorage_user as [s|];
    [destruct (nonempty s) eqn:Hs|]; cbn [negb];
    [destruct (JSON_parse s) as [e|user] eqn:Hp; cbn [lift bind];
     [|destruct (get (lit "id") user) as [e|id] eqn:Hg; cbn [lift bind];
       [|destruct (truthy id) eqn:Ht; cbn [negb]]] | |];
    try (intros _; exists s, user, id; repeat split; assumption);
    cbn; tauto.
Qed.

Lemma X13_witness :
  exists (s : jsstr) (user id : value),
    Some Samples.stored_user = Some s /\ nonempty s = true
    /\ @JSON_parse Samples.platform s = inr user /\ get (lit "id") user = inr id
    /\ truthy id = true.
Proof.
  exact (@X13_builder_requests_need_a_stored_user Samples.platform
           Samples.number_of_any (lit "modern") (Some Samples.stored_user) true
           Samples.serves_page
           (fetch_url (lit "http://localhost:8000/digital-presence/website/7"))
           (or_introl (or_introl eq_refl))).
Defined.

(** X14: [handleApplyTemplate] for a stored user with a truthy id.  When
    the apply-template call throws, the website information is not
    reloaded and the error shown is 'Failed to apply template: ' followed
    by the message of the exception.  When it returns, the website
    information is reloaded with a second request, and whatever happens to
    that one is reported by the reload itself: the effects are those of
    [loadWebsiteInfo], between clearing the error and switching the
    generating flag off. *)
Theorem X14_apply_template_then_reload :
  forall `{Platform} `{FromAny Z} (selectedTemplate s : jsstr) (user id : value)
         (b : backend),
    nonempty s = true -> JSON_parse s = inr user ->
    get (lit "id") user = inr id -> truthy id = true ->
    match result b (apiService DigitalPresenceBuilder.ui
                      (applyWebsiteTemplate (from_any id) selectedTemplate)) with
    | Raised e =>
        requests (trace b (DigitalPresenceBuilder.handleApplyTemplate
                             selectedTemplate (Some s)))
        = [request_of (applyWebsiteTemplate (from_any id) selectedTemplate)]
        /\ effects (trace b (DigitalPresenceBuilder.handleApplyTemplate
                               selectedTemplate (Some s)))
           = [DigitalPresenceBuilder.setIsGenerating true;
              DigitalPresenceBuilder.setError (lit "");
              DigitalPresenceBuilder.setError
                (lit "Failed to apply template: " ++ message e);
              DigitalPresenceBuilder.setIsGenerating false]
    | Returned _ =>
        requests (trace b (DigitalPresenceBuilder.handleApplyTemplate
                             selectedTemplate (Some s)))
        = [request_of (applyWebsiteTemplate (from_any id) selectedTemplate);
           request_of (getWebsiteInfo (from_any id))]
        /\ effects (trace b (DigitalPresenceBuilder.handleApplyTemplate
                               selectedTemplate (Some s)))
           = [DigitalPresenceBuilder.setIsGenerating true;
              DigitalPresenceBuilder.setError (lit "")]
             ++ effects (fst (run b 1 (DigitalPresenceBuilder.loadWebsiteInfo (Some s))))
             ++ [DigitalPresenceBuilder.setIsGenerating false]
    end.
Proof.
  intros P F selectedTemplate s user id b Hs Hp Hg Ht.
  unfold DigitalPresenceBuilder.handleApplyTemplate,
    DigitalPresenceBuilder.loadWebsiteInfo, DigitalPresenceBuilder.describe,
    DigitalPresenceBuilder.no_user, DigitalPresenceBuilder.userStr, trace, result.
  rewrite Hs. cbn [negb]. rewrite Hp. cbn [lift bind]. rewrite Hg.
  cbn [lift bind]. rewrite Ht. cbn [negb].
  run_all; split; reflexivity.
Qed.

(** X15: [handleGenerateWebsite] for a stored user with a truthy id, once
    the generate call has returned.  With a truthy [html_content] the
    preview is set and the website information is reloaded; with a falsy
    one (absent, empty, null) nothing is shown at all: no preview, no
    reload and no error. *)
Theorem X15_generate_is_silent_without_html :
  forall `{Platform} `{FromAny Z} (selectedTemplate s : jsstr)
         (user id result html_content : value) (b : backend),
    nonempty s = true -> JSON_parse s = inr user ->
    get (lit "id") user = inr id -> truthy id = true ->
    snd (run b 0 (apiService DigitalPresenceBuilder.ui
                    (generateWebsiteHtml (from_any id) selectedTemplate)))
    = Returned result ->
    get (lit "html_content") result = inr html_content ->
    if truthy html_content then
      requests (trace b (DigitalPresenceBuilder.handleGenerateWebsite
                           selectedTemplate (Some s)))
      = [request_of (generateWebsiteHtml (from_any id) selectedTemplate);
         request_of (getWebsiteInfo (from_any id))]
      /\ effects (trace b (DigitalPresenceBuilder.handleGenerateWebsite
                             selectedTemplate (Some s)))
         = [DigitalPresenceBuilder.setIsGenerating true;
            DigitalPresenceBuilder.setError (lit "");
            DigitalPresenceBuilder.setPreviewHtml html_content]
           ++ effects (fst (run b 1 (DigitalPresenceBuilder.loadWebsiteInfo (Some s))))
           ++ [DigitalPresenceBuilder.setIsGenerating false]
    else
      requests (trace b (DigitalPresenceBuilder.handleGenerateWebsite
                           selectedTemplate (Some s)))
      = [request_of (generateWebsiteHtml (from_any id) selectedTemplate)]
      /\ effects (trace b (DigitalPresenceBuilder.handleGenerateWebsite
                             selectedTemplate (Some s)))
         = [DigitalPresenceBuilder.setIsGenerating true;
            DigitalPresenceBuilder.setError (lit "");
            DigitalPresenceBuilder.setIsGenerating false].
Proof.
  intros P F selectedTemplate s user id result html_content b Hs Hp Hg Ht.
  unfold DigitalPresenceBuilder.handleGenerateWebsite,
    DigitalPresenceBuilder.loadWebsiteInfo, DigitalPresenceBuilder.describe,
    DigitalPresenceBuilder.no_user, DigitalPresenceBuilder.userStr, trace.
  rewrite Hs. cbn [negb]. rewrite Hp. cbn [lift bind]. rewrite Hg.
  cbn [lift bind]. rewrite Ht. cbn [negb].
  unfold apiService, returning_json, checked. cbn [bind run snd].
  destruct (b 0%nat _) as [e|r|code reason e] eqn:Hb;
    cbn [bind run snd try_catch finally]; [discriminate| |discriminate].
  destruct (ok r) eqn:Hok; cbn [negb bind run snd try_catch finally lift];
    [|discriminate].
  destruct (JSON_parse (text r)) as [e|v] eqn:Hv;
    cbn [negb bind run snd try_catch finally lift]; [discriminate|].
  intros [= ->] Hh.
  destruct (truthy html_content) eqn:Hth; run_all; split; reflexivity.
Qed.

Lemma X14_witness :
  match result two_then_none
          (@apiService Samples.platform DigitalPresenceBuilder.ui _
             (applyWebsiteTemplate 7 (lit "modern"))) with
  | Raised e =>
      requests (trace two_then_none
                  (@DigitalPresenceBuilder.handleApplyTemplate Samples.platform
                     Samples.number_of_any (lit "modern") (Some Samples.stored_user)))
      = [@request_of Samples.platform _ (applyWebsiteTemplate 7 (lit "modern"))]
      /\ effects (trace two_then_none
                    (@DigitalPresenceBuilder.handleApplyTemplate Samples.platform
                       Samples.number_of_any (lit "modern") (Some Samples.stored_user)))
         = [DigitalPresenceBuilder.setIsGenerating true;
            DigitalPresenceBuilder.setError (lit "");
            DigitalPresenceBuilder.setError
              (lit "Failed to apply template: " ++ message e);
            DigitalPresenceBuilder.setIsGenerating false]
  | Returned _ =>
      requests (trace two_then_none
                  (@DigitalPresenceBuilder.handleApplyTemplate Samples.platform
                     Samples.number_of_any (lit "modern") (Some Samples.stored_user)))
      = [@request_of Samples.platform _ (applyWebsiteTemplate 7 (lit "modern"));
         @request_of Samples.platform _ (getWebsiteInfo 7)]
      /\ effects (trace two_then_none
                    (@DigitalPresenceBuilder.handleApplyTemplate Samples.platform
                       Samples.number_of_any (lit "modern") (Some Samples.stored_user)))
         = [DigitalPresenceBuilder.setIsGenerating true;
            DigitalPresenceBuilder.setError (lit "")]
           ++ effects (fst (run two_then_none 1
                              (@DigitalPresenceBuilder.loadWebsiteInfo Samples.platform
                                 Samples.number_of_any (Some Samples.stored_user))))
           ++ [DigitalPresenceBuilder.setIsGenerating false]
  end.
Proof.
  exact (@X14_apply_template_then_reload Samples.platform Samples.number_of_any
           (lit "modern") Samples.stored_user (Obj [(lit "id", Num 7)]) (Num 7)
           two_then_none eq_refl eq_refl eq_refl eq_refl).
Defined.

Lemma X15_witness :
  requests (trace two_then_none
              (@DigitalPresenceBuilder.handleGenerateWebsite Samples.platform
                 Samples.number_of_any (lit "modern") (Some Samples.stored_user)))
  = [@request_of Samples.platform _ (generateWebsiteHtml 7 (lit "modern"))]
  /\ effects (trace two_then_none
                (@DigitalPresenceBuilder.handleGenerateWebsite Samples.platform
                   Samples.number_of_any (lit "modern") (Some Samples.stored_user)))
     = [DigitalPresenceBuilder.setIsGenerating true;
        DigitalPresenceBuilder.setError (lit "");
        DigitalPresenceBuilder.setIsGenerating false].
Proof.
  exact (@X15_generate_is_silent_without_html Samples.platform
           Samples.number_of_any (lit "modern") Samples.stored_user
           (Obj [(lit "id", Num 7)]) (Num 7) (Obj []) Undefined two_then_none
           eq_refl eq_refl eq_refl eq_refl eq_refl eq_refl).
Defined.

(** ** The profile page *)

(** X16: the effect that loads the profile, once the profile call has
    returned a value.  A [null] profile is stored in the state as it is
    and is then reported as a failure to load: the business types are not
    requested.  For any other value the form is filled and the business
    types are requested with a second request. *)
Theorem X16_null_profile_is_a_load_failure :
  forall `{Platform} (userId : jsstr) (b : backend) (profileData : value),
    result b (apiService ProfilePage.ui (getProfile userId)) = Returned profileData ->
    (profileData = Null ->
     requests (trace b (ProfilePage.fetchProfileData userId))
     = [request_of (getProfile userId)]
     /\ effects (trace b (ProfilePage.fetchProfileData userId))
        = [ProfilePage.setLoading true; ProfilePage.setProfile Null;
           ProfilePage.toast_error (lit "Failed to load profile data");
           ProfilePage.setLoading false])
    /\ (profileData <> Null -> profileData <> Undefined ->
        requests (trace b (ProfilePage.fetchProfileData userId))
        = [request_of (getProfile userId); request_of getBusinessTypes]
        /\ exists (form : value) (es : list ProfilePage.ui),
             effects (trace b (ProfilePage.fetchProfileData userId))
             = ProfilePage.setLoading true :: ProfilePage.setProfile profileData
               :: ProfilePage.setFormData form
               :: es ++ [ProfilePage.setLoading false]
             /\ forall k : jsstr,
                  In k [lit "name"; lit "email"; lit "phone"; lit "business_name";
                        lit "business_type"; lit "location"; lit "bio";
                        lit "website"] ->
                  get k form = get k profileData).
Proof.
  intros P userId b profileData.
  unfold ProfilePage.fetchProfileData, trace, result.
  unfold apiService, returning_json, checked. cbn [bind run snd].
  destruct (b 0%nat _) as [e|r|code reason e] eqn:Hb;
    cbn [bind run snd try_catch finally]; [discriminate| |discriminate].
  destruct (ok r) eqn:Hok; cbn [negb bind run snd try_catch finally lift];
    [|discriminate].
  destruct (JSON_parse (text r)) as [e|v] eqn:Hv;
    cbn [negb bind run snd try_catch finally lift]; [discriminate|].
  intros [= ->]. split.
  - intros ->. run_all. split; reflexivity.
  - intros Hnull Hundef.
    assert (Hget : forall k, exists x, get k profileData = inr x).
    { intros k. destruct profileData; try (eexists; reflexivity); contradiction. }
    destruct (Hget (lit "name")) as [x1 H1].
    destruct (Hget (lit "email")) as [x2 H2].
    destruct (Hget (lit "phone")) as [x3 H3].
    destruct (Hget (lit "business_name")) as [x4 H4].
    destruct (Hget (lit "business_type")) as [x5 H5].
    destruct (Hget (lit "location")) as [x6 H6].
    destruct (Hget (lit "bio")) as [x7 H7].
    destruct (Hget (lit "website")) as [x8 H8].
    assert (Hform : forall k : jsstr,
              In k [lit "name"; lit "email"; lit "phone"; lit "business_name";
                    lit "business_type"; lit "location"; lit "bio"; lit "website"] ->
              get k (Obj [(lit "name", x1); (lit "email", x2); (lit "phone", x3);
                          (lit "business_name", x4); (lit "business_type", x5);
                          (lit "location", x6); (lit "bio", x7);
                          (lit "website", x8)])
              = get k profileData).
    { intros k Hk. cbn [In] in Hk.
      repeat match goal with
             | H : _ \/ _ |- _ => destruct H
             | H : False |- _ => destruct H
             end; subst k; symmetry; assumption. }
    run_all;
      repeat match goal with
             | |- context [lift (get ?k ?v)] =>
                 destruct (get k v) eqn:?;
                 cbn [bind try_catch finally run perform fst snd requests effects
                      lift negb app]
             end;
      (split; [reflexivity|]);
      eexists; eexists; (split; [|exact Hform]);
      first [ instantiate (1 := []); reflexivity
            | instantiate (1 := [_]); reflexivity
            | instantiate (1 := [_; _]); reflexivity ].
Qed.

Lemma X16_witness :
  (Obj [] = Null ->
   requests (trace two_then_none
               (@ProfilePage.fetchProfileData Samples.platform (lit "u7")))
   = [@request_of Samples.platform _ (getProfile (lit "u7"))]
   /\ effects (trace two_then_none
                 (@ProfilePage.fetchProfileData Samples.platform (lit "u7")))
      = [ProfilePage.setLoading true; ProfilePage.setProfile Null;
         ProfilePage.toast_error (lit "Failed to load profile data");
         ProfilePage.setLoading false])
  /\ (Obj [] <> Null -> Obj [] <> Undefined ->
      requests (trace two_then_none
                  (@ProfilePage.fetchProfileData Samples.platform (lit "u7")))
      = [@request_of Samples.platform _ (getProfile (lit "u7"));
         @request_of Samples.platform _ getBusinessTypes]
      /\ exists (form : value) (es : list ProfilePage.ui),
           effects (trace two_then_none
                      (@ProfilePage.fetchProfileData Samples.platform (lit "u7")))
           = ProfilePage.setLoading true :: ProfilePage.setProfile (Obj [])
             :: ProfilePage.setFormData form
             :: es ++ [ProfilePage.setLoading false]
           /\ forall k : jsstr,
                In k [lit "name"; lit "email"; lit "phone"; lit "business_name";
                      lit "business_type"; lit "location"; lit "bio";
                      lit "website"] ->
                get k form = get k (Obj [])).
Proof.
  exact (@X16_null_profile_is_a_load_failure Samples.platform (lit "u7")
           two_then_none (Obj []) eq_refl).
Defined.

(** X17: [handleProfileImageUpload] without a selected file only shows
    the toast that asks for one.  With a file it sends one POST whose body
    is a form with that file as its one entry, [file], and without a
    content-type header of its own; the selected file is cleared exactly
    when the call returns, and the uploading flag is switched off last
    whether it returns or throws. *)
Theorem X17_upload_sends_the_file_as_a_form :
  forall `{Platform} (userId : jsstr) (selectedFile : option value)
         (has_file_input : bool) (b : backend),
    match selectedFile with
    | None =>
        requests (trace b (ProfilePage.handleProfileImageUpload
                             userId selectedFile has_file_input)) = []
        /\ effects (trace b (ProfilePage.handleProfileImageUpload
                               userId selectedFile has_file_input))
           = [ProfilePage.toast_error (lit "Please select an image file")]
    | Some file =>
        requests (trace b (ProfilePage.handleProfileImageUpload
                             userId selectedFile has_file_input))
        = [{| url := API_BASE_URL ++ lit "/auth/profile/upload-image?current_user_id="
                     ++ userId;
              method := POST; headers := [];
              body := Some (FormData [(lit "file", file)]) |}]
        /\ (In (ProfilePage.setSelectedFile None)
               (effects (trace b (ProfilePage.handleProfileImageUpload
                                    userId selectedFile has_file_input)))
            <-> exists v : value,
                  result b (apiService ProfilePage.ui
                              (uploadProfileImage userId [(lit "file", file)]))
                  = Returned v)
        /\ exists es : list ProfilePage.ui,
             effects (trace b (ProfilePage.handleProfileImageUpload
                                 userId selectedFile has_file_input))
             = ProfilePage.setUploadingImage true
               :: es ++ [ProfilePage.setUploadingImage false]
    end.
Proof.
  intros P userId selectedFile has_file_input b.
  unfold ProfilePage.handleProfileImageUpload, trace, result.
  destruct selectedFile as [file|]; [|split; reflexivity].
  destruct has_file_input; run_all;
    (split; [reflexivity|]);
    (split;
     [ split;
       [ cbn [In]; intros Hin;
         repeat match goal with
                | H : _ \/ _ |- _ => destruct H
                | H : False |- _ => destruct H
                end; try discriminate; eexists; reflexivity
       | intros [v' Hv]; try discriminate Hv; cbn [In]; tauto ]
     | first [ exists []; reflexivity
             | eexists [_]; reflexivity
             | eexists [_; _]; reflexivity
             | eexists [_; _; _]; reflexivity
             | eexists [_; _; _; _]; reflexivity ] ]).
Qed.

(** ** The application shell *)

Lemma current_screen_is_inside (st : App.State) :
  App.renderCurrentScreen st <> App.LoginScreen
  /\ App.renderCurrentScreen st <> App.ProfileSetupScreen.
Proof.
  unfold App.renderCurrentScreen.
  split;
    repeat match goal with
           | |- context [if ?c then _ else _] => destruct c
           | |- context [match ?x with Some _ => _ | None => _ end] => destruct x
           end; discriminate.
Qed.

(** No action that is enabled outside the login screen touches the user
    id or brings the login screen back. *)
Lemma session_keeps_user (st : App.State) (l : list App.action) (st' : App.State) :
  App.session st l st' ->
  App.appState st <> App.login ->
  App.currentUserId st' = App.currentUserId st
  /\ App.appState st' <> App.login
  /\ (App.appState st = App.app -> App.appState st' = App.app).
Proof.
  intros Hs. induction Hs as [st | st a l st' Hen Hs IH]; intros Hst.
  - repeat split; auto.
  - assert (Hstep : App.currentUserId (App.after st (App.handler a))
                    = App.currentUserId st
                    /\ App.appState (App.after st (App.handler a)) <> App.login
                    /\ (App.appState st = App.app ->
                        App.appState (App.after st (App.handler a)) = App.app)).
    { unfold App.enabled, App.render in Hen.
      destruct st as [a0 c u i]. cbn [App.appState] in Hst, Hen.
      destruct a0; [contradiction| |];
        destruct a; try discriminate Hen;
        try (destruct (App.renderCurrentScreen _) eqn:Hr; try discriminate Hen;
             first [ destruct (proj1 (current_screen_is_inside _) Hr)
                   | destruct (proj2 (current_screen_is_inside _) Hr) ]);
        cbn; repeat split; solve [discriminate | reflexivity | auto]. }
    destruct Hstep as [Hu [Hl Ha]]. destruct (IH Hl) as [IHu [IHl IHa]].
    split; [congruence|]. split; [exact IHl|]. auto.
Qed.

(** X18: once the application is entered, no sequence of actions leaves
    it or changes the user: the shell offers no way back to the login
    screen and no way to become another user. *)
Theorem X18_no_way_back_to_login :
  forall (st : App.State) (l : list App.action) (st' : App.State),
    App.session st l st' ->
    App.appState st = App.app ->
    App.appState st' = App.app
    /\ App.currentUserId st' = App.currentUserId st
    /\ App.render st' <> App.LoginScreen
    /\ App.render st' <> App.ProfileSetupScreen.
Proof.
  intros st l st' Hs Happ.
  assert (Hn : App.appState st <> App.login) by (rewrite Happ; discriminate).
  destruct (session_keeps_user st l st' Hs Hn) as [Hu [_ Ha]].
  pose proof (Ha Happ) as Happ'. split; [exact Happ'|]. split; [exact Hu|].
  unfold App.render. rewrite Happ'. apply current_screen_is_inside.
Qed.

(** X19: a visitor who signs up instead of logging in enters the
    application without a user id, and keeps none whatever is done next:
    the customers page then loads nothing, and neither does the customer
    detail page. *)
Theorem X19_signup_enters_without_a_user :
  forall (l : list App.action) (st' : App.State),
    App.session App.initial (App.Signup :: l) st' ->
    App.currentUserId st' = lit ""
    /\ (forall `{Platform} `{FromAny (list Customer.t)},
          CustomersPage.fetchCustomers (App.currentUserId st') = Ret tt)
    /\ (forall `{Platform} `{FromAny Customer.t}
               `{FromAny (list CustomerInteraction.t)} (customerId : Z),
          CustomerDetailPage.fetchData customerId (App.currentUserId st') = Ret tt).
Proof.
  intros l st' Hs. inversion Hs as [|? ? ? ? _ Hs']; subst.
  assert (Hn : App.appState (App.after App.initial (App.handler App.Signup))
               <> App.login) by (cbn; discriminate).
  destruct (session_keeps_user _ l st' Hs' Hn) as [Hu _].
  cbn in Hu. split; [exact Hu|]. rewrite Hu. split.
  - intros P F. reflexivity.
  - intros P F1 F2 customerId. unfold CustomerDetailPage.fetchData.
    now rewrite orb_true_r.
Qed.

Lemma session_selected (st : App.State) (l : list App.action) (st' : App.State) :
  App.session st l st' ->
  forall id : Z,
    App.selectedCustomerId st' = Some id ->
    App.selectedCustomerId st = Some id \/ In (App.ViewCustomer id) l.
Proof.
  intros Hs. induction Hs as [st | st a l st' Hen Hs IH]; intros id Hid.
  - now left.
  - destruct (IH id Hid) as [Hsel | Hin]; [|right; now right].
    destruct st as [a0 c u i]. destruct a; cbn in Hsel;
      try (left; exact Hsel).
    right. left. now injection Hsel as ->.
Qed.

(** X20: in every session that starts at the login screen, the customer
    detail page is shown only for a customer that was chosen on the
    customers page, whose number is not 0, and for the current user.
    Choosing customer number 0 shows the customers page itself. *)
Theorem X20_detail_page_needs_a_chosen_customer :
  forall (l : list App.action) (st' : App.State),
    App.session App.initial l st' ->
    (forall (id : Z) (u : jsstr),
       App.render st' = App.CustomerDetailPage_ id u ->
       id <> 0%Z /\ In (App.ViewCustomer id) l /\ u = App.currentUserId st')
    /\ (App.appState st' = App.app ->
        App.render (App.after st' (App.handleViewCustomer 0))
        = App.CustomersPage_ (App.currentUserId st')).
Proof.
  intros l st' Hs. split.
  - intros id u Hr.
    assert (Hsel : App.selectedCustomerId st' = Some id /\ id <> 0%Z
                   /\ u = App.currentUserId st').
    { unfold App.render, App.renderCurrentScreen in Hr.
      destruct (App.appState st'); try discriminate Hr.
      repeat match type of Hr with
             | context [if str_eqb ?a ?b then _ else _] =>
                 destruct (str_eqb a b); try discriminate Hr
             end.
      destruct (App.selectedCustomerId st') as [i|]; [|discriminate Hr].
      destruct (i =? 0)%Z eqn:Hi; [discriminate Hr|].
      injection Hr as -> ->. apply Z.eqb_neq in Hi. auto. }
    destruct Hsel as [Hsel [Hid Hu]]. split; [exact Hid|]. split; [|exact Hu].
    destruct (session_selected _ _ _ Hs id Hsel) as [Hinit | Hin];
      [discriminate Hinit | exact Hin].
  - intros Happ. destruct st' as [a c u i]. cbn in Happ. subst a. reflexivity.
Qed.

Ltac play_session :=
  repeat (eapply App.session_cons; [reflexivity|]); apply App.session_nil.

Lemma X18_witness :
  App.appState (play [App.Back; App.Navigate (lit "profile")]
                     (play visit_of_a_user App.initial)) = App.app
  /\ App.currentUserId (play [App.Back; App.Navigate (lit "profile")]
                             (play visit_of_a_user App.initial))
     = App.currentUserId (play visit_of_a_user App.initial)
  /\ App.render (play [App.Back; App.Navigate (lit "profile")]
                      (play visit_of_a_user App.initial)) <> App.LoginScreen
  /\ App.render (play [App.Back; App.Navigate (lit "profile")]
                      (play visit_of_a_user App.initial)) <> App.ProfileSetupScreen.
Proof.
  refine (X18_no_way_back_to_login (play visit_of_a_user App.initial)
            [App.Back; App.Navigate (lit "profile")] _ _ eq_refl).
  play_session.
Defined.

Lemma X19_witness :
  App.currentUserId (play visit_after_signup App.initial) = lit ""
  /\ (forall `{Platform} `{FromAny (list Customer.t)},
        CustomersPage.fetchCustomers
          (App.currentUserId (play visit_after_signup App.initial)) = Ret tt)
  /\ (forall `{Platform} `{FromAny Customer.t}
             `{FromAny (list CustomerInteraction.t)} (customerId : Z),
        CustomerDetailPage.fetchData customerId
          (App.currentUserId (play visit_after_signup App.initial)) = Ret tt).
Proof.
  refine (X19_signup_enters_without_a_user
            [App.ProfileComplete; App.Navigate (lit "customers")] _ _).
  play_session.
Defined.

Lemma X20_witness :
  (forall (id : Z) (u : jsstr),
     App.render (play visit_of_a_user App.initial) = App.CustomerDetailPage_ id u ->
     id <> 0%Z /\ In (App.ViewCustomer id) visit_of_a_user
     /\ u = App.currentUserId (play visit_of_a_user App.initial))
  /\ (App.appState (play visit_of_a_user App.initial) = App.app ->
      App.render (App.after (play visit_of_a_user App.initial)
                            (App.handleViewCustomer 0))
      = App.CustomersPage_ (App.currentUserId (play visit_of_a_user App.initial))).
Proof.
  refine (X20_detail_page_needs_a_chosen_customer visit_of_a_user _ _).
  play_session.
Defined.

Example user_7_sees_customer_3 :
  App.render (play visit_of_a_user App.initial)
  = App.CustomerDetailPage_ 3 (lit "7").
Proof. reflexivity. Qed.

(** ** The REST client, further *)

(** X21: the requests of the REST client.  Every call addresses the one
    backend, [http://localhost:8000/].  A GET or DELETE has no body and no
    headers.  A POST or PUT either carries the JSON text of its data with
    the content type [application/json], or, for the image upload alone,
    a form without a content type of its own. *)
Theorem X21_requests_of_the_client :
  forall `{Platform} (A : Type) (c : call A),
    startsWith (url (request_of c)) (API_BASE_URL ++ lit "/") = true
    /\ match method (request_of c) with
       | GET | DELETE =>
           headers (request_of c) = [] /\ body (request_of c) = None
       | POST | PUT =>
           (headers (request_of c) = json_headers
            /\ exists data : value,
                 body (request_of c) = option_map Text (JSON_stringify data))
           \/ (headers (request_of c) = []
               /\ exists (user_id : jsstr) (formData : list (jsstr * value)),
                    body (request_of c) = Some (FormData formData)
                    /\ url (request_of c)
                       = API_BASE_URL
                         ++ lit "/auth/profile/upload-image?current_user_id="
                         ++ user_id)
       end.
Proof.
  intros P A c.
  destruct c; (split; [reflexivity|]); cbn;
    first [ split; reflexivity
          | left; split; [reflexivity | eexists; reflexivity]
          | right; split; [reflexivity | eexists; eexists; split; reflexivity] ].
Qed.

(** X22: how a call of the REST client fails besides a response that is
    not ok.  A rejected [fetch] is rethrown as it is, without a label or a
    status.  An ok response whose body [JSON.parse] refuses makes every
    call throw the error of the parser, except [previewWebsite], which
    does not parse and returns the body. *)
Theorem X22_rejections_and_bad_bodies :
  forall `{Platform} (E A : Type) (c : call A) (b : backend),
    (forall e : exn,
       b 0%nat (request_of c) = Rejected e ->
       result b (apiService E c) = Raised e)
    /\ (forall (r : response) (e : exn),
          b 0%nat (request_of c) = Resolved r -> ok r = true ->
          JSON_parse (text r) = inl e ->
          if returns_text c
          then exists a : A, result b (apiService E c) = Returned a
          else result b (apiService E c) = Raised e).
Proof.
  intros P E A c b. split.
  - intros e He. unfold result.
    destruct c; unfold apiService;
      rewrite ?run_returning_json, ?run_returning_text; cbn [snd];
      now rewrite He.
  - intros r e Hr Hok He. unfold result.
    destruct c; unfold apiService;
      rewrite ?run_returning_json, ?run_returning_text; cbn [snd returns_text];
      rewrite Hr, Hok, ?He; first [reflexivity | eexists; reflexivity].
Qed.

(** X23: for a customer whose trimmed contact_info has no phone match,
    [handleWhatsApp] and [handleSMS] (on both pages) open nothing: each
    only shows its alert that the phone number is invalid. *)
Theorem X23_no_phone_no_message :
  forall customer : Customer.t,
    ~ has_match phone_re (trim (Customer.contact_info customer)) ->
    CustomersPage.handleWhatsApp customer
    = perform (CustomersPage.alert (lit "Invalid phone number for WhatsApp"))
    /\ CustomersPage.handleSMS customer
       = perform (CustomersPage.alert (lit "Invalid phone number for SMS"))
    /\ forall st : CustomerDetailPage.State,
         CustomerDetailPage.customer st = Some customer ->
         CustomerDetailPage.handleWhatsApp st
         = perform (CustomerDetailPage.alert (lit "Invalid phone number for WhatsApp"))
         /\ CustomerDetailPage.handleSMS st
            = perform (CustomerDetailPage.alert (lit "Invalid phone number for SMS")).
Proof.
  intros customer Hno. pose proof (str_match_phone_none _ Hno) as Hnone.
  split; [|split; [|intros st Hst; split]].
  - unfold CustomersPage.handleWhatsApp, CustomersPage.info_of.
    now rewrite or_empty_id, Hnone.
  - unfold CustomersPage.handleSMS, CustomersPage.info_of.
    now rewrite or_empty_id, Hnone.
  - unfold CustomerDetailPage.handleWhatsApp, CustomerDetailPage.info_of.
    now rewrite Hst, or_empty_id, Hnone.
  - unfold CustomerDetailPage.handleSMS, CustomerDetailPage.info_of.
    now rewrite Hst, or_empty_id, Hnone.
Qed.

Lemma X23_witness :
  CustomersPage.handleWhatsApp at_without_dot
  = perform (CustomersPage.alert (lit "Invalid phone number for WhatsApp"))
  /\ CustomersPage.handleSMS at_without_dot
     = perform (CustomersPage.alert (lit "Invalid phone number for SMS"))
  /\ forall st : CustomerDetailPage.State,
       CustomerDetailPage.customer st = Some at_without_dot ->
       CustomerDetailPage.handleWhatsApp st
       = perform (CustomerDetailPage.alert (lit "Invalid phone number for WhatsApp"))
       /\ CustomerDetailPage.handleSMS st
          = perform (CustomerDetailPage.alert (lit "Invalid phone number for SMS")).
Proof.
  exact (X23_no_phone_no_message at_without_dot at_without_dot_no_phone).
Defined.
